(** * Health dashboard: the scoring and aggregation pipeline

    A shallow embedding of the normalizer and its summary
    ([data_integration.py]), the fitness and sleep agents
    ([fitness_tracking_agent.py], [sleep_analysis_agent.py]), the insight
    aggregator ([Aggregate_insights.py]) and the data flow that connects them
    ([app.py]).

    Numbers.  Python [int] and [float] values are embedded in the rationals
    [Q] with exact arithmetic: rounding of binary64, NaN and the infinities
    are outside the model (a JSON numeral that [json.load] reads as an
    infinity or as NaN, such as [1e999], is no [value]).  Numeric results are
    compared with [==] ([Qeq]).

    Overflow.  A number whose magnitude reaches [float_overflow] is held by
    no float, only by a Python int, and Python raises [OverflowError] where
    such an int is converted to a float.  [py_float] has this path, for the
    raw payload.  The arithmetic of the agents and of the aggregator is
    modelled on the numbers that convert; the statements that assert that
    they return a result say so, with [in_float_range] for the numbers the
    aggregator multiplies and [in_int64] for the counts numpy holds.

    Dictionaries.  The agents exchange JSON-like payloads; they are embedded
    as the type [value], with a [dict] as a [gmap string value].  The Python
    operations the code applies to such payloads ([in], [x[k]], [x.get(k, d)],
    comparison, [*], [int()], [float()], iteration) raise on operands of the
    wrong type; they are embedded in the error monad [result]. *)

From Stdlib Require Import QArith Qminmax Qabs Lqa.
From stdpp Require Import base option gmap strings list.

Set Warnings "-register-all".
Set Default Proof Using "Type".
Open Scope Q_scope.

(** ** A fragment of Python's dynamic semantics *)

Module Py.

(** What [json.load] produces. *)
Inductive value : Type :=
  | VNone
  | VBool (b : bool)
  | VNum (q : Q)
  | VStr (s : string)
  | VList (l : list value)
  | VDict (d : gmap string value).

(** The exceptions the modelled operations raise. *)
Inductive exn : Type :=
  | KeyError
  | TypeError
  | AttributeError
  | ValueError
  | FileNotFoundError
  | JSONDecodeError
  | OverflowError.

Inductive result (A : Type) : Type :=
  | Ok (a : A)
  | Raise (e : exn).
Arguments Ok {A} a.
Arguments Raise {A} e.

#[export] Instance result_ret : MRet result := λ A a, Ok a.
#[export] Instance result_bind : MBind result := λ A B f m,
  match m with
  | Ok a => f a
  | Raise e => Raise e
  end.

(** The computation returns: it raises nothing. *)
Definition succeeds {A} (r : result A) : Prop := ∃ a, r = Ok a.

(** Strict order on [Q] as a boolean. *)
Definition Qltb (x y : Q) : bool := negb (Qle_bool y x).

(** The magnitude from which a Python int no longer converts to a float:
    the midpoint between the largest binary64 number, 2^1024 - 2^971, and
    2^1024, which rounds up. *)
Definition float_overflow : Z := (2 ^ 1024 - 2 ^ 970)%Z.

(** The number converts to a float: every float does, and an int below
    [float_overflow] in magnitude. *)
Definition in_float_range (q : Q) : bool := Qltb (Qabs q) (inject_Z float_overflow).
Arguments in_float_range : simpl never.

(** The int is one numpy holds as [int64]. *)
Definition in_int64 (z : Z) : bool := (- 2 ^ 63 <=? z)%Z && (z <? 2 ^ 63)%Z.

(** [bool] is a subclass of [int]; every other non-number makes arithmetic
    and ordering against a number raise [TypeError]. *)
Definition as_num (v : value) : result Q :=
  match v with
  | VNum q => Ok q
  | VBool b => Ok (if b then 1 else 0)
  | _ => Raise TypeError
  end.

(** [v > c], [v >= c], [v < c] against a numeric constant [c]. *)
Definition py_gt (v : value) (c : Q) : result bool := q ← as_num v; mret (Qltb c q).
Definition py_ge (v : value) (c : Q) : result bool := q ← as_num v; mret (Qle_bool c q).
Definition py_lt (v : value) (c : Q) : result bool := q ← as_num v; mret (Qltb q c).

(** [v * c] for a float constant [c]. *)
Definition py_mul (v : value) (c : Q) : result Q := q ← as_num v; mret (q * c).

(** [v == 'lit']: equality never raises. *)
Definition py_eq_str (v : value) (lit : string) : bool :=
  match v with
  | VStr s => String.eqb s lit
  | _ => false
  end.

(** [a and b] on conditions: [b] is not evaluated when [a] is false. *)
Definition py_and (a b : result bool) : result bool :=
  x ← a; if x : bool then b else mret false.

Fixpoint is_substring (k s : string) : bool :=
  String.prefix k s ||
  match s with
  | EmptyString => false
  | String _ s' => is_substring k s'
  end.

(** ['k' in v]: key membership on a dict, element membership on a list,
    substring test on a str, [TypeError] on anything else. *)
Definition py_in (k : string) (v : value) : result bool :=
  match v with
  | VDict d => Ok (bool_decide (is_Some (d !! k)))
  | VList l => Ok (existsb (λ x, py_eq_str x k) l)
  | VStr s => Ok (is_substring k s)
  | _ => Raise TypeError
  end.

(** [v['k']] with a string key. *)
Definition py_getitem (v : value) (k : string) : result value :=
  match v with
  | VDict d =>
      match d !! k with
      | Some x => Ok x
      | None => Raise KeyError
      end
  | _ => Raise TypeError
  end.

(** [v.get('k', dflt)]: only a dict has the method. *)
Definition py_get (v : value) (k : string) (dflt : value) : result value :=
  match v with
  | VDict d => Ok (default dflt (d !! k))
  | _ => Raise AttributeError
  end.

Fixpoint chars (s : string) : list value :=
  match s with
  | EmptyString => []
  | String c s' => VStr (String c EmptyString) :: chars s'
  end.

(** [for x in v]: the elements of a list, the keys of a dict, the characters
    of a str. *)
Definition py_iter (v : value) : result (list value) :=
  match v with
  | VList l => Ok l
  | VDict d => Ok ((λ kv, VStr kv.1) <$> map_to_list d)
  | VStr s => Ok (chars s)
  | _ => Raise TypeError
  end.

(** [min(a, b)] and [max(a, b)] keep the first argument on a tie. *)
Definition py_min (a b : Q) : Q := if Qltb b a then b else a.
Definition py_max (a b : Q) : Q := if Qltb a b then b else a.

(** [sum(l)]: a left fold from the integer 0. *)
Definition py_sum (l : list Q) : Q := fold_left Qplus l 0.

(** [np.mean(l)] on a non-empty list (numpy yields NaN on the empty one,
    which [Q] does not have) of numbers numpy holds as int64 or float64; on
    a Python int beyond them numpy falls back to objects and the mean may
    raise [OverflowError]. *)
Definition np_mean (l : list Q) : Q := py_sum l / inject_Z (Z.of_nat (length l)).

(** [for x in l: ...] with a body that may raise. *)
Fixpoint mapM {A B} (f : A → result B) (l : list A) : result (list B) :=
  match l with
  | [] => Ok []
  | x :: l' => y ← f x; ys ← mapM f l'; mret (y :: ys)
  end.

(** [all(f(x) for x in l)]: stops at the first false. *)
Fixpoint py_all {A} (f : A → result bool) (l : list A) : result bool :=
  match l with
  | [] => Ok true
  | x :: l' => b ← f x; if b : bool then py_all f l' else mret false
  end.

End Py.
Import Py.

(** ** The normalizer: [data_integration.py] *)

Module DataIntegration.

(** The outcome of [open(file_path)] followed by [json.load]. *)
Inductive file_read : Type :=
  | NoSuchFile
  | InvalidJson
  | Parsed (data : value).

Record PhysicalActivity : Type := {
  steps : Z;
  heart_rate : Z;
  hrv : Z
}.

Record Sleep : Type := {
  duration_hours : Q;
  quality_score : string
}.

Record DerivedMetrics : Type := {
  activity_level : string;
  heart_rate_zone : string;
  sleep_adequacy : string
}.

(** One normalized record: an element of [normalized['metrics']]. *)
Record NormalizedRecord : Type := {
  date : value;
  physical_activity : PhysicalActivity;
  sleep : Sleep;
  derived_metrics : DerivedMetrics
}.

(** The dict [normalize_data] returns. *)
Record NormalizedData : Type := {
  user_id : value;
  data_source : string;
  last_updated : string;
  metrics : list NormalizedRecord
}.

(** The integrator object; [normalized_data] is [None] while it still holds
    the empty dict of [__init__]. *)
Record HealthDataIntegrator : Type := {
  config : value;
  normalized_data : option NormalizedData
}.

Definition required_fields : list string := ["user_id"; "metrics"].
Definition required_metric_fields : list string :=
  ["date"; "steps"; "heart_rate"; "sleep_hours"].

(** [_validate_data_structure] *)
Definition _validate_data_structure (data : value) : result bool :=
  top ← py_all (λ field, py_in field data) required_fields;
  if negb top then mret false
  else
    ms ← py_getitem data "metrics";
    l ← py_iter ms;
    py_all (λ metric, py_all (λ field, py_in field metric) required_metric_fields) l.

(** [load_mock_data]: the two handlers log and re-raise; a structure that
    does not validate raises [ValueError("Invalid data structure")]. *)
Definition load_mock_data (r : file_read) : result value :=
  match r with
  | NoSuchFile => Raise FileNotFoundError
  | InvalidJson => Raise JSONDecodeError
  | Parsed data =>
      ok ← _validate_data_structure data;
      if negb ok then Raise ValueError
      else
        _ ← py_get data "user_id" VNone;
        mret data
  end.

(** [_calculate_sleep_quality] *)
Definition _calculate_sleep_quality (sleep_hours : value) : result string :=
  b7 ← py_ge sleep_hours 7;
  if b7 : bool then mret "excellent"%string
  else
    b6 ← py_ge sleep_hours 6;
    if b6 : bool then mret "good"%string
    else
      b5 ← py_ge sleep_hours 5;
      if b5 : bool then mret "fair"%string else mret "poor"%string.

(** [_classify_activity_level] *)
Definition _classify_activity_level (steps : value) : result string :=
  b ← py_ge steps 10000;
  if b : bool then mret "high"%string
  else
    b' ← py_ge steps 5000;
    if b' : bool then mret "moderate"%string else mret "low"%string.

(** [_classify_heart_rate_zone] *)
Definition _classify_heart_rate_zone (heart_rate : value) : result string :=
  b ← py_lt heart_rate 60;
  if b : bool then mret "resting"%string
  else
    b' ← py_lt heart_rate 100;
    if b' : bool then mret "normal"%string
    else
      b'' ← py_lt heart_rate 120;
      if b'' : bool then mret "elevated"%string else mret "high"%string.

(** [_assess_sleep_adequacy] *)
Definition _assess_sleep_adequacy (sleep_hours : value) : result string :=
  b ← py_ge sleep_hours 7;
  if b : bool then mret "adequate"%string
  else
    b' ← py_ge sleep_hours 6;
    if b' : bool then mret "borderline"%string else mret "insufficient"%string.

Section Builtins.
(** Python's reading of a numeral held in a str, as [int(s)] and
    [float(s)] do it; [None] where they raise [ValueError]. *)
Variable int_of_str : string → option Z.
Variable float_of_str : string → option Q.

(** [int(v)]: a number is truncated toward zero; an int of any size is
    returned as it is. *)
Definition py_int (v : value) : result Z :=
  match v with
  | VNum q => Ok (Z.quot (Qnum q) (Z.pos (Qden q)))
  | VBool b => Ok (if b then 1 else 0)%Z
  | VStr s =>
      match int_of_str s with
      | Some z => Ok z
      | None => Raise ValueError
      end
  | _ => Raise TypeError
  end.

(** [float(v)]: an int too large for a float raises [OverflowError]. *)
Definition py_float (v : value) : result Q :=
  match v with
  | VNum q => if in_float_range q then Ok q else Raise OverflowError
  | VBool b => Ok (if b then 1 else 0)
  | VStr s =>
      match float_of_str s with
      | Some q => Ok q
      | None => Raise ValueError
      end
  | _ => Raise TypeError
  end.

(** The body of the loop of [normalize_data]: the dict literal, its
    entries evaluated in the order they are written. *)
Definition normalize_metric (metric : value) : result NormalizedRecord :=
  d ← py_getitem metric "date";
  st ← py_getitem metric "steps" ≫= py_int;
  hr ← py_getitem metric "heart_rate" ≫= py_int;
  hv ← py_get metric "hrv" (VNum 0) ≫= py_int;
  dur ← py_getitem metric "sleep_hours" ≫= py_float;
  qual ← py_getitem metric "sleep_hours" ≫= _calculate_sleep_quality;
  lvl ← py_getitem metric "steps" ≫= _classify_activity_level;
  zone ← py_getitem metric "heart_rate" ≫= _classify_heart_rate_zone;
  adq ← py_getitem metric "sleep_hours" ≫= _assess_sleep_adequacy;
  mret {| date := d;
          physical_activity := {| steps := st; heart_rate := hr; hrv := hv |};
          sleep := {| duration_hours := dur; quality_score := qual |};
          derived_metrics := {| activity_level := lvl;
                                heart_rate_zone := zone;
                                sleep_adequacy := adq |} |}.

(** [normalize_data].  [now] is the reading of [datetime.now()]; the
    result is also stored on the integrator, which an exception leaves
    as it was. *)
Definition normalize_data (now : string) (raw_data : value)
    (self : HealthDataIntegrator) : result (NormalizedData * HealthDataIntegrator) :=
  uid ← py_getitem raw_data "user_id";
  ms ← py_getitem raw_data "metrics" ≫= py_iter;
  recs ← mapM normalize_metric ms;
  let normalized := {| user_id := uid;
                       data_source := "mock_data";
                       last_updated := now;
                       metrics := recs |} in
  mret (normalized, {| config := config self; normalized_data := Some normalized |}).

End Builtins.

(** The record sequence a call of [normalize_data] yields. *)
Definition records_of (r : result (NormalizedData * HealthDataIntegrator))
    : result (list NormalizedRecord) :=
  out ← r; mret (metrics out.1).

(** The dict a call of [normalize_data] returns. *)
Definition output_of (r : result (NormalizedData * HealthDataIntegrator))
    : result NormalizedData :=
  out ← r; mret out.1.

(** A metric that carries the four required fields. *)
Definition has_required_fields (m : gmap string value) : Prop :=
  Forall (λ field, is_Some (m !! field)) required_metric_fields.

(** The same test as a boolean. *)
Definition has_fields (m : gmap string value) : bool :=
  forallb (λ field, bool_decide (is_Some (m !! field))) required_metric_fields.

Definition holds_number (m : gmap string value) (field : string) : Prop :=
  ∃ q, m !! field = Some (VNum q) ∧ in_float_range q = true.

(** A metric typed as a DailyRecord: a date, numbers within the range of
    binary64 for steps, heart rate and sleep hours, and such a number for hrv
    when it is there. *)
Definition well_typed_metric (m : gmap string value) : Prop :=
  is_Some (m !! "date")
  ∧ holds_number m "steps"
  ∧ holds_number m "heart_rate"
  ∧ holds_number m "sleep_hours"
  ∧ (m !! "hrv" = None ∨ holds_number m "hrv").

(** The raw input holds under ['metrics'], if anything, a list of dicts. *)
Definition metrics_are (d : gmap string value) (ms : option (list (gmap string value)))
    : Prop :=
  d !! "metrics" = (λ l, VList (VDict <$> l)) <$> ms.

End DataIntegration.

(** ** The fitness scorer: [fitness_tracking_agent.py] *)

Module Fitness.

(** [_calculate_fitness_score] on the step counts and heart rates of the
    records. *)
Definition _calculate_fitness_score (steps heart_rates : list Z) : Q :=
  let steps_score := py_min 100 (np_mean (inject_Z <$> steps) / 10000 * 100) in
  let hr_score := py_max 0 (100 - (np_mean (inject_Z <$> heart_rates) - 60) * 2) in
  (steps_score + hr_score) / 2.

(** The formula of the specification, with the mean as sum over count and
    the order-theoretic [min] and [max]. *)
Definition mean (l : list Z) : Q :=
  inject_Z (foldr Z.add 0%Z l) / inject_Z (Z.of_nat (length l)).
Definition steps_score_spec (steps : list Z) : Q :=
  Qmin 100 (mean steps / 10000 * 100).
Definition hr_score_spec (heart_rates : list Z) : Q :=
  Qmax 0 (100 - (mean heart_rates - 60) * 2).
Definition fitness_score_spec (steps heart_rates : list Z) : Q :=
  (steps_score_spec steps + hr_score_spec heart_rates) / 2.

End Fitness.

(** ** The sleep scorer: [sleep_analysis_agent.py] *)

Module Sleep.

(** [self.sleep_goals] *)
Definition optimal_duration : Q := 7.5.
Definition minimum_duration : Q := 6.0.
Definition maximum_duration : Q := 9.0.
Definition consistency_threshold : Q := 0.8.

(** An element of [sleep_data], as [analyze_sleep_data] extracts it from a
    normalized record. *)
Record SleepEntry : Type := {
  date : value;
  sleep_hours : Q;
  quality_score : string;
  adequacy : string
}.

Record SleepRecommendation : Type := {
  rec_date : value;
  recommendation : string;
  priority : string;
  rec_sleep_hours : Q;
  rec_quality_score : string
}.

(** The first loop of [analyze_sleep_data]: one entry per normalized record. *)
Definition sleep_entries (metrics : list DataIntegration.NormalizedRecord)
    : list SleepEntry :=
  (λ metric,
     {| date := DataIntegration.date metric;
        sleep_hours := DataIntegration.duration_hours (DataIntegration.sleep metric);
        quality_score := DataIntegration.quality_score (DataIntegration.sleep metric);
        adequacy :=
          DataIntegration.sleep_adequacy (DataIntegration.derived_metrics metric) |})
  <$> metrics.

(** The [if]/[elif] chain of [_generate_sleep_recommendations]: the text
    and the priority chosen for one entry. *)
Definition recommend (duration : Q) (quality : string) : string * string :=
  if Qltb duration 6 then
    ("Your sleep duration is insufficient. Aim for 7-9 hours nightly for optimal health and recovery.",
     "high")%string
  else if Qltb 9 duration then
    ("You're sleeping more than recommended. Consider if you're getting quality sleep or if there are underlying health issues.",
     "medium")%string
  else if String.eqb quality "poor" then
    ("Focus on sleep quality. Consider sleep hygiene practices like consistent bedtime and screen-free hour before bed.",
     "high")%string
  else if String.eqb quality "fair" then
    ("Your sleep is adequate but could be improved. Try maintaining a consistent sleep schedule.",
     "medium")%string
  else
    ("Excellent sleep habits! Continue maintaining your current sleep routine.",
     "low")%string.

(** [_generate_sleep_recommendations] *)
Definition _generate_sleep_recommendations (sleep_data : list SleepEntry)
    : list SleepRecommendation :=
  (λ entry,
     let duration := sleep_hours entry in
     let quality := quality_score entry in
     let '(text, prio) := recommend duration quality in
     {| rec_date := date entry;
        recommendation := text;
        priority := prio;
        rec_sleep_hours := duration;
        rec_quality_score := quality |}) <$> sleep_data.

(** [_calculate_sleep_debt] *)
Definition _calculate_sleep_debt (durations : list Q) : Q :=
  match durations with
  | [] => 0.0
  | _ => py_sum ((λ duration, py_max 0 (optimal_duration - duration)) <$> durations)
  end.

Section Numpy.
(** [np.std], the population standard deviation, is not a rational
    function; the scorer is modelled over any implementation of it. *)
Variable np_std : list Q → Q.

(** [_calculate_consistency].  On a series of mean 0 numpy divides by zero
    and yields NaN or an infinity; no statement below is about such a
    series. *)
Definition _calculate_consistency (durations : list Q) : Q :=
  if (length durations <? 2)%nat then 1.0
  else 1.0 - np_std durations / np_mean durations.

(** [_calculate_sleep_score] *)
Definition _calculate_sleep_score (durations : list Q) : Q :=
  match durations with
  | [] => 0.0
  | _ =>
      let avg_duration := np_mean durations in
      let consistency := _calculate_consistency durations in
      let duration_score :=
        if Qle_bool 7 avg_duration && Qle_bool avg_duration 9 then 70
        else if (Qle_bool 6 avg_duration && Qltb avg_duration 7)
                || (Qltb 9 avg_duration && Qle_bool avg_duration 10) then 50
        else 30 in
      let consistency_score := consistency * 30 in
      duration_score + consistency_score
  end.
End Numpy.

(** The population variance whose square root [np.std] returns. *)
Definition variance (l : list Q) : Q :=
  np_mean ((λ x, (x - np_mean l) * (x - np_mean l)) <$> l).

(** The priority table as the specification words it: the high-priority
    conditions first, then the medium-priority ones. *)
Definition priority_spec (duration : Q) (quality : string) : string :=
  if Qltb duration 6 || String.eqb quality "poor" then "high"
  else if Qltb 9 duration || String.eqb quality "fair" then "medium"
  else "low".

(** The table the code implements: a long night is "medium" whatever its
    quality label. *)
Definition priority_by_duration_first (duration : Q) (quality : string) : string :=
  if Qltb duration 6 || (String.eqb quality "poor" && Qle_bool duration 9) then "high"
  else if Qltb 9 duration || String.eqb quality "fair" then "medium"
  else "low".

(** The sleep debt as the specification words it: the sum over the days of
    the shortfall against 7.5 hours, no day counting below zero. *)
Definition sleep_debt_spec (durations : list Q) : Q :=
  foldr (λ duration acc, Qmax 0 (7.5 - duration) + acc) 0 durations.

End Sleep.

(** ** The insight aggregator: [Aggregate_insights.py] *)

Module Aggregate.

Record Correlation : Type := {
  strength : string;
  description : string
}.

Record Recommendation : Type := {
  priority : string;
  category : string;
  recommendation : string;
  action : string
}.

Record ActionBundle : Type := {
  week : value;
  focus : string;
  actions : list string
}.

(** The dict [aggregate_insights] returns; [error] is [None] when the dict
    has no ['error'] key. *)
Record AggregatedInsight : Type := {
  user_id : value;
  analysis_date : string;
  error : option string;
  holistic_insights : list string;
  correlation_analysis : gmap string Correlation;
  priority_recommendations : list Recommendation;
  wellness_score : Q;
  trend_analysis : gmap string value;
  action_plan : list ActionBundle
}.

(** [_generate_holistic_insights] *)
Definition _generate_holistic_insights (fitness_data sleep_data sentiment_data : value)
    : result (list string) :=
  let insights : list string := [] in
  c1 ← py_and (py_in "performance_metrics" fitness_data) (py_in "sleep_patterns" sleep_data);
  insights ←
    (if c1 : bool then
       avg_steps ← py_getitem fitness_data "performance_metrics"
                     ≫= (λ pm, py_get pm "average_steps" (VNum 0));
       avg_sleep ← py_getitem sleep_data "sleep_patterns"
                     ≫= (λ sp, py_get sp "average_duration" (VNum 0));
       b1 ← py_and (py_gt avg_steps 8000) (py_ge avg_sleep 7);
       if b1 : bool then
         mret (insights ++ ["Excellent balance between physical activity and sleep! Your lifestyle supports optimal health."%string])
       else
         b2 ← py_and (py_lt avg_steps 5000) (py_lt avg_sleep 6);
         if b2 : bool then
           mret (insights ++ ["Both your activity level and sleep duration need attention. Consider a gradual approach to improve both areas."%string])
         else
           b3 ← py_and (py_gt avg_steps 8000) (py_lt avg_sleep 6);
           if b3 : bool then
             mret (insights ++ ["High activity with insufficient sleep may lead to burnout. Prioritize sleep for better recovery."%string])
           else mret insights
     else mret insights);
  c2 ← py_and (py_in "summary" sentiment_data) (py_in "performance_metrics" fitness_data);
  insights ←
    (if c2 : bool then
       overall_sentiment ← py_getitem sentiment_data "summary"
                             ≫= (λ su, py_get su "overall_sentiment" (VStr "neutral"));
       fitness_score ← py_getitem fitness_data "performance_metrics"
                         ≫= (λ pm, py_get pm "fitness_score" (VNum 0));
       b1 ← py_and (Ok (py_eq_str overall_sentiment "positive")) (py_gt fitness_score 70);
       if b1 : bool then
         mret (insights ++ ["Great synergy between your mental and physical well-being! This positive cycle supports overall health."%string])
       else
         b2 ← py_and (Ok (py_eq_str overall_sentiment "negative")) (py_lt fitness_score 50);
         if b2 : bool then
           mret (insights ++ ["Your mood and physical activity both need attention. Consider starting with light exercise to boost both mood and fitness."%string])
         else mret insights
     else mret insights);
  c3 ← py_and (py_in "sleep_quality_metrics" sleep_data) (py_in "summary" sentiment_data);
  insights ←
    (if c3 : bool then
       sleep_score ← py_getitem sleep_data "sleep_quality_metrics"
                       ≫= (λ sq, py_get sq "sleep_score" (VNum 0));
       overall_sentiment ← py_getitem sentiment_data "summary"
                             ≫= (λ su, py_get su "overall_sentiment" (VStr "neutral"));
       b1 ← py_and (py_gt sleep_score 80) (Ok (py_eq_str overall_sentiment "positive"));
       if b1 : bool then
         mret (insights ++ ["Quality sleep is supporting your positive mood. Maintain your current sleep routine."%string])
       else
         b2 ← py_and (py_lt sleep_score 50) (Ok (py_eq_str overall_sentiment "negative"));
         if b2 : bool then
           mret (insights ++ ["Poor sleep quality may be contributing to low mood. Focus on sleep hygiene to improve both sleep and emotional well-being."%string])
         else mret insights
     else mret insights);
  mret insights.

(** [_analyze_correlations] *)
Definition _analyze_correlations (fitness_data sleep_data sentiment_data : value)
    : result (gmap string Correlation) :=
  let correlations : gmap string Correlation := ∅ in
  c1 ← py_and (py_in "performance_metrics" fitness_data) (py_in "sleep_patterns" sleep_data);
  correlations ←
    (if c1 : bool then
       fitness_score ← py_getitem fitness_data "performance_metrics"
                         ≫= (λ pm, py_get pm "fitness_score" (VNum 0));
       sleep_score ← py_getitem sleep_data "sleep_quality_metrics"
                       ≫= (λ sq, py_get sq "sleep_score" (VNum 0));
       b1 ← py_and (py_gt fitness_score 70) (py_gt sleep_score 70);
       if b1 : bool then
         mret (<["fitness_sleep"%string :=
                  {| strength := "strong_positive";
                     description := "High fitness levels correlate with good sleep quality" |}]>
                 correlations)
       else
         b2 ← py_and (py_lt fitness_score 50) (py_lt sleep_score 50);
         if b2 : bool then
           mret (<["fitness_sleep"%string :=
                    {| strength := "strong_negative";
                       description := "Low fitness and poor sleep may be interconnected" |}]>
                   correlations)
         else
           mret (<["fitness_sleep"%string :=
                    {| strength := "moderate";
                       description := "Some correlation between fitness and sleep patterns" |}]>
                   correlations)
     else mret correlations);
  c2 ← py_and (py_in "summary" sentiment_data) (py_in "performance_metrics" fitness_data);
  correlations ←
    (if c2 : bool then
       sentiment_dist ← py_getitem sentiment_data "summary"
                          ≫= (λ su, py_get su "sentiment_distribution" (VDict ∅));
       positive_pct ← py_get sentiment_dist "positive_percentage" (VNum 0);
       fitness_score ← py_getitem fitness_data "performance_metrics"
                         ≫= (λ pm, py_get pm "fitness_score" (VNum 0));
       b1 ← py_and (py_gt positive_pct 60) (py_gt fitness_score 70);
       if b1 : bool then
         mret (<["mood_fitness"%string :=
                  {| strength := "strong_positive";
                     description := "Positive mood correlates with high fitness levels" |}]>
                 correlations)
       else
         b2 ← py_and (py_lt positive_pct 40) (py_lt fitness_score 50);
         if b2 : bool then
           mret (<["mood_fitness"%string :=
                    {| strength := "strong_negative";
                       description := "Low mood and low fitness may be related" |}]>
                   correlations)
         else mret correlations
     else mret correlations);
  mret correlations.

(** [_generate_priority_recommendations] *)
Definition _generate_priority_recommendations (fitness_data sleep_data sentiment_data : value)
    : result (list Recommendation) :=
  let recommendations : list Recommendation := [] in
  c1 ← py_in "sleep_patterns" sleep_data;
  recommendations ←
    (if c1 : bool then
       avg_sleep ← py_getitem sleep_data "sleep_patterns"
                     ≫= (λ sp, py_get sp "average_duration" (VNum 0));
       b ← py_lt avg_sleep 6;
       if b : bool then
         mret (recommendations ++
               [{| priority := "high";
                   category := "sleep";
                   recommendation := "Sleep duration is critically low. This should be your top priority for health improvement.";
                   action := "Establish a consistent bedtime routine and aim for 7-9 hours nightly." |}])
       else mret recommendations
     else mret recommendations);
  c2 ← py_in "summary" sentiment_data;
  recommendations ←
    (if c2 : bool then
       sentiment_dist ← py_getitem sentiment_data "summary"
                          ≫= (λ su, py_get su "sentiment_distribution" (VDict ∅));
       negative_pct ← py_get sentiment_dist "negative_percentage" (VNum 0);
       b ← py_gt negative_pct 60;
       if b : bool then
         mret (recommendations ++
               [{| priority := "high";
                   category := "mental_health";
                   recommendation := "High frequency of negative emotions detected. Consider professional support.";
                   action := "Reach out to a mental health professional or trusted support system." |}])
       else mret recommendations
     else mret recommendations);
  c3 ← py_in "performance_metrics" fitness_data;
  recommendations ←
    (if c3 : bool then
       fitness_score ← py_getitem fitness_data "performance_metrics"
                         ≫= (λ pm, py_get pm "fitness_score" (VNum 0));
       b ← py_lt fitness_score 60;
       if b : bool then
         mret (recommendations ++
               [{| priority := "medium";
                   category := "fitness";
                   recommendation := "Fitness levels could be improved for better health outcomes.";
                   action := "Start with 30 minutes of moderate activity daily, gradually increasing intensity." |}])
       else mret recommendations
     else mret recommendations);
  c4 ← py_and (py_in "performance_metrics" fitness_data) (py_in "sleep_patterns" sleep_data);
  recommendations ←
    (if c4 : bool then
       fitness_score ← py_getitem fitness_data "performance_metrics"
                         ≫= (λ pm, py_get pm "fitness_score" (VNum 0));
       sleep_score ← py_getitem sleep_data "sleep_quality_metrics"
                       ≫= (λ sq, py_get sq "sleep_score" (VNum 0));
       b ← py_and (py_gt fitness_score 80) (py_gt sleep_score 80);
       if b : bool then
         mret (recommendations ++
               [{| priority := "low";
                   category := "maintenance";
                   recommendation := "Excellent health metrics! Focus on maintaining current habits.";
                   action := "Continue current routine and consider adding variety to prevent plateau." |}])
       else mret recommendations
     else mret recommendations);
  mret recommendations.

(** [_calculate_wellness_score] *)
Definition _calculate_wellness_score (fitness_data sleep_data sentiment_data : value)
    : result Q :=
  let scores : list Q := [] in
  c1 ← py_in "performance_metrics" fitness_data;
  scores ←
    (if c1 : bool then
       fitness_score ← py_getitem fitness_data "performance_metrics"
                         ≫= (λ pm, py_get pm "fitness_score" (VNum 0));
       x ← py_mul fitness_score 0.4;
       mret (scores ++ [x])
     else mret scores);
  c2 ← py_in "sleep_quality_metrics" sleep_data;
  scores ←
    (if c2 : bool then
       sleep_score ← py_getitem sleep_data "sleep_quality_metrics"
                       ≫= (λ sq, py_get sq "sleep_score" (VNum 0));
       x ← py_mul sleep_score 0.35;
       mret (scores ++ [x])
     else mret scores);
  c3 ← py_in "summary" sentiment_data;
  scores ←
    (if c3 : bool then
       sentiment_dist ← py_getitem sentiment_data "summary"
                          ≫= (λ su, py_get su "sentiment_distribution" (VDict ∅));
       positive_pct ← py_get sentiment_dist "positive_percentage" (VNum 0);
       let mood_score := positive_pct in
       x ← py_mul mood_score 0.25;
       mret (scores ++ [x])
     else mret scores);
  mret (match scores with [] => 0.0 | _ => py_sum scores end).

(** The number of values of the dict equal to the string [lit]. *)
Definition count_values (trends : gmap string value) (lit : string) : nat :=
  length (filter (λ kv, py_eq_str kv.2 lit = true) (map_to_list trends)).

(** [_analyze_trends] *)
Definition _analyze_trends (fitness_data sleep_data sentiment_data : value)
    : result (gmap string value) :=
  let trends : gmap string value := ∅ in
  c1 ← py_in "trends" fitness_data;
  trends ←
    (if c1 : bool then
       fitness_trend ← py_getitem fitness_data "trends"
                         ≫= (λ t, py_get t "steps_trend" (VStr "stable"));
       mret (<["fitness"%string := fitness_trend]> trends)
     else mret trends);
  c2 ← py_in "sleep_patterns" sleep_data;
  trends ←
    (if c2 : bool then
       sleep_trend ← py_getitem sleep_data "sleep_patterns"
                       ≫= (λ sp, py_get sp "quality_trend" (VStr "stable"));
       mret (<["sleep"%string := sleep_trend]> trends)
     else mret trends);
  c3 ← py_in "sentiment_trends" sentiment_data;
  trends ←
    (if c3 : bool then
       mood_trend ← py_getitem sentiment_data "sentiment_trends"
                      ≫= (λ t, py_get t "trend" (VStr "stable"));
       mret (<["mood"%string := mood_trend]> trends)
     else mret trends);
  let improving_trends := count_values trends "improving" in
  let declining_trends := count_values trends "declining" in
  mret (if (declining_trends <? improving_trends)%nat then
          <["overall"%string := VStr "improving"]> trends
        else if (improving_trends <? declining_trends)%nat then
          <["overall"%string := VStr "declining"]> trends
        else
          <["overall"%string := VStr "stable"]> trends).

(** [_generate_action_plan]: the three fixed phases. *)
Definition _generate_action_plan (fitness_data sleep_data sentiment_data : value)
    : list ActionBundle :=
  [ {| week := VNum 1;
       focus := "Foundation";
       actions := [ "Establish consistent sleep schedule (same bedtime and wake time)";
                    "Start with 10-minute daily walks";
                    "Practice 5 minutes of daily gratitude journaling" ]%string |};
    {| week := VStr "2-4";
       focus := "Building Habits";
       actions := [ "Increase daily steps to 7,000-8,000";
                    "Implement sleep hygiene practices";
                    "Add 10 minutes of mindfulness or meditation" ]%string |};
    {| week := VStr "2+ months";
       focus := "Optimization";
       actions := [ "Aim for 10,000 daily steps";
                    "Maintain 7-9 hours of quality sleep";
                    "Develop stress management techniques" ]%string |} ].

(** [_get_error_response] *)
Definition _get_error_response (now : string) : AggregatedInsight :=
  {| user_id := VStr "unknown";
     analysis_date := now;
     error := Some "Insights aggregation failed"%string;
     holistic_insights := [];
     correlation_analysis := ∅;
     priority_recommendations := [];
     wellness_score := 0.0;
     trend_analysis := ∅;
     action_plan := [] |}.

(** The body of the [try] block of [aggregate_insights]. *)
Definition aggregate_body (now : string) (fitness_data sleep_data sentiment_data : value)
    : result AggregatedInsight :=
  uid ← py_get fitness_data "user_id" (VStr "unknown");
  insights ← _generate_holistic_insights fitness_data sleep_data sentiment_data;
  correlations ← _analyze_correlations fitness_data sleep_data sentiment_data;
  recommendations ← _generate_priority_recommendations fitness_data sleep_data sentiment_data;
  score ← _calculate_wellness_score fitness_data sleep_data sentiment_data;
  trends ← _analyze_trends fitness_data sleep_data sentiment_data;
  let plan := _generate_action_plan fitness_data sleep_data sentiment_data in
  mret {| user_id := uid;
          analysis_date := now;
          error := None;
          holistic_insights := insights;
          correlation_analysis := correlations;
          priority_recommendations := recommendations;
          wellness_score := score;
          trend_analysis := trends;
          action_plan := plan |}.

(** [aggregate_insights]: [except Exception] turns every failure of the
    body into the error response.  [now] is the reading of
    [datetime.now()] that reaches the result. *)
Definition aggregate_insights (now : string) (fitness_data sleep_data sentiment_data : value)
    : AggregatedInsight :=
  match aggregate_body now fitness_data sleep_data sentiment_data with
  | Ok aggregated_analysis => aggregated_analysis
  | Raise _ => _get_error_response now
  end.

(** The weighted sum of the specification: each component that is present
    enters with its weight, an absent one is left out. *)
Definition weighted_sum (fitness_score sleep_score positive_pct : option Q) : Q :=
  default 0 ((λ x, x * 0.4) <$> fitness_score)
  + default 0 ((λ x, x * 0.35) <$> sleep_score)
  + default 0 ((λ x, x * 0.25) <$> positive_pct).

(** A value that arithmetic and ordering accept. *)
Definition numeric (v : value) : Prop := ∃ q, as_num v = Ok q.

(** The section is absent from the report, or a dict that satisfies [P]. *)
Definition section_ok (report : gmap string value) (section : string)
    (P : gmap string value → Prop) : Prop :=
  match report !! section with
  | None => True
  | Some (VDict sec) => P sec
  | Some _ => False
  end.

(** The field is absent from the section, or a number. *)
Definition number_or_missing (sec : gmap string value) (key : string) : Prop :=
  match sec !! key with
  | None => True
  | Some v => numeric v
  end.

(** Reports with the shape the three agents give them, any section left
    out. *)
Definition well_formed_fitness (report : gmap string value) : Prop :=
  section_ok report "performance_metrics"
    (λ pm, number_or_missing pm "fitness_score" ∧ number_or_missing pm "average_steps")
  ∧ section_ok report "trends" (λ _, True).

Definition well_formed_sleep (report : gmap string value) : Prop :=
  section_ok report "sleep_patterns" (λ sp, number_or_missing sp "average_duration")
  ∧ section_ok report "sleep_quality_metrics" (λ sq, number_or_missing sq "sleep_score").

Definition well_formed_sentiment (report : gmap string value) : Prop :=
  section_ok report "summary"
    (λ su, section_ok su "sentiment_distribution"
             (λ sd, number_or_missing sd "positive_percentage"
                    ∧ number_or_missing sd "negative_percentage"))
  ∧ section_ok report "sentiment_trends" (λ _, True).

(** The number the section holds under [key], if it holds one, converts to
    a float. *)
Definition converts (sec : gmap string value) (key : string) : Prop :=
  match sec !! key with
  | Some v =>
      match as_num v with
      | Ok q => in_float_range q = true
      | Raise _ => True
      end
  | None => True
  end.

(** The three numbers [_calculate_wellness_score] multiplies by its float
    weights convert to a float. *)
Definition scores_convert (fitness sleep sentiment : gmap string value) : Prop :=
  section_ok fitness "performance_metrics" (λ pm, converts pm "fitness_score")
  ∧ section_ok sleep "sleep_quality_metrics" (λ sq, converts sq "sleep_score")
  ∧ section_ok sentiment "summary"
      (λ su, section_ok su "sentiment_distribution"
               (λ sd, converts sd "positive_percentage")).

(** The one read of a section that no test of that section guards:
    [_analyze_correlations] and [_generate_priority_recommendations] index
    [sleep_data['sleep_quality_metrics']] after testing for
    ['sleep_patterns']. *)
Definition unguarded_sleep_quality_read (fitness sleep : gmap string value) : Prop :=
  is_Some (fitness !! "performance_metrics")
  ∧ is_Some (sleep !! "sleep_patterns")
  ∧ sleep !! "sleep_quality_metrics" = None.

(** The number a section holds under [key], 0 when the key is missing. *)
Definition field_or_0 (sec : gmap string value) (key : string) (q : Q) : Prop :=
  match sec !! key with
  | None => q = 0
  | Some v => as_num v = Ok q
  end.

(** The score a fitness or sleep report carries: [None] when the report has
    no [section], the number under [key] of the section otherwise. *)
Definition component (report : gmap string value) (section key : string)
    (score : option Q) : Prop :=
  match report !! section with
  | None => score = None
  | Some (VDict sec) => ∃ q, field_or_0 sec key q ∧ score = Some q
  | Some _ => False
  end.

(** The positive percentage a sentiment report carries: [None] when it has
    no summary, the number under [positive_percentage] of the summary's
    [sentiment_distribution] otherwise. *)
Definition sentiment_component (report : gmap string value) (score : option Q) : Prop :=
  match report !! "summary" with
  | None => score = None
  | Some (VDict su) =>
      match su !! "sentiment_distribution" with
      | None => score = Some 0
      | Some (VDict sd) => ∃ q, field_or_0 sd "positive_percentage" q ∧ score = Some q
      | Some _ => False
      end
  | Some _ => False
  end.

End Aggregate.

(** ** Shapes of the aggregator's results *)

Module AggregateShapes.

(** The priority and category of the four recommendations
    [_generate_priority_recommendations] can append, in the order of its four
    blocks. *)
Definition priority_order : list (string * string) :=
  [("high", "sleep"); ("high", "mental_health"); ("medium", "fitness");
   ("low", "maintenance")]%string.

End AggregateShapes.

(** ** Arithmetic that raises, and tallies *)

Module PyArith.

(** The exceptions of [Py.exn], and the one true division adds. *)
Inductive error : Type :=
  | Builtin (e : exn)
  | ZeroDivisionError.

Inductive outcome (A : Type) : Type :=
  | Returns (a : A)
  | Fails (e : error).
Arguments Returns {A} a.
Arguments Fails {A} e.

#[export] Instance outcome_ret : MRet outcome := λ A a, Returns a.
#[export] Instance outcome_bind : MBind outcome := λ A B f m,
  match m with
  | Returns a => f a
  | Fails e => Fails e
  end.

Definition lift {A} (r : result A) : outcome A :=
  match r with
  | Ok a => Returns a
  | Raise e => Fails (Builtin e)
  end.

(** [a / b] on Python numbers. *)
Definition py_truediv (a b : Q) : outcome Q :=
  if Qeq_bool b 0 then Fails ZeroDivisionError else Returns (a / b).

(** [d[k] += 1] on a dict of counters: the read raises on a missing key. *)
Definition dict_incr (d : gmap string Z) (k : string) : result (gmap string Z) :=
  match d !! k with
  | Some n => Ok (<[k := (n + 1)%Z]> d)
  | None => Raise KeyError
  end.

(** [d[k]] on a dict of counters. *)
Definition dict_getitem (d : gmap string Z) (k : string) : result Z :=
  match d !! k with
  | Some n => Ok n
  | None => Raise KeyError
  end.

(** [for k in labels: d[k] += 1] *)
Fixpoint py_tally (d : gmap string Z) (labels : list string) : result (gmap string Z) :=
  match labels with
  | [] => Ok d
  | k :: labels' => d' ← dict_incr d k; py_tally d' labels'
  end.

(** [sum(d.values())] *)
Definition dict_total (d : gmap string Z) : Z :=
  map_fold (λ _ n acc, (n + acc)%Z) 0%Z d.

(** [sum(1 for x in l if p(x))] *)
Definition count_if {A} (p : A → bool) (l : list A) : Z :=
  Z.of_nat (length (List.filter p l)).

(** [np.max] and [np.min] raise [ValueError] on an empty sequence. *)
Definition np_max (l : list Z) : result Z :=
  match l with
  | [] => Raise ValueError
  | x :: l' => Ok (foldr Z.max x l')
  end.

Definition np_min (l : list Z) : result Z :=
  match l with
  | [] => Raise ValueError
  | x :: l' => Ok (foldr Z.min x l')
  end.

(** [l[0]] and [l[-1]]; the code reads them only behind a test that the
    list has two elements. *)
Definition first_of (l : list Z) : Z := default 0%Z (head l).
Definition last_of (l : list Z) : Z := default 0%Z (last l).

End PyArith.
Import PyArith.

(** ** The summary of the normalizer: [data_integration.py] *)

Module DataSummary.
Import DataIntegration.

Record MetricsSummary : Type := {
  total_days : nat;
  average_steps : Q;
  average_heart_rate : Q;
  average_sleep_hours : Q;
  activity_distribution : gmap string Z;
  sleep_quality_distribution : gmap string Z
}.

(** [_get_activity_distribution] *)
Definition _get_activity_distribution (metrics : list NormalizedRecord)
    : result (gmap string Z) :=
  py_tally {[ "high" := 0%Z; "moderate" := 0%Z; "low" := 0%Z ]}
           ((λ metric, activity_level (derived_metrics metric)) <$> metrics).

(** [_get_sleep_quality_distribution] *)
Definition _get_sleep_quality_distribution (metrics : list NormalizedRecord)
    : result (gmap string Z) :=
  py_tally {[ "excellent" := 0%Z; "good" := 0%Z; "fair" := 0%Z; "poor" := 0%Z ]}
           ((λ metric, quality_score (sleep metric)) <$> metrics).

(** [get_metrics_summary]: [None] is the empty dict returned while nothing
    has been normalized; the entries of the dict literal are evaluated in
    the order they are written. *)
Definition get_metrics_summary (self : HealthDataIntegrator)
    : outcome (option MetricsSummary) :=
  match normalized_data self with
  | None => Returns None
  | Some data =>
      let metrics := metrics data in
      let n := inject_Z (Z.of_nat (length metrics)) in
      avg_steps ←
        py_truediv (py_sum ((λ m, inject_Z (steps (physical_activity m))) <$> metrics)) n;
      avg_hr ←
        py_truediv (py_sum ((λ m, inject_Z (heart_rate (physical_activity m))) <$> metrics)) n;
      avg_sleep ←
        py_truediv (py_sum ((λ m, duration_hours (sleep m)) <$> metrics)) n;
      activity ← lift (_get_activity_distribution metrics);
      quality ← lift (_get_sleep_quality_distribution metrics);
      mret (Some {| total_days := length metrics;
                    average_steps := avg_steps;
                    average_heart_rate := avg_hr;
                    average_sleep_hours := avg_sleep;
                    activity_distribution := activity;
                    sleep_quality_distribution := quality |})
  end.

End DataSummary.

(** ** The fitness agent: the analysis around the score *)

Module FitnessAgent.

(** [self.activity_goals] *)
Definition steps_daily : Z := 10000.
Definition calories_daily : Z := 500.
Definition active_minutes_daily : Z := 30.

Record Trends : Type := {
  steps_trend : string;
  heart_rate_trend : string;
  consistency_score : Q;
  improvement_rate : Q
}.

Record PerformanceMetrics : Type := {
  average_steps : Q;
  max_steps : Z;
  min_steps : Z;
  average_heart_rate : Q;
  fitness_score : Q;
  goal_achievement_rate : Q
}.

Record GoalProgress : Type := {
  steps_progress : Q;
  goal_status : string
}.

(** An element of [analysis['fitness_recommendations']]. *)
Record DailyRecommendation : Type := {
  date : value;
  steps : Z;
  heart_rate : Z;
  activity_level : string;
  recommendation : string;
  goal_progress : GoalProgress
}.

(** The dict [analyze_fitness_data] returns; [error] is [None] when the dict
    has no ['error'] key, [trends] and [performance_metrics] are [None] when
    they are the empty dict of the error response. *)
Record FitnessAnalysis : Type := {
  user_id : value;
  analysis_date : string;
  error : option string;
  fitness_recommendations : list DailyRecommendation;
  trends : option Trends;
  performance_metrics : option PerformanceMetrics;
  health_insights : list string
}.

(** The two comprehensions every function starts with. *)
Definition steps_of (metrics : list DataIntegration.NormalizedRecord) : list Z :=
  (λ m, DataIntegration.steps (DataIntegration.physical_activity m)) <$> metrics.
Definition heart_rates_of (metrics : list DataIntegration.NormalizedRecord) : list Z :=
  (λ m, DataIntegration.heart_rate (DataIntegration.physical_activity m)) <$> metrics.

(** [_generate_daily_recommendation] *)
Definition _generate_daily_recommendation (metric : DataIntegration.NormalizedRecord)
    : string :=
  let activity_level :=
    DataIntegration.activity_level (DataIntegration.derived_metrics metric) in
  if String.eqb activity_level "low" then
    "Consider taking a 30-minute walk or doing light exercises to boost your activity level."
  else if String.eqb activity_level "moderate" then
    "Good activity level! Try to add some strength training or increase your walking pace."
  else
    "Excellent activity level! Consider adding variety with different types of exercises.".

(** [_calculate_goal_progress] *)
Definition _calculate_goal_progress (metric : DataIntegration.NormalizedRecord)
    : GoalProgress :=
  let steps := DataIntegration.steps (DataIntegration.physical_activity metric) in
  {| steps_progress := py_min 100 (inject_Z steps / inject_Z steps_daily * 100);
     goal_status := if (steps_daily <=? steps)%Z then "achieved" else "in_progress" |}.

(** [_calculate_improvement_rate] *)
Definition _calculate_improvement_rate (steps : list Z) : Q :=
  if (length steps <? 2)%nat then 0.0
  else if (0 <? first_of steps)%Z
       then inject_Z (last_of steps - first_of steps) / inject_Z (first_of steps)
       else 0.0.

(** [_calculate_goal_achievement_rate] *)
Definition _calculate_goal_achievement_rate (steps : list Z) : Q :=
  match steps with
  | [] => 0.0
  | _ =>
      let achieved_days := count_if (λ step, (steps_daily <=? step)%Z) steps in
      inject_Z achieved_days / inject_Z (Z.of_nat (length steps)) * 100
  end.

Section Numpy.
(** [np.std], as in the sleep scorer. *)
Variable np_std : list Q → Q.

(** [_calculate_consistency_score].  On a series of mean 0 numpy divides by
    zero and yields NaN or an infinity; no statement below is about such a
    series. *)
Definition _calculate_consistency_score (steps : list Z) : Q :=
  if (length steps <? 2)%nat then 1.0
  else 1.0 - np_std (inject_Z <$> steps) / np_mean (inject_Z <$> steps).

(** [_calculate_trends] *)
Definition _calculate_trends (metrics : list DataIntegration.NormalizedRecord)
    : Trends :=
  let steps := steps_of metrics in
  let heart_rates := heart_rates_of metrics in
  {| steps_trend :=
       if (1 <? length steps)%nat && (first_of steps <? last_of steps)%Z
       then "increasing" else "decreasing";
     heart_rate_trend :=
       if Qltb (np_std (inject_Z <$> heart_rates)) 5 then "stable" else "variable";
     consistency_score := _calculate_consistency_score steps;
     improvement_rate := _calculate_improvement_rate steps |}.

(** [_calculate_performance_metrics]: [np.max] raises on an empty series,
    after [np.mean] has answered NaN with a warning. *)
Definition _calculate_performance_metrics
    (metrics : list DataIntegration.NormalizedRecord) : result PerformanceMetrics :=
  let steps := steps_of metrics in
  let heart_rates := heart_rates_of metrics in
  let average := np_mean (inject_Z <$> steps) in
  highest ← np_max steps;
  lowest ← np_min steps;
  mret {| average_steps := average;
          max_steps := highest;
          min_steps := lowest;
          average_heart_rate := np_mean (inject_Z <$> heart_rates);
          fitness_score := Fitness._calculate_fitness_score steps heart_rates;
          goal_achievement_rate := _calculate_goal_achievement_rate steps |}.

(** [_generate_health_insights] *)
Definition _generate_health_insights (metrics : list DataIntegration.NormalizedRecord)
    : list string :=
  let insights : list string := [] in
  let steps := steps_of metrics in
  let heart_rates := heart_rates_of metrics in
  let avg_steps := np_mean (inject_Z <$> steps) in
  let insights :=
    if Qltb avg_steps 5000 then
      insights ++ ["Your daily step count is significantly below recommended levels. Consider taking short walks throughout the day."%string]
    else if Qltb avg_steps 8000 then
      insights ++ ["You're making good progress on daily steps. Try to reach 10,000 steps for optimal health benefits."%string]
    else
      insights ++ ["Excellent activity level! Your step count indicates good cardiovascular health."%string] in
  let avg_hr := np_mean (inject_Z <$> heart_rates) in
  let insights :=
    if Qltb 80 avg_hr then
      insights ++ ["Your resting heart rate is elevated. Consider stress management techniques and regular exercise."%string]
    else if Qltb avg_hr 60 then
      insights ++ ["Your heart rate indicates good cardiovascular fitness. Keep up the excellent work!"%string]
    else insights in
  let consistency := _calculate_consistency_score steps in
  let insights :=
    if Qltb consistency 0.7 then
      insights ++ ["Your activity levels vary significantly. Try to maintain more consistent daily exercise habits."%string]
    else insights in
  insights.

(** [_get_error_response] *)
Definition _get_error_response (now : string) : FitnessAnalysis :=
  {| user_id := VStr "unknown";
     analysis_date := now;
     error := Some "Analysis failed"%string;
     fitness_recommendations := [];
     trends := None;
     performance_metrics := None;
     health_insights := ["Unable to analyze fitness data at this time."%string] |}.

(** The body of the loop of [analyze_fitness_data]: the entry appended for
    one record. *)
Definition daily_entry (metric : DataIntegration.NormalizedRecord)
    : DailyRecommendation :=
  let recommendation := _generate_daily_recommendation metric in
  {| date := DataIntegration.date metric;
     steps := DataIntegration.steps (DataIntegration.physical_activity metric);
     heart_rate := DataIntegration.heart_rate (DataIntegration.physical_activity metric);
     activity_level :=
       DataIntegration.activity_level (DataIntegration.derived_metrics metric);
     recommendation := recommendation;
     goal_progress := _calculate_goal_progress metric |}.

(** The body of the [try] block of [analyze_fitness_data], on the dict
    [normalize_data] returned. *)
Definition analyze_body (now : string) (health_data : DataIntegration.NormalizedData)
    : result FitnessAnalysis :=
  let metrics := DataIntegration.metrics health_data in
  let trends := _calculate_trends metrics in
  performance ← _calculate_performance_metrics metrics;
  let insights := _generate_health_insights metrics in
  mret {| user_id := DataIntegration.user_id health_data;
          analysis_date := now;
          error := None;
          fitness_recommendations := daily_entry <$> metrics;
          trends := Some trends;
          performance_metrics := Some performance;
          health_insights := insights |}.

(** [analyze_fitness_data]: [except Exception] turns every failure of the
    body into the error response. *)
Definition analyze_fitness_data (now : string)
    (health_data : DataIntegration.NormalizedData) : FitnessAnalysis :=
  match analyze_body now health_data with
  | Ok analysis => analysis
  | Raise _ => _get_error_response now
  end.

End Numpy.

End FitnessAgent.

(** ** The sleep agent: the analysis around the score *)

Module SleepAgent.

Record SleepPatterns : Type := {
  average_duration : Q;
  duration_consistency : Q;
  quality_trend : string;
  sleep_efficiency : Q;
  optimal_sleep_days : Z;
  insufficient_sleep_days : Z;
  excessive_sleep_days : Z
}.

Record SleepQualityMetrics : Type := {
  overall_quality_score : Q;
  quality_distribution : gmap string Z;
  sleep_score : Q;
  recovery_index : Q;
  sleep_debt : Q
}.

(** The dict [analyze_sleep_data] returns; [error] is [None] when the dict
    has no ['error'] key, [sleep_patterns] and [sleep_quality_metrics] are
    [None] when they are the empty dict of the error response. *)
Record SleepAnalysis : Type := {
  user_id : value;
  analysis_date : string;
  error : option string;
  sleep_analysis : list Sleep.SleepEntry;
  sleep_patterns : option SleepPatterns;
  sleep_quality_metrics : option SleepQualityMetrics;
  recommendations : list Sleep.SleepRecommendation;
  sleep_insights : list string
}.

(** The two comprehensions the functions start with. *)
Definition durations_of (sleep_data : list Sleep.SleepEntry) : list Q :=
  Sleep.sleep_hours <$> sleep_data.
Definition quality_scores_of (sleep_data : list Sleep.SleepEntry) : list string :=
  Sleep.quality_score <$> sleep_data.

(** The dict literal both tallies start from. *)
Definition no_quality_days : gmap string Z :=
  {[ "excellent" := 0%Z; "good" := 0%Z; "fair" := 0%Z; "poor" := 0%Z ]}.

(** [_calculate_quality_trend] *)
Definition _calculate_quality_trend (quality_scores : list string) : string :=
  if (length quality_scores <? 2)%nat then "stable"
  else
    let quality_nums :=
      (λ score, if String.eqb score "excellent" then 4
                else if String.eqb score "good" then 3
                else if String.eqb score "fair" then 2
                else 1)%Z <$> quality_scores in
    if (first_of quality_nums <? last_of quality_nums)%Z then "improving"
    else if (last_of quality_nums <? first_of quality_nums)%Z then "declining"
    else "stable".

(** [_calculate_sleep_efficiency] *)
Definition _calculate_sleep_efficiency (durations : list Q) : Q :=
  match durations with
  | [] => 0.0
  | _ => py_min 100 (np_mean durations / Sleep.optimal_duration * 100)
  end.

(** [_calculate_overall_quality_score].  On an empty series both means are
    NaN in numpy; no statement below is about it. *)
Definition _calculate_overall_quality_score (durations : list Q)
    (quality_scores : list string) : Q :=
  let duration_score := py_min 100 (np_mean durations / Sleep.optimal_duration * 100) in
  let quality_nums :=
    (λ score, if String.eqb score "excellent" then 100
              else if String.eqb score "good" then 75
              else if String.eqb score "fair" then 50
              else 25) <$> quality_scores in
  let quality_score := np_mean quality_nums in
  (duration_score + quality_score) / 2.

(** [_calculate_recovery_index] *)
Definition _calculate_recovery_index (durations : list Q)
    (quality_scores : list string) : Q :=
  match durations with
  | [] => 0.0
  | _ =>
      let avg_duration := np_mean durations in
      let duration_factor := py_min 1.0 (avg_duration / Sleep.optimal_duration) in
      let quality_nums :=
        (λ score, if String.eqb score "excellent" then 1.0
                  else if String.eqb score "good" then 0.8
                  else if String.eqb score "fair" then 0.6
                  else 0.4) <$> quality_scores in
      let quality_factor := np_mean quality_nums in
      (duration_factor + quality_factor) / 2 * 100
  end.

Section Numpy.
(** [np.std], as in the sleep scorer. *)
Variable np_std : list Q → Q.

(** [_analyze_sleep_patterns] *)
Definition _analyze_sleep_patterns (sleep_data : list Sleep.SleepEntry)
    : SleepPatterns :=
  let durations := durations_of sleep_data in
  let quality_scores := quality_scores_of sleep_data in
  {| average_duration := np_mean durations;
     duration_consistency := Sleep._calculate_consistency np_std durations;
     quality_trend := _calculate_quality_trend quality_scores;
     sleep_efficiency := _calculate_sleep_efficiency durations;
     optimal_sleep_days := count_if (λ d, Qle_bool 7 d && Qle_bool d 9) durations;
     insufficient_sleep_days := count_if (λ d, Qltb d 6) durations;
     excessive_sleep_days := count_if (λ d, Qltb 9 d) durations |}.

(** [_calculate_sleep_quality_metrics]: the tally runs before the dict is
    built. *)
Definition _calculate_sleep_quality_metrics (sleep_data : list Sleep.SleepEntry)
    : result SleepQualityMetrics :=
  let durations := durations_of sleep_data in
  let quality_scores := quality_scores_of sleep_data in
  quality_dist ← py_tally no_quality_days quality_scores;
  mret {| overall_quality_score :=
            _calculate_overall_quality_score durations quality_scores;
          quality_distribution := quality_dist;
          sleep_score := Sleep._calculate_sleep_score np_std durations;
          recovery_index := _calculate_recovery_index durations quality_scores;
          sleep_debt := Sleep._calculate_sleep_debt durations |}.

(** [_generate_sleep_insights].  On an empty series the comparisons are
    made on NaN; whichever branches they take, the division by
    [total_days] then raises. *)
Definition _generate_sleep_insights (sleep_data : list Sleep.SleepEntry)
    : outcome (list string) :=
  let insights : list string := [] in
  let durations := durations_of sleep_data in
  let avg_duration := np_mean durations in
  let insights :=
    if Qltb avg_duration 6 then
      insights ++ ["Your average sleep duration is critically low. Chronic sleep deprivation can impact cognitive function and physical health."%string]
    else if Qltb avg_duration 7 then
      insights ++ ["You're getting less sleep than recommended. Even small increases in sleep duration can improve your daily performance."%string]
    else if Qltb 9 avg_duration then
      insights ++ ["You're sleeping more than the recommended amount. This might indicate poor sleep quality or underlying health conditions."%string]
    else
      insights ++ ["Your sleep duration is within the healthy range. Focus on maintaining consistency in your sleep schedule."%string] in
  let consistency := Sleep._calculate_consistency np_std durations in
  let insights :=
    if Qltb consistency 0.7 then
      insights ++ ["Your sleep schedule is inconsistent. Try to go to bed and wake up at the same time every day, even on weekends."%string]
    else
      insights ++ ["Good sleep consistency! Maintaining a regular sleep schedule helps regulate your body's internal clock."%string] in
  quality_dist ← lift (py_tally no_quality_days (quality_scores_of sleep_data));
  let total_days := Z.of_nat (length sleep_data) in
  poor ← lift (dict_getitem quality_dist "poor");
  fair ← lift (dict_getitem quality_dist "fair");
  let poor_quality_days := (poor + fair)%Z in
  share ← py_truediv (inject_Z poor_quality_days) (inject_Z total_days);
  let insights :=
    if Qltb 0.5 share then
      insights ++ ["Your sleep quality needs improvement. Consider sleep hygiene practices like limiting caffeine, creating a dark bedroom, and avoiding screens before bed."%string]
    else insights in
  mret insights.

(** [_get_error_response] *)
Definition _get_error_response (now : string) : SleepAnalysis :=
  {| user_id := VStr "unknown";
     analysis_date := now;
     error := Some "Sleep analysis failed"%string;
     sleep_analysis := [];
     sleep_patterns := None;
     sleep_quality_metrics := None;
     recommendations := [];
     sleep_insights := ["Unable to analyze sleep data at this time."%string] |}.

(** The body of the [try] block of [analyze_sleep_data], on the dict
    [normalize_data] returned. *)
Definition analyze_body (now : string) (health_data : DataIntegration.NormalizedData)
    : outcome SleepAnalysis :=
  let metrics := DataIntegration.metrics health_data in
  let sleep_data := Sleep.sleep_entries metrics in
  let patterns := _analyze_sleep_patterns sleep_data in
  quality ← lift (_calculate_sleep_quality_metrics sleep_data);
  let recommendations := Sleep._generate_sleep_recommendations sleep_data in
  insights ← _generate_sleep_insights sleep_data;
  mret {| user_id := DataIntegration.user_id health_data;
          analysis_date := now;
          error := None;
          sleep_analysis := sleep_data;
          sleep_patterns := Some patterns;
          sleep_quality_metrics := Some quality;
          recommendations := recommendations;
          sleep_insights := insights |}.

(** [analyze_sleep_data]: [except Exception] turns every failure of the
    body into the error response. *)
Definition analyze_sleep_data (now : string)
    (health_data : DataIntegration.NormalizedData) : SleepAnalysis :=
  match analyze_body now health_data with
  | Returns analysis => analysis
  | Fails _ => _get_error_response now
  end.

End Numpy.

End SleepAgent.

(** ** The reports as the aggregator reads them, and the data flow of [app.py] *)

Module Reports.

(** The optional ['error'] entry of a report. *)
Definition with_error (error : option string) (report : gmap string value)
    : gmap string value :=
  match error with
  | Some message => <["error" := VStr message]> report
  | None => report
  end.

Definition counters_dict (d : gmap string Z) : value :=
  VDict ((λ n, VNum (inject_Z n)) <$> d).

Definition goal_progress_dict (g : FitnessAgent.GoalProgress) : value :=
  VDict {[ "steps_progress" := VNum (FitnessAgent.steps_progress g);
           "goal_status" := VStr (FitnessAgent.goal_status g) ]}.

Definition daily_dict (entry : FitnessAgent.DailyRecommendation) : value :=
  VDict {[ "date" := FitnessAgent.date entry;
           "steps" := VNum (inject_Z (FitnessAgent.steps entry));
           "heart_rate" := VNum (inject_Z (FitnessAgent.heart_rate entry));
           "activity_level" := VStr (FitnessAgent.activity_level entry);
           "recommendation" := VStr (FitnessAgent.recommendation entry);
           "goal_progress" := goal_progress_dict (FitnessAgent.goal_progress entry) ]}.

Definition trends_dict (t : FitnessAgent.Trends) : gmap string value :=
  {[ "steps_trend" := VStr (FitnessAgent.steps_trend t);
     "heart_rate_trend" := VStr (FitnessAgent.heart_rate_trend t);
     "consistency_score" := VNum (FitnessAgent.consistency_score t);
     "improvement_rate" := VNum (FitnessAgent.improvement_rate t) ]}.

Definition performance_dict (p : FitnessAgent.PerformanceMetrics)
    : gmap string value :=
  {[ "average_steps" := VNum (FitnessAgent.average_steps p);
     "max_steps" := VNum (inject_Z (FitnessAgent.max_steps p));
     "min_steps" := VNum (inject_Z (FitnessAgent.min_steps p));
     "average_heart_rate" := VNum (FitnessAgent.average_heart_rate p);
     "fitness_score" := VNum (FitnessAgent.fitness_score p);
     "goal_achievement_rate" := VNum (FitnessAgent.goal_achievement_rate p) ]}.

(** The dict [analyze_fitness_data] returns. *)
Definition fitness_dict (a : FitnessAgent.FitnessAnalysis) : gmap string value :=
  with_error (FitnessAgent.error a)
    {[ "user_id" := FitnessAgent.user_id a;
       "analysis_date" := VStr (FitnessAgent.analysis_date a);
       "fitness_recommendations" :=
         VList (daily_dict <$> FitnessAgent.fitness_recommendations a);
       "trends" := VDict (from_option trends_dict ∅ (FitnessAgent.trends a));
       "performance_metrics" :=
         VDict (from_option performance_dict ∅ (FitnessAgent.performance_metrics a));
       "health_insights" := VList (VStr <$> FitnessAgent.health_insights a) ]}.

Definition sleep_entry_dict (entry : Sleep.SleepEntry) : value :=
  VDict {[ "date" := Sleep.date entry;
           "sleep_hours" := VNum (Sleep.sleep_hours entry);
           "quality_score" := VStr (Sleep.quality_score entry);
           "adequacy" := VStr (Sleep.adequacy entry) ]}.

Definition sleep_recommendation_dict (r : Sleep.SleepRecommendation) : value :=
  VDict {[ "date" := Sleep.rec_date r;
           "recommendation" := VStr (Sleep.recommendation r);
           "priority" := VStr (Sleep.priority r);
           "sleep_hours" := VNum (Sleep.rec_sleep_hours r);
           "quality_score" := VStr (Sleep.rec_quality_score r) ]}.

Definition patterns_dict (p : SleepAgent.SleepPatterns) : gmap string value :=
  {[ "average_duration" := VNum (SleepAgent.average_duration p);
     "duration_consistency" := VNum (SleepAgent.duration_consistency p);
     "quality_trend" := VStr (SleepAgent.quality_trend p);
     "sleep_efficiency" := VNum (SleepAgent.sleep_efficiency p);
     "optimal_sleep_days" := VNum (inject_Z (SleepAgent.optimal_sleep_days p));
     "insufficient_sleep_days" :=
       VNum (inject_Z (SleepAgent.insufficient_sleep_days p));
     "excessive_sleep_days" := VNum (inject_Z (SleepAgent.excessive_sleep_days p)) ]}.

Definition quality_metrics_dict (q : SleepAgent.SleepQualityMetrics)
    : gmap string value :=
  {[ "overall_quality_score" := VNum (SleepAgent.overall_quality_score q);
     "quality_distribution" := counters_dict (SleepAgent.quality_distribution q);
     "sleep_score" := VNum (SleepAgent.sleep_score q);
     "recovery_index" := VNum (SleepAgent.recovery_index q);
     "sleep_debt" := VNum (SleepAgent.sleep_debt q) ]}.

(** The dict [analyze_sleep_data] returns. *)
Definition sleep_dict (a : SleepAgent.SleepAnalysis) : gmap string value :=
  with_error (SleepAgent.error a)
    {[ "user_id" := SleepAgent.user_id a;
       "analysis_date" := VStr (SleepAgent.analysis_date a);
       "sleep_analysis" := VList (sleep_entry_dict <$> SleepAgent.sleep_analysis a);
       "sleep_patterns" :=
         VDict (from_option patterns_dict ∅ (SleepAgent.sleep_patterns a));
       "sleep_quality_metrics" :=
         VDict (from_option quality_metrics_dict ∅ (SleepAgent.sleep_quality_metrics a));
       "recommendations" :=
         VList (sleep_recommendation_dict <$> SleepAgent.recommendations a);
       "sleep_insights" := VList (VStr <$> SleepAgent.sleep_insights a) ]}.

End Reports.

Module Dashboard.

(** The clock readings of one run: one per report. *)
Record Clock : Type := {
  at_fitness : string;
  at_sleep : string;
  at_aggregation : string
}.

Section Numpy.
Variable np_std : list Q → Q.

(** The data flow of [_generate_new_data] in [app.py] after normalization:
    the normalized payload goes to the two agents, and their reports go with
    the sentiment report to the aggregator.  The files written on the way
    are not modelled. *)
Definition insights_of (clock : Clock) (normalized_data : DataIntegration.NormalizedData)
    (sentiment_data : value) : Aggregate.AggregatedInsight :=
  let fitness_data :=
    FitnessAgent.analyze_fitness_data np_std (at_fitness clock) normalized_data in
  let sleep_data :=
    SleepAgent.analyze_sleep_data np_std (at_sleep clock) normalized_data in
  Aggregate.aggregate_insights (at_aggregation clock)
    (VDict (Reports.fitness_dict fitness_data))
    (VDict (Reports.sleep_dict sleep_data))
    sentiment_data.

End Numpy.

End Dashboard.

(** * Properties *)

(** ** Arithmetic of the embedding *)

Section QFacts.

Lemma Qltb_lt (x y : Q) : Qltb x y = true ↔ x < y.
Proof.
  unfold Qltb. rewrite negb_true_iff, <- not_true_iff_false, Qle_bool_iff.
  split; [apply Qnot_le_lt | apply Qlt_not_le].
Qed.

Lemma Qltb_ge (x y : Q) : Qltb x y = false ↔ y <= x.
Proof.
  unfold Qltb. rewrite negb_false_iff. apply Qle_bool_iff.
Qed.

Lemma py_min_Qmin (a b : Q) : py_min a b == Qmin a b.
Proof.
  unfold py_min. destruct (Qltb b a) eqn:E.
  - apply Qltb_lt in E. symmetry. apply Q.min_r. lra.
  - apply Qltb_ge in E. symmetry. apply Q.min_l. lra.
Qed.

Lemma py_max_Qmax (a b : Q) : py_max a b == Qmax a b.
Proof.
  unfold py_max. destruct (Qltb a b) eqn:E.
  - apply Qltb_lt in E. symmetry. apply Q.max_r. lra.
  - apply Qltb_ge in E. symmetry. apply Q.max_l. lra.
Qed.

Lemma py_max_0_nonneg (x : Q) : 0 <= py_max 0 x.
Proof.
  unfold py_max. destruct (Qltb 0 x) eqn:E; [apply Qltb_lt in E|]; lra.
Qed.

Lemma fold_left_Qplus (l : list Q) (a : Q) :
  fold_left Qplus l a == a + foldr Qplus 0 l.
Proof.
  revert a. induction l as [|x l IH]; intros a; simpl.
  - lra.
  - rewrite IH. lra.
Qed.

Lemma py_sum_foldr (l : list Q) : py_sum l == foldr Qplus 0 l.
Proof. unfold py_sum. rewrite fold_left_Qplus. lra. Qed.

Lemma py_sum_inject_Z (l : list Z) :
  py_sum (inject_Z <$> l) == inject_Z (foldr Z.add 0%Z l).
Proof.
  rewrite py_sum_foldr. induction l as [|z l IH]; simpl.
  - reflexivity.
  - rewrite IH, inject_Z_plus. reflexivity.
Qed.

Lemma np_mean_inject_Z (l : list Z) : np_mean (inject_Z <$> l) == Fitness.mean l.
Proof.
  unfold np_mean, Fitness.mean. rewrite py_sum_inject_Z, length_fmap. reflexivity.
Qed.

End QFacts.

(** ** The fitness scorer *)

Section FitnessProperties.
Import Fitness.

Lemma calculate_fitness_score_spec (steps heart_rates : list Z) :
  _calculate_fitness_score steps heart_rates == fitness_score_spec steps heart_rates.
Proof.
  unfold _calculate_fitness_score, fitness_score_spec, steps_score_spec, hr_score_spec.
  rewrite py_min_Qmin, py_max_Qmax, !np_mean_inject_Z. reflexivity.
Qed.

(** C6.  On every non-empty series the code's fitness score is
    (steps_score + hr_score) / 2 with steps_score = min(100, mean(steps) /
    10000 * 100) and hr_score = max(0, 100 - (mean(heart_rate) - 60) * 2);
    on steps 8000, 9500, 8500 and heart rates 70, 72, 75 it is 81, hence
    within 0.5 of 81.0. *)
Theorem fitness_score_formula :
  (∀ steps heart_rates : list Z,
     steps ≠ [] → heart_rates ≠ [] →
     _calculate_fitness_score steps heart_rates
     == (Qmin 100 (mean steps / 10000 * 100)
         + Qmax 0 (100 - (mean heart_rates - 60) * 2)) / 2)
  ∧ _calculate_fitness_score [8000; 9500; 8500]%Z [70; 72; 75]%Z == 81
  ∧ Qabs (_calculate_fitness_score [8000; 9500; 8500]%Z [70; 72; 75]%Z - 81.0) <= 0.5.
Proof.
  split; [|split].
  - intros steps heart_rates _ _. apply calculate_fitness_score_spec.
  - reflexivity.
  - vm_compute. discriminate.
Qed.

Lemma fitness_score_formula_witness :
  _calculate_fitness_score [8000; 9500; 8500]%Z [70; 72; 75]%Z
  == (Qmin 100 (mean [8000; 9500; 8500]%Z / 10000 * 100)
      + Qmax 0 (100 - (mean [70; 72; 75]%Z - 60) * 2)) / 2.
Proof.
  apply (proj1 fitness_score_formula [8000; 9500; 8500]%Z [70; 72; 75]%Z);
    discriminate.
Defined.

(** One valid record with 10000 steps and a heart rate of 40 gets the
    fitness score 120: the heart-rate component is bounded below by 0 but not
    above by 100. *)
Lemma fitness_score_above_100 :
  _calculate_fitness_score [10000]%Z [40]%Z == 120
  ∧ ¬ (_calculate_fitness_score [10000]%Z [40]%Z <= 100).
Proof.
  split.
  - reflexivity.
  - vm_compute. intros H. apply H. reflexivity.
Qed.

Lemma mean_nonneg (l : list Z) : Forall (λ z, 0 <= z)%Z l → 0 <= mean l.
Proof.
  intros Hl. unfold mean, Qdiv. apply Qmult_le_0_compat.
  - change 0 with (inject_Z 0). rewrite <- Zle_Qle.
    induction Hl as [|z l Hz _ IH]; simpl; lia.
  - apply Qinv_le_0_compat. change 0 with (inject_Z 0). rewrite <- Zle_Qle. lia.
Qed.

(** Where the range does hold: on step counts that are not negative and a
    mean heart rate of at least 60 the fitness score lies in [0, 100]. *)
Lemma fitness_score_in_range (steps heart_rates : list Z) :
  Forall (λ z, 0 <= z)%Z steps → 60 <= mean heart_rates →
  0 <= _calculate_fitness_score steps heart_rates <= 100.
Proof.
  intros Hs Hh. rewrite calculate_fitness_score_spec.
  unfold fitness_score_spec, steps_score_spec, hr_score_spec.
  pose proof (mean_nonneg steps Hs) as Hm.
  pose proof (Q.le_min_l 100 (mean steps / 10000 * 100)) as Hmin.
  assert (0 <= Qmin 100 (mean steps / 10000 * 100)) as Hmin0.
  { apply Q.min_glb; [lra|].
    assert (mean steps / 10000 * 100 == mean steps * (1 # 100)) as -> by field.
    lra. }
  pose proof (Q.le_max_l 0 (100 - (mean heart_rates - 60) * 2)) as Hmax0.
  assert (Qmax 0 (100 - (mean heart_rates - 60) * 2) <= 100) as Hmax.
  { apply Q.max_lub; lra. }
  set (a := Qmin 100 (mean steps / 10000 * 100)) in *.
  set (b := Qmax 0 (100 - (mean heart_rates - 60) * 2)) in *.
  assert ((a + b) / 2 == (a + b) * (1 # 2)) as -> by field.
  split; lra.
Qed.

End FitnessProperties.

(** ** The sleep scorer *)

Section SleepProperties.
Import Sleep.

Lemma recommend_priority (duration : Q) (quality : string) :
  (recommend duration quality).2 = priority_by_duration_first duration quality.
Proof.
  unfold recommend, priority_by_duration_first.
  destruct (Qltb duration 6) eqn:E6; [reflexivity|].
  destruct (Qltb 9 duration) eqn:E9; simpl.
  - apply Qltb_lt in E9.
    assert (Qle_bool duration 9 = false) as ->.
    { apply not_true_iff_false. rewrite Qle_bool_iff. lra. }
    rewrite andb_false_r. reflexivity.
  - apply Qltb_ge in E9. apply Qle_bool_iff in E9. rewrite E9, andb_true_r.
    destruct (String.eqb quality "poor"); [reflexivity|].
    destruct (String.eqb quality "fair"); reflexivity.
Qed.

Lemma priority_of_recommendations (sleep_data : list SleepEntry) :
  priority <$> _generate_sleep_recommendations sleep_data
  = (λ entry, (recommend (sleep_hours entry) (quality_score entry)).2) <$> sleep_data.
Proof.
  unfold _generate_sleep_recommendations. rewrite <- list_fmap_compose.
  apply list_fmap_ext. intros _ entry _. simpl.
  destruct (recommend (sleep_hours entry) (quality_score entry)). reflexivity.
Qed.

(** C5, as stated, fails: a 10-hour night labelled "poor" meets the
    high-priority condition of the specification's table, and the code
    assigns it "medium". *)
Lemma sleep_priority_long_poor_night :
  let entry := {| date := VStr "2024-11-22"; sleep_hours := 10;
                  quality_score := "poor"; adequacy := "adequate" |} in
  priority <$> _generate_sleep_recommendations [entry] = ["medium"%string]
  ∧ priority_spec (sleep_hours entry) (quality_score entry) = "high"%string
  ∧ priority <$> _generate_sleep_recommendations [entry]
    ≠ [priority_spec (sleep_hours entry) (quality_score entry)].
Proof.
  cbv zeta. split; [reflexivity | split; [reflexivity | discriminate]].
Qed.

(** C5, amended.  For every sleep record the priority is "high" if the
    duration is below 6 hours, or the quality is "poor" and the duration is at
    most 9 hours; otherwise "medium" if the duration exceeds 9 hours or the
    quality is "fair"; otherwise "low": the duration tests come first, so a
    night above 9 hours is "medium" whatever its quality. *)
Theorem sleep_priority_duration_first (sleep_data : list SleepEntry) :
  priority <$> _generate_sleep_recommendations sleep_data
  = (λ entry, priority_by_duration_first (sleep_hours entry) (quality_score entry))
      <$> sleep_data.
Proof.
  rewrite priority_of_recommendations. apply list_fmap_ext.
  intros _ entry _. apply recommend_priority.
Qed.

(** The two tables differ only on nights above 9 hours labelled "poor". *)
Lemma priority_tables_agree (duration : Q) (quality : string) :
  duration <= 9 ∨ quality ≠ "poor"%string →
  priority_by_duration_first duration quality = priority_spec duration quality.
Proof.
  unfold priority_by_duration_first, priority_spec. intros [H|H].
  - apply Qle_bool_iff in H. rewrite H, andb_true_r. reflexivity.
  - apply String.eqb_neq in H. rewrite H. reflexivity.
Qed.

(** On the records the normalizer produces the quality label is derived from
    the duration, a night above 9 hours is "excellent", and the
    specification's table holds as worded. *)
Lemma priority_spec_on_normalized (duration : Q) (quality : string) :
  DataIntegration._calculate_sleep_quality (VNum duration) = Ok quality →
  (recommend duration quality).2 = priority_spec duration quality.
Proof.
  intros Hq. rewrite recommend_priority. apply priority_tables_agree.
  destruct (Qle_bool duration 9) eqn:E; [left; by apply Qle_bool_iff|right].
  assert (9 < duration) as H9.
  { apply Qnot_le_lt. rewrite <- Qle_bool_iff, E. discriminate. }
  unfold DataIntegration._calculate_sleep_quality in Hq. simpl in Hq.
  assert (Qle_bool 7 duration = true) as H7 by (apply Qle_bool_iff; lra).
  rewrite H7 in Hq. injection Hq as <-. discriminate.
Qed.

Lemma sleep_debt_terms (durations : list Q) :
  foldr Qplus 0 ((λ duration, py_max 0 (optimal_duration - duration)) <$> durations)
  == sleep_debt_spec durations.
Proof.
  induction durations as [|d l IH]; simpl.
  - reflexivity.
  - rewrite IH, py_max_Qmax. reflexivity.
Qed.

(** C7.  The sleep debt is the sum over the days of max(0, 7.5 - duration),
    every day contributes a non-negative amount, and the durations 7.5, 7.2,
    6.5 give 0 + 0.3 + 1.0 = 1.3. *)
Theorem sleep_debt_sum :
  (∀ durations, _calculate_sleep_debt durations == sleep_debt_spec durations)
  ∧ (∀ durations, Forall (λ duration, 0 <= py_max 0 (optimal_duration - duration)) durations)
  ∧ (∀ durations, 0 <= _calculate_sleep_debt durations)
  ∧ _calculate_sleep_debt [7.5; 7.2; 6.5] == 0 + 0.3 + 1.0
  ∧ _calculate_sleep_debt [7.5; 7.2; 6.5] == 1.3.
Proof.
  assert (Hspec : ∀ durations, _calculate_sleep_debt durations == sleep_debt_spec durations).
  { intros [|d l]; [reflexivity|].
    unfold _calculate_sleep_debt. rewrite py_sum_foldr. apply sleep_debt_terms. }
  repeat split.
  - exact Hspec.
  - intros durations. apply Forall_forall. intros d _. apply py_max_0_nonneg.
  - intros durations. rewrite Hspec.
    induction durations as [|d l IH]; simpl; [lra|].
    pose proof (Q.le_max_l 0 (7.5 - d)). lra.
Qed.

(** The sleep score can drop below 0.  Nine nights of 0 hours and one of 10 have mean 1 and
    population variance 9; with their standard deviation, 3, the consistency
    is -2 and the sleep score 30 - 60 = -30. *)
Lemma sleep_score_below_0 (np_std : list Q → Q) :
  let durations := [0; 0; 0; 0; 0; 0; 0; 0; 0; 10] in
  0 <= np_std durations →
  np_std durations * np_std durations == variance durations →
  _calculate_sleep_score np_std durations == -30.
Proof.
  intros durations Hpos Hsq.
  assert (Hvar : variance durations == 9) by reflexivity.
  assert (Hstd : np_std durations == 3) by nra.
  unfold _calculate_sleep_score, _calculate_consistency. cbv zeta.
  change (length durations <? 2)%nat with false.
  change (Qle_bool 7 (np_mean durations)) with false.
  change (Qle_bool 6 (np_mean durations)) with false.
  change (Qltb 9 (np_mean durations)) with false.
  cbn [andb orb durations].
  assert (Hmean : np_mean durations == 1) by reflexivity.
  fold durations. rewrite Hmean, Hstd. reflexivity.
Qed.

End SleepProperties.

(** ** The error monad *)

Lemma bind_Ok {A B : Type} (m : result A) (f : A → result B) (b : B) :
  m ≫= f = Ok b ↔ ∃ a, m = Ok a ∧ f a = Ok b.
Proof.
  destruct m as [a|e]; simpl; split.
  - intros H. by exists a.
  - by intros (a' & [= <-] & H).
  - discriminate.
  - by intros (a' & [=] & _).
Qed.

Section ResultFacts.
Context {A B : Type}.

Lemma mapM_length (f : A → result B) (l : list A) (l' : list B) :
  mapM f l = Ok l' → length l' = length l.
Proof.
  revert l'. induction l as [|x l IH]; intros l'; simpl.
  - by intros [= <-].
  - intros (y & _ & H)%bind_Ok. apply bind_Ok in H as (ys & Hys & [= <-]).
    simpl. f_equal. by apply IH.
Qed.

Lemma mapM_Ok (f : A → result B) (l : list A) :
  Forall (λ x, ∃ y, f x = Ok y) l → ∃ l', mapM f l = Ok l'.
Proof.
  induction 1 as [|x l [y Hy] _ [l' IH]]; simpl.
  - by eexists.
  - rewrite Hy. simpl. rewrite IH. simpl. by eexists.
Qed.

Lemma mapM_Forall (f : A → result B) (l : list A) (l' : list B) :
  mapM f l = Ok l' → Forall (λ y, ∃ x, f x = Ok y) l'.
Proof.
  revert l'. induction l as [|x l IH]; intros l'; simpl.
  - intros [= <-]. constructor.
  - intros (y & Hy & H)%bind_Ok. apply bind_Ok in H as (ys & Hys & [= <-]).
    constructor; [by exists x | by apply IH].
Qed.

Lemma py_all_cons (f : A → result bool) (x : A) (l : list A) :
  py_all f (x :: l) = f x ≫= λ b : bool, if b then py_all f l else mret false.
Proof. reflexivity. Qed.

Lemma py_all_forallb (f : A → result bool) (g : A → bool) (l : list A) :
  (∀ x, f x = Ok (g x)) → py_all f l = Ok (forallb g l).
Proof.
  intros Hfg. induction l as [|x l IH]; simpl; [reflexivity|].
  rewrite Hfg. simpl. destruct (g x); [exact IH | reflexivity].
Qed.

End ResultFacts.

(** A tactic for hypotheses [m ≫= f = Ok b]: name the intermediate result. *)
Ltac bind_inv H :=
  let a := fresh "a" in
  let Ha := fresh "Ha" in
  apply bind_Ok in H as (a & Ha & H).

(** ** The normalizer *)

Section NormalizerProperties.
Import DataIntegration.
Variable int_of_str : string → option Z.
Variable float_of_str : string → option Q.

#[local] Abbreviation normalize_metric :=
  (DataIntegration.normalize_metric int_of_str float_of_str).
#[local] Abbreviation normalize_data :=
  (DataIntegration.normalize_data int_of_str float_of_str).

Lemma has_fields_spec (m : gmap string value) :
  has_fields m = true ↔ has_required_fields m.
Proof.
  unfold has_fields, has_required_fields.
  rewrite forallb_forall, Forall_forall.
  split; intros H field Hin.
  - apply list_elem_of_In, H in Hin. by apply bool_decide_eq_true in Hin.
  - apply bool_decide_eq_true, H, list_elem_of_In, Hin.
Qed.

Lemma validate_metric_fields (m : gmap string value) :
  py_all (λ field, py_in field (VDict m)) required_metric_fields = Ok (has_fields m).
Proof. by apply py_all_forallb. Qed.

Lemma validate_metrics (l : list (gmap string value)) :
  py_all (λ metric, py_all (λ field, py_in field metric) required_metric_fields)
         (VDict <$> l)
  = Ok (forallb has_fields l).
Proof.
  induction l as [|m l IH]; [reflexivity|].
  rewrite fmap_cons, py_all_cons, validate_metric_fields. simpl.
  destruct (has_fields m); [exact IH | reflexivity].
Qed.

(** What [_validate_data_structure] answers on a dict whose metrics, if
    any, are a list of dicts. *)
Lemma validate_data_structure_dict (d : gmap string value)
    (ms : option (list (gmap string value))) :
  metrics_are d ms →
  _validate_data_structure (VDict d)
  = Ok (bool_decide (is_Some (d !! "user_id"))
        && match ms with Some l => forallb has_fields l | None => false end).
Proof.
  unfold metrics_are, _validate_data_structure. intros Hms. simpl.
  destruct (bool_decide (is_Some (d !! "user_id"))); simpl; [|reflexivity].
  rewrite Hms. destruct ms as [l|]; simpl; [|reflexivity].
  apply validate_metrics.
Qed.

Lemma load_mock_data_dict (d : gmap string value)
    (ms : option (list (gmap string value))) :
  metrics_are d ms →
  load_mock_data (Parsed (VDict d))
  = if bool_decide (is_Some (d !! "user_id"))
       && match ms with Some l => forallb has_fields l | None => false end
    then Ok (VDict d) else Raise ValueError.
Proof.
  intros Hms. unfold load_mock_data.
  rewrite (validate_data_structure_dict d ms Hms). simpl.
  by destruct (_ && _).
Qed.

Lemma forallb_has_fields (l : list (gmap string value)) :
  forallb has_fields l = true ↔ Forall has_required_fields l.
Proof.
  rewrite forallb_forall, Forall_forall. split; intros H m Hin.
  - apply has_fields_spec, H, list_elem_of_In, Hin.
  - apply has_fields_spec, H, list_elem_of_In, Hin.
Qed.

Lemma calculate_sleep_quality_num (q : Q) :
  ∃ label, _calculate_sleep_quality (VNum q) = Ok label.
Proof.
  unfold _calculate_sleep_quality. simpl.
  destruct (Qle_bool 7 q); simpl; [by eexists|].
  destruct (Qle_bool 6 q); simpl; [by eexists|].
  destruct (Qle_bool 5 q); simpl; by eexists.
Qed.

Lemma classify_activity_level_num (q : Q) :
  ∃ label, _classify_activity_level (VNum q) = Ok label.
Proof.
  unfold _classify_activity_level. simpl.
  destruct (Qle_bool 10000 q); simpl; [by eexists|].
  destruct (Qle_bool 5000 q); simpl; by eexists.
Qed.

Lemma classify_heart_rate_zone_num (q : Q) :
  ∃ label, _classify_heart_rate_zone (VNum q) = Ok label.
Proof.
  unfold _classify_heart_rate_zone. simpl.
  destruct (Qltb q 60); simpl; [by eexists|].
  destruct (Qltb q 100); simpl; [by eexists|].
  destruct (Qltb q 120); simpl; by eexists.
Qed.

Lemma assess_sleep_adequacy_num (q : Q) :
  ∃ label, _assess_sleep_adequacy (VNum q) = Ok label.
Proof.
  unfold _assess_sleep_adequacy. simpl.
  destruct (Qle_bool 7 q); simpl; [by eexists|].
  destruct (Qle_bool 6 q); simpl; by eexists.
Qed.

(** A well-typed metric normalizes. *)
Lemma normalize_metric_Ok (m : gmap string value) :
  well_typed_metric m → ∃ r, normalize_metric (VDict m) = Ok r.
Proof.
  intros ([dv Hd] & (qs & Hs & _) & (qh & Hh & _) & (ql & Hl & Hrange) & Hv).
  destruct (calculate_sleep_quality_num ql) as [lq Hlq].
  destruct (classify_activity_level_num qs) as [la Hla].
  destruct (classify_heart_rate_zone_num qh) as [lz Hlz].
  destruct (assess_sleep_adequacy_num ql) as [ld Hld].
  assert (∃ z, py_get (VDict m) "hrv" (VNum 0) ≫= py_int int_of_str = Ok z) as [z Hz].
  { unfold py_get. destruct Hv as [->|(qv & -> & _)]; simpl; by eexists. }
  unfold DataIntegration.normalize_metric, py_getitem.
  rewrite Hz, Hd, Hs, Hh, Hl. simpl. rewrite Hrange. simpl.
  rewrite Hlq, Hla, Hlz, Hld. simpl. by eexists.
Qed.

(** A metric whose sleep_hours is beyond the floats does not normalize:
    [float()] raises. *)
Lemma normalize_metric_overflow (m : gmap string value) (q : Q) :
  is_Some (m !! "date") → holds_number m "steps" → holds_number m "heart_rate" →
  m !! "hrv" = None ∨ holds_number m "hrv" →
  m !! "sleep_hours" = Some (VNum q) → in_float_range q = false →
  normalize_metric (VDict m) = Raise OverflowError.
Proof.
  intros [dv Hd] (qs & Hs & _) (qh & Hh & _) Hv Hl Hrange.
  assert (∃ z, py_get (VDict m) "hrv" (VNum 0) ≫= py_int int_of_str = Ok z) as [z Hz].
  { unfold py_get. destruct Hv as [->|(qv & -> & _)]; simpl; by eexists. }
  unfold DataIntegration.normalize_metric, py_getitem.
  rewrite Hz, Hd, Hs, Hh, Hl. simpl. rewrite Hrange. reflexivity.
Qed.

Lemma oversized_sleep_hours_raises :
  let m : gmap string value :=
    {[ "date" := VStr "2024-11-20"; "steps" := VNum 8000; "heart_rate" := VNum 70;
       "sleep_hours" := VNum (inject_Z (10 ^ 400)) ]} in
  normalize_metric (VDict m) = Raise OverflowError.
Proof.
  intros m. apply (normalize_metric_overflow m (inject_Z (10 ^ 400))).
  - by eexists.
  - eexists. split; [reflexivity|]. vm_compute. reflexivity.
  - eexists. split; [reflexivity|]. vm_compute. reflexivity.
  - by left.
  - reflexivity.
  - vm_compute. reflexivity.
Qed.

(** C4, as stated, fails: a raw input with a user_id and an empty metrics
    array validates, loads and normalizes to an empty record sequence. *)
Lemma empty_metrics_accepted :
  let raw := VDict {[ "user_id" := VStr "user_1"; "metrics" := VList [] ]} in
  let fresh := {| config := VDict ∅; normalized_data := None |} in
  _validate_data_structure raw = Ok true
  ∧ load_mock_data (Parsed raw) = Ok raw
  ∧ records_of (DataIntegration.normalize_data (λ _, None) (λ _, None) "2024-11-22T10:00:00" raw fresh)
    = Ok [].
Proof.
  cbv zeta. split; [|split]; vm_compute; reflexivity.
Qed.

(** C4, amended.  Loading fails with the validation error exactly when the
    raw input lacks user_id or metrics, or some metric lacks one of date,
    steps, heart_rate, sleep_hours; an empty metrics array is accepted.  For
    every raw input with user_id, a metrics array, empty or not, and in every
    metric a date and numbers within the range of binary64 for steps,
    heart_rate and sleep_hours (and for hrv when present), normalization
    succeeds and returns one record per metric. *)
Theorem load_and_normalize_contract (d : gmap string value)
    (ms : option (list (gmap string value))) :
  metrics_are d ms →
  (load_mock_data (Parsed (VDict d)) = Raise ValueError
   ↔ d !! "user_id" = None ∨ ms = None
     ∨ ∃ l, ms = Some l ∧ Exists (λ m, ¬ has_required_fields m) l)
  ∧ (load_mock_data (Parsed (VDict d)) = Ok (VDict d)
     ↔ is_Some (d !! "user_id") ∧ ∃ l, ms = Some l ∧ Forall has_required_fields l)
  ∧ (∀ l now self,
       is_Some (d !! "user_id") → ms = Some l → Forall well_typed_metric l →
       ∃ out, normalize_data now (VDict d) self
              = Ok (out, {| config := config self; normalized_data := Some out |})
              ∧ length (metrics out) = length l).
Proof.
  intros Hms. rewrite (load_mock_data_dict d ms Hms).
  split; [|split].
  - destruct (bool_decide (is_Some (d !! "user_id"))) eqn:Hu; simpl.
    + apply bool_decide_eq_true in Hu. destruct ms as [l|].
      * destruct (forallb has_fields l) eqn:Hl.
        -- split; [discriminate|]. apply forallb_has_fields in Hl.
           intros [Hn|[[=]|(l' & [= <-] & Hex)]].
           ++ rewrite Hn in Hu. by destruct Hu.
           ++ exfalso. apply Exists_exists in Hex as (m & Hin & Hm).
              apply Hm. by eapply Forall_forall in Hl.
        -- split; [|done]. intros _. right. right. exists l. split; [done|].
           apply not_Forall_Exists; [intros m; apply Forall_dec; intros f; apply _|].
           intros HF. apply forallb_has_fields in HF. congruence.
      * split; [|done]. intros _. by right; left.
    + apply bool_decide_eq_false in Hu. split; [|done]. intros _. left.
      by apply eq_None_not_Some.
  - destruct (bool_decide (is_Some (d !! "user_id"))) eqn:Hu; simpl.
    + apply bool_decide_eq_true in Hu. destruct ms as [l|].
      * destruct (forallb has_fields l) eqn:Hl.
        -- split; [|done]. intros _. split; [done|]. exists l.
           split; [done|]. by apply forallb_has_fields.
        -- split; [discriminate|]. intros (_ & l' & [= <-] & HF).
           apply forallb_has_fields in HF. congruence.
      * split; [discriminate|]. by intros (_ & l' & [=] & _).
    + apply bool_decide_eq_false in Hu. split; [discriminate|]. by intros [? _].
  - intros l now self [uid Hu] -> Hwt.
    destruct (mapM_Ok normalize_metric (VDict <$> l)) as [recs Hrecs].
    { apply Forall_fmap. eapply Forall_impl; [exact Hwt|].
      intros m Hm. by apply normalize_metric_Ok. }
    eexists. unfold DataIntegration.normalize_data, py_getitem.
    rewrite Hu, Hms. simpl. rewrite Hrecs. simpl. split; [reflexivity|].
    simpl. rewrite (mapM_length _ _ _ Hrecs). by rewrite length_fmap.
Qed.


(** C9, as stated, fails: normalization reads the clock and writes to the
    integrator.  Two calls in a row on the same raw input return dicts that
    differ in [last_updated], and the first call changes the integrator. *)
Lemma normalize_outputs_differ_by_clock :
  let raw :=
    VDict {[ "user_id" := VStr "user_1";
             "metrics" :=
               VList [VDict {[ "date" := VStr "2024-11-22"; "steps" := VNum 8000;
                               "heart_rate" := VNum 70;
                               "sleep_hours" := VNum 7.5 ]}] ]} in
  let fresh := {| config := VDict ∅; normalized_data := None |} in
  ∃ out1 self1 out2 self2,
    DataIntegration.normalize_data (λ _, None) (λ _, None) "2024-11-22T10:00:00" raw fresh
    = Ok (out1, self1)
    ∧ DataIntegration.normalize_data (λ _, None) (λ _, None) "2024-11-22T10:00:01" raw self1
      = Ok (out2, self2)
    ∧ out1 ≠ out2
    ∧ self1 ≠ fresh
    ∧ metrics out1 = metrics out2.
Proof.
  cbv zeta. do 4 eexists.
  split; [vm_compute; reflexivity|]. split; [vm_compute; reflexivity|].
  split; [|split].
  - intros H. apply (f_equal last_updated) in H. discriminate H.
  - intros H. apply (f_equal normalized_data) in H. discriminate H.
  - reflexivity.
Qed.

(** C9, amended.  The record sequence of a call depends on the raw input alone:
    whatever the clock reads and whatever the integrator holds, two calls on
    the same raw input yield the same records, or raise the same exception.
    The dict around the records depends on the raw input and the clock
    reading, not on the integrator. *)
Theorem normalize_twice_same_records (raw : value) (now1 now2 : string)
    (self1 self2 : HealthDataIntegrator) :
  records_of (normalize_data now1 raw self1) = records_of (normalize_data now2 raw self2)
  ∧ output_of (normalize_data now1 raw self1) = output_of (normalize_data now1 raw self2).
Proof.
  unfold DataIntegration.normalize_data, records_of, output_of.
  destruct (py_getitem raw "user_id") as [uid|e]; [|done]. simpl.
  destruct (py_getitem raw "metrics" ≫= py_iter) as [ms|e]; [|done]. simpl.
  destruct (mapM normalize_metric ms) as [recs|e]; done.
Qed.

(** The whole result of [normalize_data] is a function of the raw input and
    the clock reading: apart from the records it carries the user id, the
    fixed data source and the timestamp. *)
Lemma normalize_data_fields (raw : value) (now : string) (self : HealthDataIntegrator)
    (out : NormalizedData) (self' : HealthDataIntegrator) :
  normalize_data now raw self = Ok (out, self') →
  py_getitem raw "user_id" = Ok (user_id out)
  ∧ data_source out = "mock_data"%string
  ∧ last_updated out = now
  ∧ normalized_data self' = Some out.
Proof.
  unfold DataIntegration.normalize_data. intros H.
  repeat bind_inv H. injection H as <- <-. by rewrite Ha.
Qed.

(** The quality label of a normalized record is the classification of its
    own duration. *)
Lemma normalized_quality_of_duration (metric : value) (r : NormalizedRecord) :
  normalize_metric metric = Ok r →
  _calculate_sleep_quality (VNum (duration_hours (sleep r))) = Ok (quality_score (sleep r)).
Proof.
  unfold DataIntegration.normalize_metric. intros H.
  repeat bind_inv H. injection H as <-. simpl.
  repeat match goal with
         | Hx : py_getitem metric ?k ≫= _ = Ok _ |- _ =>
             apply bind_Ok in Hx as (? & ? & Hx)
         end.
  repeat match goal with
         | H1 : py_getitem metric ?k = Ok ?x, H2 : py_getitem metric ?k = Ok ?y |- _ =>
             assert (y = x) as -> by congruence; clear H2
         end.
  match goal with
  | Hf : py_float _ ?v = Ok ?dur, Hq : _calculate_sleep_quality ?v = Ok ?qual
    |- _calculate_sleep_quality (VNum ?dur) = Ok ?qual =>
      destruct v as [|[]|q|str| |]; try discriminate;
      simpl in Hf; try destruct (in_float_range q); try discriminate;
      try (injection Hf as <-); exact Hq
  end.
Qed.

(** On the records of a normalized payload the sleep scorer assigns the
    priorities of the specification's table as worded. *)
Lemma sleep_priority_on_pipeline (raw : value) (now : string)
    (self self' : HealthDataIntegrator) (out : NormalizedData) :
  normalize_data now raw self = Ok (out, self') →
  Sleep.priority <$> Sleep._generate_sleep_recommendations (Sleep.sleep_entries (metrics out))
  = (λ entry, Sleep.priority_spec (Sleep.sleep_hours entry) (Sleep.quality_score entry))
      <$> Sleep.sleep_entries (metrics out).
Proof.
  unfold DataIntegration.normalize_data. intros H.
  repeat bind_inv H. injection H as <- _. simpl.
  match goal with Hm : mapM _ _ = Ok _ |- _ => apply mapM_Forall in Hm; rename Hm into Hrecs end.
  rewrite priority_of_recommendations. unfold Sleep.sleep_entries.
  rewrite <- !list_fmap_compose. apply Forall_fmap_ext.
  eapply Forall_impl; [exact Hrecs|]. intros r [metric Hr]. simpl.
  apply priority_spec_on_normalized. by eapply normalized_quality_of_duration.
Qed.

End NormalizerProperties.

Lemma load_and_normalize_contract_witness :
  let metric : gmap string value :=
    {[ "date" := VStr "2024-11-22"; "steps" := VNum 8000;
       "heart_rate" := VNum 70; "sleep_hours" := VNum 7.5 ]} in
  let d : gmap string value :=
    {[ "user_id" := VStr "user_1"; "metrics" := VList [VDict metric] ]} in
  let fresh := {| DataIntegration.config := VDict ∅;
                  DataIntegration.normalized_data := None |} in
  DataIntegration.metrics_are d (Some [metric])
  ∧ DataIntegration.load_mock_data (DataIntegration.Parsed (VDict d)) = Ok (VDict d)
  ∧ ∃ out, DataIntegration.normalize_data (λ _, None) (λ _, None)
             "2024-11-22T10:00:00" (VDict d) fresh
           = Ok (out, {| DataIntegration.config := DataIntegration.config fresh;
                         DataIntegration.normalized_data := Some out |})
           ∧ length (DataIntegration.metrics out) = length [metric].
Proof.
  intros metric d fresh.
  assert (Hms : DataIntegration.metrics_are d (Some [metric])) by reflexivity.
  destruct (load_and_normalize_contract (λ _, None) (λ _, None) d (Some [metric]) Hms)
    as (_ & Hload & Hnorm).
  split; [exact Hms|]. split.
  - apply Hload. split; [by eexists|]. exists [metric]. split; [reflexivity|].
    repeat constructor; by eexists.
  - apply Hnorm; [by eexists | reflexivity |].
    repeat constructor; by eexists.
Defined.


(** ** The insight aggregator *)

Section AggregatorProperties.
Import Aggregate.

Lemma py_in_absent (k : string) (d : gmap string value) :
  d !! k = None → py_in k (VDict d) = Ok false.
Proof. intros H. unfold py_in. by rewrite H. Qed.

(** Reports that carry none of the sections the aggregator looks for. *)
Section NoSections.
Variables df ds dm : gmap string value.
Hypothesis no_performance_metrics : df !! "performance_metrics" = None.
Hypothesis no_trends : df !! "trends" = None.
Hypothesis no_sleep_patterns : ds !! "sleep_patterns" = None.
Hypothesis no_sleep_quality_metrics : ds !! "sleep_quality_metrics" = None.
Hypothesis no_summary : dm !! "summary" = None.
Hypothesis no_sentiment_trends : dm !! "sentiment_trends" = None.

Lemma holistic_insights_no_sections :
  _generate_holistic_insights (VDict df) (VDict ds) (VDict dm) = Ok [].
Proof using no_performance_metrics no_sleep_quality_metrics no_summary.
  unfold _generate_holistic_insights.
  by rewrite !(py_in_absent _ _ no_performance_metrics),
             !(py_in_absent _ _ no_summary),
             !(py_in_absent _ _ no_sleep_quality_metrics).
Qed.

Lemma correlations_no_sections :
  _analyze_correlations (VDict df) (VDict ds) (VDict dm) = Ok ∅.
Proof using no_performance_metrics no_summary.
  unfold _analyze_correlations.
  by rewrite !(py_in_absent _ _ no_performance_metrics),
             !(py_in_absent _ _ no_summary).
Qed.

Lemma priority_recommendations_no_sections :
  _generate_priority_recommendations (VDict df) (VDict ds) (VDict dm) = Ok [].
Proof using no_performance_metrics no_sleep_patterns no_summary.
  unfold _generate_priority_recommendations.
  by rewrite !(py_in_absent _ _ no_performance_metrics),
             !(py_in_absent _ _ no_summary),
             !(py_in_absent _ _ no_sleep_patterns).
Qed.

Lemma wellness_score_no_sections :
  _calculate_wellness_score (VDict df) (VDict ds) (VDict dm) = Ok 0.0.
Proof using no_performance_metrics no_sleep_quality_metrics no_summary.
  unfold _calculate_wellness_score.
  by rewrite !(py_in_absent _ _ no_performance_metrics),
             !(py_in_absent _ _ no_summary),
             !(py_in_absent _ _ no_sleep_quality_metrics).
Qed.

Lemma trends_no_sections :
  _analyze_trends (VDict df) (VDict ds) (VDict dm)
  = Ok {[ "overall"%string := VStr "stable" ]}.
Proof using no_trends no_sleep_patterns no_sentiment_trends.
  unfold _analyze_trends.
  by rewrite !(py_in_absent _ _ no_trends),
             !(py_in_absent _ _ no_sleep_patterns),
             !(py_in_absent _ _ no_sentiment_trends).
Qed.

End NoSections.

(** C10.  On three reports with none of the recognized sections the
    aggregator returns a result without error field: wellness score 0.0, no
    holistic insights, correlations or priority recommendations, the overall
    trend "stable", and the fixed plan of three phases. *)
Theorem aggregate_without_sections (now : string) (df ds dm : gmap string value) :
  df !! "performance_metrics" = None → df !! "trends" = None →
  ds !! "sleep_patterns" = None → ds !! "sleep_quality_metrics" = None →
  dm !! "summary" = None → dm !! "sentiment_trends" = None →
  let result := aggregate_insights now (VDict df) (VDict ds) (VDict dm) in
  result = {| user_id := default (VStr "unknown") (df !! "user_id");
              analysis_date := now;
              error := None;
              holistic_insights := [];
              correlation_analysis := ∅;
              priority_recommendations := [];
              wellness_score := 0.0;
              trend_analysis := {[ "overall"%string := VStr "stable" ]};
              action_plan := _generate_action_plan (VDict df) (VDict ds) (VDict dm) |}
  ∧ error result = None
  ∧ trend_analysis result !! "overall" = Some (VStr "stable")
  ∧ week <$> action_plan result = [VNum 1; VStr "2-4"; VStr "2+ months"]
  ∧ focus <$> action_plan result = ["Foundation"; "Building Habits"; "Optimization"]%string.
Proof.
  intros Hpm Htr Hsp Hsq Hsu Hst result.
  assert (Hres : result
                 = {| user_id := default (VStr "unknown") (df !! "user_id");
                      analysis_date := now;
                      error := None;
                      holistic_insights := [];
                      correlation_analysis := ∅;
                      priority_recommendations := [];
                      wellness_score := 0.0;
                      trend_analysis := {[ "overall"%string := VStr "stable" ]};
                      action_plan := _generate_action_plan (VDict df) (VDict ds) (VDict dm) |}).
  { subst result. unfold aggregate_insights, aggregate_body.
    rewrite holistic_insights_no_sections, correlations_no_sections,
      priority_recommendations_no_sections, wellness_score_no_sections,
      trends_no_sections by assumption.
    reflexivity. }
  split; [exact Hres|]. rewrite Hres. simpl.
  split; [reflexivity|]. split; [apply lookup_singleton_eq|]. split; reflexivity.
Qed.

Lemma aggregate_body_no_error (now : string) (f s m : value) (a : AggregatedInsight) :
  aggregate_body now f s m = Ok a → error a = None ∧ analysis_date a = now.
Proof.
  unfold aggregate_body. intros H. repeat bind_inv H. by injection H as <-.
Qed.

Lemma aggregate_body_score (now : string) (f s m : value) (a : AggregatedInsight) :
  aggregate_body now f s m = Ok a →
  _calculate_wellness_score f s m = Ok (wellness_score a).
Proof.
  unfold aggregate_body. intros H. repeat bind_inv H. by injection H as <-.
Qed.

Lemma succeeds_Ok {A} (a : A) : succeeds (Ok a).
Proof. by exists a. Qed.

Lemma succeeds_bind {A B} (m : result A) (f : A → result B) :
  succeeds m → (∀ a, succeeds (f a)) → succeeds (m ≫= f).
Proof. intros [a ->] Hf. apply Hf. Qed.

Lemma succeeds_if {A} (b : bool) (x y : result A) :
  succeeds x → succeeds y → succeeds (if b then x else y).
Proof. by destruct b. Qed.

Lemma succeeds_py_and (a b : result bool) :
  succeeds a → succeeds b → succeeds (py_and a b).
Proof. intros [x ->] Hb. destruct x; [exact Hb | apply succeeds_Ok]. Qed.

Lemma succeeds_py_gt (v : value) (c : Q) : numeric v → succeeds (py_gt v c).
Proof. intros [q Hq]. unfold py_gt. rewrite Hq. apply succeeds_Ok. Qed.

Lemma succeeds_py_ge (v : value) (c : Q) : numeric v → succeeds (py_ge v c).
Proof. intros [q Hq]. unfold py_ge. rewrite Hq. apply succeeds_Ok. Qed.

Lemma succeeds_py_lt (v : value) (c : Q) : numeric v → succeeds (py_lt v c).
Proof. intros [q Hq]. unfold py_lt. rewrite Hq. apply succeeds_Ok. Qed.

Lemma succeeds_py_mul (v : value) (c : Q) : numeric v → succeeds (py_mul v c).
Proof. intros [q Hq]. unfold py_mul. rewrite Hq. apply succeeds_Ok. Qed.

Lemma numeric_default (sec : gmap string value) (key : string) :
  number_or_missing sec key → numeric (default (VNum 0) (sec !! key)).
Proof.
  unfold number_or_missing. destruct (sec !! key); [done|]. intros _. by exists 0.
Qed.

Lemma numeric_default_empty (key : string) :
  numeric (default (VNum 0) ((∅ : gmap string value) !! key)).
Proof. rewrite lookup_empty. by exists 0. Qed.

(** Steps of a proof that a computation returns. *)
Ltac ok_step :=
  first
    [ apply succeeds_Ok
    | apply succeeds_py_and
    | apply succeeds_py_gt
    | apply succeeds_py_ge
    | apply succeeds_py_lt
    | apply succeeds_py_mul
    | apply succeeds_if
    | apply succeeds_bind; [|intros ?]
    | apply numeric_default; assumption
    | apply numeric_default_empty ].

(** Case analysis on a section of a well-formed report. *)
Ltac section_cases H report section sec :=
  unfold section_ok in H;
  destruct (report !! section) as [[| | | | |sec]|] eqn:?;
  try (exfalso; exact H).

Lemma holistic_insights_succeed (df ds dm : gmap string value) :
  well_formed_fitness df → well_formed_sleep ds → well_formed_sentiment dm →
  succeeds (_generate_holistic_insights (VDict df) (VDict ds) (VDict dm)).
Proof.
  intros [Hpm _] [Hsp Hsq] [Hsu _].
  unfold _generate_holistic_insights, py_in, py_getitem, py_get.
  section_cases Hpm df "performance_metrics"%string pm;
  section_cases Hsp ds "sleep_patterns"%string sp;
  section_cases Hsq ds "sleep_quality_metrics"%string sq;
  section_cases Hsu dm "summary"%string su;
  simpl; intuition idtac; repeat ok_step.
Qed.

Lemma correlations_succeed (df ds dm : gmap string value) :
  well_formed_fitness df → well_formed_sleep ds → well_formed_sentiment dm →
  ¬ unguarded_sleep_quality_read df ds →
  succeeds (_analyze_correlations (VDict df) (VDict ds) (VDict dm)).
Proof.
  intros [Hpm _] [Hsp Hsq] [Hsu _]. unfold unguarded_sleep_quality_read.
  unfold _analyze_correlations, py_in, py_getitem, py_get.
  section_cases Hpm df "performance_metrics"%string pm;
  section_cases Hsp ds "sleep_patterns"%string sp;
  section_cases Hsq ds "sleep_quality_metrics"%string sq;
  section_cases Hsu dm "summary"%string su; simpl;
  try section_cases Hsu su "sentiment_distribution"%string sd;
  simpl; intros Hslip; try (by destruct Hslip); intuition idtac; repeat ok_step.
Qed.

Lemma priority_recommendations_succeed (df ds dm : gmap string value) :
  well_formed_fitness df → well_formed_sleep ds → well_formed_sentiment dm →
  ¬ unguarded_sleep_quality_read df ds →
  succeeds (_generate_priority_recommendations (VDict df) (VDict ds) (VDict dm)).
Proof.
  intros [Hpm _] [Hsp Hsq] [Hsu _]. unfold unguarded_sleep_quality_read.
  unfold _generate_priority_recommendations, py_in, py_getitem, py_get.
  section_cases Hpm df "performance_metrics"%string pm;
  section_cases Hsp ds "sleep_patterns"%string sp;
  section_cases Hsq ds "sleep_quality_metrics"%string sq;
  section_cases Hsu dm "summary"%string su; simpl;
  try section_cases Hsu su "sentiment_distribution"%string sd;
  simpl; intros Hslip; try (by destruct Hslip); intuition idtac; repeat ok_step.
Qed.

Lemma wellness_score_succeeds (df ds dm : gmap string value) :
  well_formed_fitness df → well_formed_sleep ds → well_formed_sentiment dm →
  succeeds (_calculate_wellness_score (VDict df) (VDict ds) (VDict dm)).
Proof.
  intros [Hpm _] [_ Hsq] [Hsu _].
  unfold _calculate_wellness_score, py_in, py_getitem, py_get.
  section_cases Hpm df "performance_metrics"%string pm;
  section_cases Hsq ds "sleep_quality_metrics"%string sq;
  section_cases Hsu dm "summary"%string su; simpl;
  try section_cases Hsu su "sentiment_distribution"%string sd;
  simpl; intuition idtac; repeat ok_step.
Qed.

Lemma trends_succeed (df ds dm : gmap string value) :
  well_formed_fitness df → well_formed_sleep ds → well_formed_sentiment dm →
  succeeds (_analyze_trends (VDict df) (VDict ds) (VDict dm)).
Proof.
  intros [_ Htr] [Hsp _] [_ Hst].
  unfold _analyze_trends, py_in, py_getitem, py_get.
  section_cases Htr df "trends"%string tr;
  section_cases Hsp ds "sleep_patterns"%string sp;
  section_cases Hst dm "sentiment_trends"%string st;
  simpl; repeat ok_step.
Qed.

(** Well-formed reports aggregate without error, whichever sections they
    leave out, as long as the unguarded read is not reached. *)
Lemma aggregate_body_succeeds (now : string) (df ds dm : gmap string value) :
  well_formed_fitness df → well_formed_sleep ds → well_formed_sentiment dm →
  ¬ unguarded_sleep_quality_read df ds →
  succeeds (aggregate_body now (VDict df) (VDict ds) (VDict dm)).
Proof.
  intros Hf Hs Hm Hslip. unfold aggregate_body.
  apply succeeds_bind; [apply succeeds_Ok|intros uid].
  apply succeeds_bind; [by apply holistic_insights_succeed|intros insights].
  apply succeeds_bind; [by apply correlations_succeed|intros correlations].
  apply succeeds_bind; [by apply priority_recommendations_succeed|intros recs].
  apply succeeds_bind; [by apply wellness_score_succeeds|intros score].
  apply succeeds_bind; [by apply trends_succeed|intros trends].
  apply succeeds_Ok.
Qed.
(** The read of the sleep-quality metrics that no test guards raises. *)
Lemma unguarded_read_raises (now : string) :
  let fitness := VDict {[ "user_id" := VStr "user_1";
                          "performance_metrics" :=
                            VDict {[ "fitness_score" := VNum 81 ]} ]} in
  let sleep := VDict {[ "user_id" := VStr "user_1";
                        "sleep_patterns" :=
                          VDict {[ "average_duration" := VNum 7.1 ]} ]} in
  let sentiment := VDict {[ "summary" :=
                              VDict {[ "overall_sentiment" := VStr "positive" ]} ]} in
  aggregate_body now fitness sleep sentiment = Raise KeyError
  ∧ aggregate_insights now fitness sleep sentiment = _get_error_response now.
Proof.
  cbv zeta. split; vm_compute; reflexivity.
Qed.

(** A section that is present and is not a dict makes the body raise. *)
Lemma wellness_score_raises (df : gmap string value) (s m v : value) :
  df !! "performance_metrics" = Some v → (∀ d, v ≠ VDict d) →
  _calculate_wellness_score (VDict df) s m = Raise AttributeError.
Proof.
  intros Hv Hnd. unfold _calculate_wellness_score, py_in, py_getitem.
  rewrite Hv. simpl. destruct v; try reflexivity. by destruct (Hnd d).
Qed.


Lemma aggregate_body_correlations (now : string) (f s m : value)
    (a : AggregatedInsight) :
  aggregate_body now f s m = Ok a →
  _analyze_correlations f s m = Ok (correlation_analysis a).
Proof.
  unfold aggregate_body. intros H. repeat bind_inv H. by injection H as <-.
Qed.

(** A fitness report that is not a dict has no [get]. *)
Lemma fitness_report_not_a_dict (now : string) (f s m : value) :
  (∀ d, f ≠ VDict d) → aggregate_insights now f s m = _get_error_response now.
Proof.
  intros Hnd. unfold aggregate_insights, aggregate_body.
  destruct f; try reflexivity. by destruct (Hnd d).
Qed.

(** The read of [sleep_data['sleep_quality_metrics']] behind the test for
    ['sleep_patterns'] fails whenever it is reached, whatever else the
    reports hold. *)
Lemma unguarded_read_fails (now : string) (df ds : gmap string value) (m : value) :
  unguarded_sleep_quality_read df ds →
  aggregate_insights now (VDict df) (VDict ds) m = _get_error_response now.
Proof.
  intros ([pm Hpm] & [sp Hsp] & Hsq). unfold aggregate_insights.
  destruct (aggregate_body now (VDict df) (VDict ds) m) as [a|e] eqn:E; [|reflexivity].
  exfalso. apply aggregate_body_correlations in E.
  unfold _analyze_correlations in E.
  assert (py_and (py_in "performance_metrics" (VDict df))
                 (py_in "sleep_patterns" (VDict ds)) = Ok true) as E1.
  { unfold py_in. by rewrite Hpm, Hsp. }
  assert (∀ k : value → result value,
            py_getitem (VDict ds) "sleep_quality_metrics" ≫= k = Raise KeyError) as E2.
  { intros k. unfold py_getitem. by rewrite Hsq. }
  rewrite E1 in E. cbn [mbind result_bind] in E. rewrite E2 in E.
  bind_inv E. bind_inv Ha. discriminate Ha.
Qed.


(** Case analysis on what a report holds under a section and a key. *)
Ltac score_cases H report section key :=
  unfold component, field_or_0 in H;
  destruct (report !! section) as [[| | | | |?]|] eqn:?;
  try (exfalso; exact H); simpl;
  [ let q := fresh "q" in
    let Hq := fresh "Hq" in
    destruct H as (q & Hq & ->);
    match type of Hq with
    | context [?d !! key] =>
        destruct (d !! key) as [?|] eqn:?; simpl;
        [unfold py_mul; rewrite Hq | subst q]; simpl
    end
  | subst ].

(** [_calculate_wellness_score] returns on reports whose present sections hold
    numbers, and returns the weighted sum. *)
Lemma calculate_wellness_score_sum (df ds dm : gmap string value)
    (fitness_score sleep_score positive_pct : option Q) :
  component df "performance_metrics" "fitness_score" fitness_score →
  component ds "sleep_quality_metrics" "sleep_score" sleep_score →
  sentiment_component dm positive_pct →
  ∃ w, _calculate_wellness_score (VDict df) (VDict ds) (VDict dm) = Ok w
       ∧ w == weighted_sum fitness_score sleep_score positive_pct
       ∧ (fitness_score = None → sleep_score = None → positive_pct = None → w = 0.0).
Proof.
  intros Hf Hs Hm.
  unfold _calculate_wellness_score, py_in, py_getitem, py_get.
  score_cases Hf df "performance_metrics"%string "fitness_score"%string.
  all: score_cases Hs ds "sleep_quality_metrics"%string "sleep_score"%string.
  all: unfold sentiment_component, field_or_0 in Hm;
    destruct (dm !! "summary") as [[| | | | |su]|] eqn:?;
    try (exfalso; exact Hm); simpl;
    [ destruct (su !! "sentiment_distribution") as [[| | | | |sd]|] eqn:?;
      try (exfalso; exact Hm); simpl;
      [ destruct Hm as (qp & Hqp & ->);
        destruct (sd !! "positive_percentage") as [vp|] eqn:?;
        [ change (default (VNum 0) (Some vp)) with vp; unfold py_mul; rewrite Hqp
        | subst qp ];
        simpl
      | rewrite lookup_empty; subst; simpl ]
    | subst ].
  all: eexists; split; [reflexivity|]; split;
    [ unfold weighted_sum, py_sum; simpl; lra
    | intros; solve [discriminate | reflexivity] ].
Qed.



End AggregatorProperties.

Lemma aggregate_without_sections_witness :
  let result := Aggregate.aggregate_insights "2024-11-22T10:00:00" (VDict ∅) (VDict ∅) (VDict ∅) in
  Aggregate.error result = None
  ∧ Aggregate.wellness_score result = 0.0
  ∧ Aggregate.holistic_insights result = []
  ∧ Aggregate.priority_recommendations result = []
  ∧ Aggregate.focus <$> Aggregate.action_plan result
    = ["Foundation"; "Building Habits"; "Optimization"]%string.
Proof.
  intros result.
  destruct (aggregate_without_sections "2024-11-22T10:00:00" ∅ ∅ ∅)
    as (Hres & Herr & _ & _ & Hfocus); try apply lookup_empty.
  fold result in Hres, Herr, Hfocus.
  split; [exact Herr|]. split; [by rewrite Hres|].
  split; [by rewrite Hres|]. split; [by rewrite Hres | exact Hfocus].
Defined.



(** ** The range of the scores *)

Section ScoreRange.
Import Fitness Sleep Aggregate.

(** C1 fails on the code.  A single valid record with 10000 steps and a
    heart rate of 40 gets the fitness score 120; a single night of 8 hours
    gets the sleep score 100; with these two scores and a positive percentage
    of 100 the wellness score is 48 + 35 + 25 = 108. *)
Theorem scores_leave_0_100 :
  _calculate_fitness_score [10000]%Z [40]%Z == 120
  ∧ ¬ (_calculate_fitness_score [10000]%Z [40]%Z <= 100)
  ∧ (∀ np_std, _calculate_sleep_score np_std [8] == 100)
  ∧ (∀ now,
       let fitness := VDict {[ "performance_metrics" :=
                                 VDict {[ "fitness_score" := VNum 120 ]} ]} in
       let sleep := VDict {[ "sleep_quality_metrics" :=
                               VDict {[ "sleep_score" := VNum 100 ]} ]} in
       let sentiment :=
         VDict {[ "summary" :=
                    VDict {[ "sentiment_distribution" :=
                               VDict {[ "positive_percentage" := VNum 100 ]} ]} ]} in
       let result := aggregate_insights now fitness sleep sentiment in
       error result = None
       ∧ wellness_score result == 108
       ∧ ¬ (wellness_score result <= 100)).
Proof.
  split; [apply fitness_score_above_100|].
  split; [apply fitness_score_above_100|].
  split; [intros np_std; reflexivity|].
  intros now. cbv zeta. split; [reflexivity|]. split.
  - reflexivity.
  - vm_compute. intros H. apply H. reflexivity.
Qed.

End ScoreRange.

(** * Further properties of the code *)

(** ** The aggregator: ranges and shapes of the results *)

(** Inversion of a hypothesis that a monadic computation returned: binds,
    conditionals and returns are taken apart. *)
Ltac ok_inv :=
  repeat match goal with
         | H : mret _ = Ok _ |- _ => injection H as <-
         | H : Ok _ = Ok _ |- _ => injection H as <-
         | H : Raise _ = Ok _ |- _ => discriminate H
         | H : (if ?c then _ else _) = Ok _ |- _ => destruct c eqn:?
         | H : _ ≫= _ = Ok _ |- _ => bind_inv H
         end.

(** Two reads of the same place give the same value. *)
Ltac same_reads :=
  repeat match goal with
         | H1 : ?e = Ok ?x, H2 : ?e = Ok ?y |- _ =>
             rewrite H1 in H2; injection H2 as ?; subst
         end.

Section AggregatorShapes.
Import Aggregate AggregateShapes.

(** The wellness score of components that lie in [0, 100] lies in [0, 100],
    and a component that is absent caps it at 100 minus its weight. *)
Theorem wellness_score_range (df ds dm : gmap string value)
    (fitness_score sleep_score positive_pct : option Q) :
  component df "performance_metrics" "fitness_score" fitness_score →
  component ds "sleep_quality_metrics" "sleep_score" sleep_score →
  sentiment_component dm positive_pct →
  (∀ q, fitness_score = Some q → 0 <= q <= 100) →
  (∀ q, sleep_score = Some q → 0 <= q <= 100) →
  (∀ q, positive_pct = Some q → 0 <= q <= 100) →
  ∃ w, _calculate_wellness_score (VDict df) (VDict ds) (VDict dm) = Ok w
       ∧ 0 <= w <= 100
       ∧ (fitness_score = None → w <= 60)
       ∧ (sleep_score = None → w <= 65)
       ∧ (positive_pct = None → w <= 75).
Proof.
  intros Hf Hs Hm Rf Rs Rm.
  destruct (calculate_wellness_score_sum df ds dm _ _ _ Hf Hs Hm) as (w & Hw & Hsum & _).
  exists w. split; [exact Hw|]. unfold weighted_sum in Hsum.
  destruct fitness_score as [a|], sleep_score as [b|], positive_pct as [c|];
    simpl in Hsum;
    try (specialize (Rf _ eq_refl)); try (specialize (Rs _ eq_refl));
    try (specialize (Rm _ eq_refl));
    repeat split; try discriminate; intros; lra.
Qed.

Lemma py_lt_true (v : value) (c : Q) :
  py_lt v c = Ok true → ∃ q, as_num v = Ok q ∧ q < c.
Proof.
  unfold py_lt. intros H. bind_inv H. injection H as H.
  exists a. split; [done|]. by apply Qltb_lt.
Qed.

Lemma py_gt_true (v : value) (c : Q) :
  py_gt v c = Ok true → ∃ q, as_num v = Ok q ∧ c < q.
Proof.
  unfold py_gt. intros H. bind_inv H. injection H as H.
  exists a. split; [done|]. by apply Qltb_lt.
Qed.

Lemma py_ge_true (v : value) (c : Q) :
  py_ge v c = Ok true → ∃ q, as_num v = Ok q ∧ c <= q.
Proof.
  unfold py_ge. intros H. bind_inv H. injection H as H.
  exists a. split; [done|]. by apply Qle_bool_iff.
Qed.

Lemma py_and_true (a b : result bool) :
  py_and a b = Ok true → a = Ok true ∧ b = Ok true.
Proof.
  unfold py_and. intros H. bind_inv H. by destruct a0.
Qed.

(** The priority recommendations come in the order high, high, medium, low,
    each category at most once, and never more than three: the medium
    fitness entry (score below 60) and the low maintenance entry (score above
    80) exclude each other. *)
Theorem priority_recommendations_ordered (f s m : value) (recs : list Recommendation) :
  _generate_priority_recommendations f s m = Ok recs →
  (λ r, (priority r, category r)) <$> recs `sublist_of` priority_order
  ∧ (length recs <= 3)%nat.
Proof.
  unfold _generate_priority_recommendations. intros H.
  ok_inv; (split; [simpl; repeat first [apply sublist_nil | apply sublist_skip | apply sublist_cons]|]);
    simpl; try lia.
  exfalso. same_reads.
  match goal with
  | Hlt : py_lt ?v 60 = Ok true, Hgt : py_and (py_gt ?v 80) _ = Ok true |- _ =>
      apply py_lt_true in Hlt as (q & Hq & Hlt);
      apply py_and_true in Hgt as [Hgt _];
      apply py_gt_true in Hgt as (q' & Hq' & Hgt);
      rewrite Hq in Hq'; injection Hq' as <-; lra
  end.
Qed.

(** At most one holistic insight per pair of domains: never more than three,
    and none twice. *)
Theorem holistic_insights_at_most_three (f s m : value) (insights : list string) :
  _generate_holistic_insights f s m = Ok insights →
  (length insights <= 3)%nat ∧ NoDup insights.
Proof.
  unfold _generate_holistic_insights. intros H.
  ok_inv; (split; [simpl; lia|]); simpl;
    apply (bool_decide_unpack _); vm_compute; exact I.
Qed.

(** The correlation table has the fitness-sleep entry exactly when both
    sections are there, with one of three strengths; the mood-fitness entry is
    optional and never "moderate"; there is no other entry. *)
Theorem correlations_shape (df ds : gmap string value) (m : value)
    (c : gmap string Correlation) :
  _analyze_correlations (VDict df) (VDict ds) m = Ok c →
  (is_Some (c !! "fitness_sleep")
   ↔ is_Some (df !! "performance_metrics") ∧ is_Some (ds !! "sleep_patterns"))
  ∧ (∀ x, c !! "fitness_sleep" = Some x →
          strength x ∈ ["strong_positive"; "strong_negative"; "moderate"]%string)
  ∧ (∀ x, c !! "mood_fitness" = Some x →
          strength x ∈ ["strong_positive"; "strong_negative"]%string)
  ∧ (∀ k, is_Some (c !! k) → k = "fitness_sleep"%string ∨ k = "mood_fitness"%string).
Proof.
  unfold _analyze_correlations, py_in. intros H.
  destruct (df !! "performance_metrics") as [pm|] eqn:Epm,
           (ds !! "sleep_patterns") as [sp|] eqn:Esp; simpl in H;
    ok_inv.
  all: split; [split; [intros Hc|intros [Hc1 Hc2]]|].
  all: try (simplify_map_eq; by eauto).
  all: try (by destruct Hc1).
  all: try (by destruct Hc2).
  all: try (by destruct Hc; simplify_map_eq).
  all: split; [intros x Hx; simplify_map_eq; set_solver|].
  all: split; [intros x Hx; simplify_map_eq; set_solver|].
  all: intros k [x Hx];
    destruct (decide (k = "fitness_sleep"%string)); [by left|];
    destruct (decide (k = "mood_fitness"%string)); [by right|];
    by simplify_map_eq.
Qed.

Lemma count_values_empty (lit : string) : count_values ∅ lit = 0%nat.
Proof. unfold count_values. by rewrite map_to_list_empty. Qed.

Lemma count_values_insert (t : gmap string value) (k : string) (v : value)
    (lit : string) :
  t !! k = None →
  count_values (<[k:=v]> t) lit
  = ((if py_eq_str v lit then 1 else 0) + count_values t lit)%nat.
Proof.
  intros Hk. unfold count_values.
  rewrite (map_to_list_insert t k v Hk), filter_cons. simpl.
  destruct (py_eq_str v lit); by case_decide.
Qed.

Lemma analyze_trends_without_fitness (df tr : gmap string value) (s m : value)
    (t : gmap string value) :
  df !! "trends" = Some (VDict tr) →
  py_eq_str (default (VStr "stable") (tr !! "steps_trend")) "improving" = false →
  py_eq_str (default (VStr "stable") (tr !! "steps_trend")) "declining" = false →
  _analyze_trends (VDict df) s m = Ok t →
  ∃ t', _analyze_trends (VDict (delete "trends" df)) s m = Ok t'
        ∧ t' !! "overall" = t !! "overall".
Proof.
  intros Htr Hi Hd H. unfold _analyze_trends in *.
  assert (py_in "trends" (VDict df) = Ok true) as E1.
  { unfold py_in. by rewrite Htr. }
  assert (py_in "trends" (VDict (delete "trends" df)) = Ok false) as E2.
  { unfold py_in. by rewrite lookup_delete_eq. }
  assert (py_getitem (VDict df) "trends" ≫= (λ t, py_get t "steps_trend" (VStr "stable"))
          = Ok (default (VStr "stable") (tr !! "steps_trend"))) as E3.
  { unfold py_getitem. by rewrite Htr. }
  rewrite E1, E3 in H. rewrite E2. clear E1 E2 E3.
  set (v := default (VStr "stable") (tr !! "steps_trend")) in *.
  simpl in H |- *. ok_inv.
  all: repeat match goal with
              | Hx : ?e = Ok _ |- context [?e] => rewrite Hx; simpl
              end.
  all: eexists; split; [reflexivity|].
  all: repeat (rewrite count_values_insert by by simplify_map_eq).
  all: rewrite ?count_values_empty, ?Hi, ?Hd; simpl.
  all: repeat match goal with
              | |- context [if ?b then _ else _] => destruct b
              end; by simplify_map_eq.
Qed.

(** The steps trend of the fitness report is stored under "fitness"; without
    the trends section nothing is stored there. *)
Lemma analyze_trends_stores_fitness (df tr : gmap string value) (s m : value)
    (t : gmap string value) :
  df !! "trends" = Some (VDict tr) →
  _analyze_trends (VDict df) s m = Ok t →
  t !! "fitness" = Some (default (VStr "stable") (tr !! "steps_trend"))
  ∧ ∀ t', _analyze_trends (VDict (delete "trends" df)) s m = Ok t' →
          t' !! "fitness" = None.
Proof.
  intros Htr H. split.
  - unfold _analyze_trends in H.
    assert (py_in "trends" (VDict df) = Ok true) as E1.
    { unfold py_in. by rewrite Htr. }
    assert (py_getitem (VDict df) "trends" ≫= (λ t, py_get t "steps_trend" (VStr "stable"))
            = Ok (default (VStr "stable") (tr !! "steps_trend"))) as E3.
    { unfold py_getitem. by rewrite Htr. }
    rewrite E1, E3 in H. clear E1 E3.
    set (v := default (VStr "stable") (tr !! "steps_trend")) in *.
    simpl in H. ok_inv.
    all: repeat match goal with
                | |- context [if ?b then _ else _] => destruct b
                end; by simplify_map_eq.
  - intros t' H'. unfold _analyze_trends in H'.
    assert (py_in "trends" (VDict (delete "trends" df)) = Ok false) as E2.
    { unfold py_in. by rewrite lookup_delete_eq. }
    rewrite E2 in H'. clear E2. simpl in H'. ok_inv.
    all: repeat match goal with
                | |- context [if ?b then _ else _] => destruct b
                end; by simplify_map_eq.
Qed.

(** A fitness trend that is neither "improving" nor "declining" is stored
    under "fitness" and not counted: the overall trend is the one the
    aggregator gives without the fitness report's trends, where nothing is
    stored under "fitness". *)
Theorem fitness_trend_not_counted (df tr : gmap string value) (s m : value)
    (t : gmap string value) :
  df !! "trends" = Some (VDict tr) →
  py_eq_str (default (VStr "stable") (tr !! "steps_trend")) "improving" = false →
  py_eq_str (default (VStr "stable") (tr !! "steps_trend")) "declining" = false →
  _analyze_trends (VDict df) s m = Ok t →
  t !! "fitness" = Some (default (VStr "stable") (tr !! "steps_trend"))
  ∧ ∃ t', _analyze_trends (VDict (delete "trends" df)) s m = Ok t'
          ∧ t' !! "overall" = t !! "overall"
          ∧ t' !! "fitness" = None.
Proof.
  intros Htr Hi Hd H.
  destruct (analyze_trends_stores_fitness df tr s m t Htr H) as [Hfit Hnone].
  destruct (analyze_trends_without_fitness df tr s m t Htr Hi Hd H) as (t' & Ht' & Ho).
  split; [exact Hfit|]. exists t'. split; [exact Ht'|]. split; [exact Ho|].
  by apply Hnone.
Qed.

End AggregatorShapes.

Lemma wellness_score_range_witness :
  let df : gmap string value :=
    {[ "performance_metrics" := VDict {[ "fitness_score" := VNum 81 ]} ]} in
  let ds : gmap string value :=
    {[ "sleep_quality_metrics" := VDict {[ "sleep_score" := VNum 90 ]} ]} in
  ∃ w, Aggregate._calculate_wellness_score (VDict df) (VDict ds) (VDict ∅) = Ok w
       ∧ 0 <= w <= 100 ∧ w <= 75.
Proof.
  intros df ds.
  destruct (wellness_score_range df ds ∅ (Some 81) (Some 90) None)
    as (w & Hw & Hrange & _ & _ & Hcap).
  - vm_compute. eexists. split; reflexivity.
  - vm_compute. eexists. split; reflexivity.
  - reflexivity.
  - intros q [= <-]. split; discriminate.
  - intros q [= <-]. split; discriminate.
  - discriminate.
  - exists w. split; [exact Hw|]. split; [exact Hrange|]. by apply Hcap.
Defined.

Lemma priority_recommendations_ordered_witness :
  let f := VDict {[ "performance_metrics" := VDict {[ "fitness_score" := VNum 45 ]} ]} in
  let s := VDict {[ "sleep_patterns" := VDict {[ "average_duration" := VNum 5.5 ]};
                    "sleep_quality_metrics" := VDict {[ "sleep_score" := VNum 40 ]} ]} in
  let m := VDict ∅ in
  ∃ recs, Aggregate._generate_priority_recommendations f s m = Ok recs
          ∧ Aggregate.priority <$> recs = ["high"; "medium"]%string
          ∧ (λ r, (Aggregate.priority r, Aggregate.category r)) <$> recs
            `sublist_of` AggregateShapes.priority_order.
Proof.
  intros f s m. eexists. split; [vm_compute; reflexivity|]. split; [reflexivity|].
  apply (priority_recommendations_ordered f s m). vm_compute. reflexivity.
Defined.

Lemma holistic_insights_at_most_three_witness :
  let f := VDict {[ "performance_metrics" :=
                      VDict {[ "average_steps" := VNum 9000;
                               "fitness_score" := VNum 81 ]} ]} in
  let s := VDict {[ "sleep_patterns" := VDict {[ "average_duration" := VNum 7.5 ]} ]} in
  let m := VDict {[ "summary" := VDict {[ "overall_sentiment" := VStr "positive" ]} ]} in
  ∃ insights, Aggregate._generate_holistic_insights f s m = Ok insights
              ∧ length insights = 2%nat ∧ NoDup insights.
Proof.
  intros f s m. eexists. split; [vm_compute; reflexivity|]. split; [reflexivity|].
  apply (holistic_insights_at_most_three f s m). vm_compute. reflexivity.
Defined.

Lemma correlations_shape_witness :
  let df : gmap string value :=
    {[ "performance_metrics" := VDict {[ "fitness_score" := VNum 81 ]} ]} in
  let ds : gmap string value :=
    {[ "sleep_patterns" := VDict {[ "average_duration" := VNum 7.5 ]};
       "sleep_quality_metrics" := VDict {[ "sleep_score" := VNum 60 ]} ]} in
  ∃ c, Aggregate._analyze_correlations (VDict df) (VDict ds) (VDict ∅) = Ok c
       ∧ is_Some (c !! "fitness_sleep")
       ∧ ∀ k, is_Some (c !! k) → k = "fitness_sleep"%string ∨ k = "mood_fitness"%string.
Proof.
  intros df ds.
  destruct (Aggregate._analyze_correlations (VDict df) (VDict ds) (VDict ∅))
    as [c|e] eqn:E; [|vm_compute in E; discriminate E].
  exists c. split; [reflexivity|].
  destruct (correlations_shape df ds (VDict ∅) c E) as (Hfs & _ & _ & Hkeys).
  split; [|exact Hkeys]. apply Hfs. split; by eexists.
Defined.

Lemma fitness_trend_not_counted_witness :
  let tr : gmap string value := {[ "steps_trend" := VStr "increasing" ]} in
  let df : gmap string value := {[ "trends" := VDict tr ]} in
  let s := VDict {[ "sleep_patterns" := VDict {[ "quality_trend" := VStr "declining" ]} ]} in
  ∃ t t', Aggregate._analyze_trends (VDict df) s (VDict ∅) = Ok t
          ∧ Aggregate._analyze_trends (VDict (delete "trends" df)) s (VDict ∅) = Ok t'
          ∧ t !! "fitness" = Some (VStr "increasing")
          ∧ t !! "overall" = Some (VStr "declining")
          ∧ t' !! "overall" = t !! "overall"
          ∧ t' !! "fitness" = None.
Proof.
  intros tr df s.
  assert (∃ t, Aggregate._analyze_trends (VDict df) s (VDict ∅) = Ok t
               ∧ t !! "overall" = Some (VStr "declining")) as (t & Ht & Ho).
  { eexists. split; vm_compute; reflexivity. }
  destruct (fitness_trend_not_counted df tr s (VDict ∅) t)
    as (Hfit & t' & Ht' & Heq & Hnone);
    [reflexivity | reflexivity | reflexivity | exact Ht |].
  exists t, t'. by repeat split.
Defined.

(** ** The normalizer: what a normalized record guarantees *)

Section TruncationFacts.

(** Truncation toward zero does not move a number across a positive integer
    threshold. *)
Lemma trunc_threshold (q : Q) (c : Z) :
  (0 < c)%Z →
  Qle_bool (inject_Z c) q
  = Qle_bool (inject_Z c) (inject_Z (Z.quot (Qnum q) (Z.pos (Qden q)))).
Proof.
  intros Hc. destruct q as [n d]. simpl.
  apply eq_true_iff_eq. rewrite !Qle_bool_iff, <- Zle_Qle.
  unfold Qle. simpl. rewrite Z.mul_1_r.
  destruct (Z.le_gt_cases 0 n) as [Hn|Hn].
  - rewrite Z.quot_div_nonneg by lia. split; intros H.
    + apply Z.div_le_lower_bound; lia.
    + pose proof (Z.mul_div_le n (Z.pos d)). nia.
  - assert (Z.quot n (Z.pos d) <= 0)%Z.
    { replace n with (- (- n))%Z by lia. rewrite Z.quot_opp_l by lia.
      pose proof (Z.quot_pos (- n) (Z.pos d)). lia. }
    split; intros H'; nia.
Qed.

End TruncationFacts.

Section NormalizedRecords.
Import DataIntegration.
Variable int_of_str : string → option Z.
Variable float_of_str : string → option Q.

#[local] Abbreviation normalize_metric' :=
  (DataIntegration.normalize_metric int_of_str float_of_str).
#[local] Abbreviation normalize_data' :=
  (DataIntegration.normalize_data int_of_str float_of_str).

Lemma activity_level_of_int (v : value) (z : Z) (label : string) :
  py_int int_of_str v = Ok z → _classify_activity_level v = Ok label →
  _classify_activity_level (VNum (inject_Z z)) = Ok label.
Proof.
  destruct v as [|[]|q|str| |]; try discriminate; simpl.
  - by intros [= <-].
  - by intros [= <-].
  - intros [= <-]. unfold _classify_activity_level, py_ge. simpl.
    change 10000 with (inject_Z 10000). change 5000 with (inject_Z 5000).
    by rewrite <- !trunc_threshold by lia.
Qed.

Lemma heart_rate_zone_of_int (v : value) (z : Z) (label : string) :
  py_int int_of_str v = Ok z → _classify_heart_rate_zone v = Ok label →
  _classify_heart_rate_zone (VNum (inject_Z z)) = Ok label.
Proof.
  destruct v as [|[]|q|str| |]; try discriminate; simpl.
  - by intros [= <-].
  - by intros [= <-].
  - intros [= <-]. unfold _classify_heart_rate_zone, py_lt, Qltb. simpl.
    change 60 with (inject_Z 60). change 100 with (inject_Z 100).
    change 120 with (inject_Z 120).
    by rewrite <- !trunc_threshold by lia.
Qed.

Lemma sleep_labels_of_float (v : value) (q : Q) (quality adequacy : string) :
  py_float float_of_str v = Ok q →
  _calculate_sleep_quality v = Ok quality → _assess_sleep_adequacy v = Ok adequacy →
  _calculate_sleep_quality (VNum q) = Ok quality
  ∧ _assess_sleep_adequacy (VNum q) = Ok adequacy.
Proof.
  destruct v as [|[]|q'|str| |]; try discriminate; simpl;
    try destruct (in_float_range q'); try discriminate; by intros [= <-].
Qed.

(** What [normalize_data] returns and stores, and where its records come
    from. *)
Lemma normalize_data_records (raw : value) (now : string)
    (self self' : HealthDataIntegrator) (out : NormalizedData) :
  normalize_data' now raw self = Ok (out, self') →
  normalized_data self' = Some out
  ∧ Forall (λ r, ∃ metric, normalize_metric' metric = Ok r) (metrics out).
Proof.
  unfold DataIntegration.normalize_data. intros H. ok_inv.
  subst self'. split; [reflexivity|]. simpl. by eapply mapM_Forall.
Qed.

Lemma normalize_metric_labels (metric : value) (r : NormalizedRecord) :
  normalize_metric' metric = Ok r →
  _classify_activity_level (VNum (inject_Z (steps (physical_activity r))))
  = Ok (activity_level (derived_metrics r))
  ∧ _classify_heart_rate_zone (VNum (inject_Z (heart_rate (physical_activity r))))
    = Ok (heart_rate_zone (derived_metrics r))
  ∧ _calculate_sleep_quality (VNum (duration_hours (sleep r)))
    = Ok (quality_score (sleep r))
  ∧ _assess_sleep_adequacy (VNum (duration_hours (sleep r)))
    = Ok (sleep_adequacy (derived_metrics r)).
Proof.
  unfold DataIntegration.normalize_metric. intros H.
  ok_inv. simpl. same_reads.
  split; [by eapply activity_level_of_int|].
  split; [by eapply heart_rate_zone_of_int|].
  by eapply sleep_labels_of_float.
Qed.

(** The labels of every normalized record are the classifications of the
    numbers the record stores, although the code classifies the raw values
    and stores their [int()] and [float()]. *)
Theorem normalized_labels_consistent (raw : value) (now : string)
    (self self' : HealthDataIntegrator) (out : NormalizedData) :
  normalize_data' now raw self = Ok (out, self') →
  Forall (λ r,
    _classify_activity_level (VNum (inject_Z (steps (physical_activity r))))
    = Ok (activity_level (derived_metrics r))
    ∧ _classify_heart_rate_zone (VNum (inject_Z (heart_rate (physical_activity r))))
      = Ok (heart_rate_zone (derived_metrics r))
    ∧ _calculate_sleep_quality (VNum (duration_hours (sleep r)))
      = Ok (quality_score (sleep r))
    ∧ _assess_sleep_adequacy (VNum (duration_hours (sleep r)))
      = Ok (sleep_adequacy (derived_metrics r)))
    (metrics out).
Proof.
  intros H. apply normalize_data_records in H as [_ H].
  eapply Forall_impl; [exact H|]. intros r [metric Hr]. simpl.
  by eapply normalize_metric_labels.
Qed.

Lemma sleep_labels_of_hours (q : Q) (quality adequacy : string) :
  _calculate_sleep_quality (VNum q) = Ok quality →
  _assess_sleep_adequacy (VNum q) = Ok adequacy →
  (quality, adequacy)
  ∈ [("excellent", "adequate"); ("good", "borderline");
     ("fair", "insufficient"); ("poor", "insufficient")]%string.
Proof.
  unfold _calculate_sleep_quality, _assess_sleep_adequacy, py_ge. simpl.
  destruct (Qle_bool 7 q) eqn:E7; simpl.
  { intros [= <-] [= <-]. set_solver. }
  destruct (Qle_bool 6 q) eqn:E6; simpl.
  { intros [= <-] [= <-]. set_solver. }
  destruct (Qle_bool 5 q); simpl; intros [= <-] [= <-]; set_solver.
Qed.

(** The two sleep labels of a normalized record agree: "adequate" goes with
    "excellent", "borderline" with "good", "insufficient" with "fair" or
    "poor". *)
Theorem sleep_labels_agree (raw : value) (now : string)
    (self self' : HealthDataIntegrator) (out : NormalizedData) :
  normalize_data' now raw self = Ok (out, self') →
  Forall (λ r,
    (quality_score (sleep r), sleep_adequacy (derived_metrics r))
    ∈ [("excellent", "adequate"); ("good", "borderline");
       ("fair", "insufficient"); ("poor", "insufficient")]%string)
    (metrics out).
Proof.
  intros H. apply normalize_data_records in H as [_ H].
  eapply Forall_impl; [exact H|]. intros r [metric Hr]. simpl.
  apply normalize_metric_labels in Hr as (_ & _ & Hq & Ha).
  by eapply sleep_labels_of_hours.
Qed.

(** The records come in the order of the metrics, each with the date of its
    metric. *)
Theorem normalize_data_keeps_order (d : gmap string value) (ms : list value)
    (now : string) (self self' : HealthDataIntegrator) (out : NormalizedData) :
  d !! "metrics" = Some (VList ms) →
  normalize_data' now (VDict d) self = Ok (out, self') →
  Forall2 (λ metric r, py_getitem metric "date" = Ok (date r)) ms (metrics out).
Proof.
  intros Hms. unfold DataIntegration.normalize_data. intros H. ok_inv.
  repeat match goal with
         | Hx : py_getitem (VDict d) _ = Ok _ |- _ => unfold py_getitem in Hx
         end.
  rewrite Hms in *. ok_inv. simpl in *. ok_inv.
  match goal with Hs : _ = self' |- _ => clear Hs end. clear Hms.
  match goal with Hm : mapM _ _ = Ok ?recs |- _ => revert recs Hm end.
  induction ms as [|metric ms IH]; intros recs Hm; simpl in Hm.
  - injection Hm as <-. constructor.
  - ok_inv. constructor; [|by apply IH].
    match goal with
    | Hn : DataIntegration.normalize_metric _ _ _ = Ok _ |- _ =>
        unfold DataIntegration.normalize_metric in Hn; ok_inv; done
    end.
Qed.

(** The four required keys are there in whatever normalizes. *)
Lemma normalize_metric_has_fields (metric : value) (r : NormalizedRecord) :
  normalize_metric' metric = Ok r →
  py_all (λ field, py_in field metric) required_metric_fields = Ok true.
Proof.
  unfold DataIntegration.normalize_metric. intros H. ok_inv.
  destruct metric as [| | | | |m]; try discriminate.
  unfold py_getitem in *.
  repeat match goal with
         | Hx : match m !! ?k with _ => _ end = Ok _ |- _ =>
             destruct (m !! k) eqn:?; [clear Hx|discriminate Hx]
         end.
  unfold required_metric_fields, py_all, py_in.
  repeat match goal with Hx : m !! _ = Some _ |- _ => rewrite Hx; clear Hx end.
  reflexivity.
Qed.

Lemma normalize_metrics_have_fields (l : list value) (recs : list NormalizedRecord) :
  mapM normalize_metric' l = Ok recs →
  py_all (λ metric, py_all (λ field, py_in field metric) required_metric_fields) l
  = Ok true.
Proof.
  revert recs. induction l as [|x l IH]; intros recs Hm; [reflexivity|].
  simpl in Hm. ok_inv. rewrite py_all_cons.
  erewrite normalize_metric_has_fields by eassumption. simpl. by eapply IH.
Qed.

(** Validation is implied by normalization: on every payload, of whatever
    shape, that [normalize_data] accepts, [_validate_data_structure] answers
    true and [load_mock_data] returns the payload. *)
Theorem normalized_implies_valid (raw : value) (now : string)
    (self self' : HealthDataIntegrator) (out : NormalizedData) :
  normalize_data' now raw self = Ok (out, self') →
  _validate_data_structure raw = Ok true
  ∧ load_mock_data (Parsed raw) = Ok raw.
Proof.
  unfold DataIntegration.normalize_data. intros H. ok_inv.
  assert (Hv : _validate_data_structure raw = Ok true).
  { destruct raw as [| | | | |d]; try discriminate.
    unfold _validate_data_structure, required_fields, py_all, py_in.
    unfold py_getitem in *.
    destruct (d !! "user_id") eqn:Eu; [|discriminate].
    destruct (d !! "metrics") as [mv|] eqn:Em; [|discriminate].
    simpl. ok_inv.
    match goal with Hi : py_iter _ = Ok ?l |- _ => rewrite Hi; simpl end.
    by eapply normalize_metrics_have_fields. }
  split; [exact Hv|]. unfold load_mock_data. rewrite Hv. simpl.
  destruct raw; try discriminate. reflexivity.
Qed.

End NormalizedRecords.

(** ** Tallies and the summary of the normalizer *)

Section TallyFacts.

Lemma count_if_cons {A} (p : A → bool) (x : A) (l : list A) :
  count_if p (x :: l) = ((if p x then 1 else 0) + count_if p l)%Z.
Proof. unfold count_if. simpl. destruct (p x); simpl; lia. Qed.

Lemma count_if_nonneg {A} (p : A → bool) (l : list A) : (0 <= count_if p l)%Z.
Proof. unfold count_if. lia. Qed.

Lemma count_if_le_length {A} (p : A → bool) (l : list A) :
  (count_if p l <= Z.of_nat (length l))%Z.
Proof.
  induction l as [|x l IH]; [done|]. rewrite count_if_cons. simpl length.
  destruct (p x); lia.
Qed.

Lemma count_if_ext {A} (p p' : A → bool) (l : list A) :
  Forall (λ x, p x = p' x) l → count_if p l = count_if p' l.
Proof.
  induction 1 as [|x l Hx _ IH]; [done|]. by rewrite !count_if_cons, Hx, IH.
Qed.

Lemma count_if_fmap {A B} (f : A → B) (p : B → bool) (l : list A) :
  count_if p (f <$> l) = count_if (p ∘ f) l.
Proof.
  induction l as [|x l IH]; [done|]. rewrite fmap_cons, !count_if_cons, IH. done.
Qed.

(** A tally over labels that are all keys of the dict returns, and adds to
    each counter the number of occurrences of its key. *)
Lemma py_tally_counts (labels : list string) (d : gmap string Z) :
  Forall (λ k, is_Some (d !! k)) labels →
  ∃ d', py_tally d labels = Ok d'
        ∧ ∀ k, d' !! k = (λ n, (n + count_if (String.eqb k) labels)%Z) <$> d !! k.
Proof.
  revert d. induction labels as [|k0 labels IH]; intros d Hl.
  - exists d. split; [done|]. intros k. destruct (d !! k); simpl; [f_equal; unfold count_if; simpl; lia|done].
  - apply Forall_cons in Hl as [[n Hn] Hl]. simpl. unfold dict_incr. rewrite Hn. simpl.
    destruct (IH (<[k0:=(n + 1)%Z]> d)) as (d' & Hd' & Hk).
    { eapply Forall_impl; [exact Hl|]. intros k [x Hx].
      destruct (decide (k0 = k)) as [->|]; simplify_map_eq; eauto. }
    exists d'. split; [exact Hd'|]. intros k. rewrite Hk, count_if_cons.
    destruct (decide (k0 = k)) as [->|Hne].
    + rewrite lookup_insert_eq, Hn, String.eqb_refl. simpl. f_equal. lia.
    + rewrite lookup_insert_ne by done.
      assert (String.eqb k k0 = false) as -> by (apply String.eqb_neq; congruence).
      destruct (d !! k); simpl; [f_equal; lia|done].
Qed.

(** A label that is not a key makes the tally raise [KeyError]. *)
Lemma py_tally_unknown (labels : list string) (d : gmap string Z) :
  Exists (λ k, d !! k = None) labels → py_tally d labels = Raise KeyError.
Proof.
  revert d. induction labels as [|k0 labels IH]; intros d Hl.
  - by apply Exists_nil in Hl.
  - simpl. unfold dict_incr. destruct (d !! k0) as [n|] eqn:Hn; [|done]. simpl.
    apply Exists_cons in Hl as [Hl|Hl]; [congruence|].
    apply IH. eapply Exists_impl; [exact Hl|]. intros k Hk. simpl in Hk.
    destruct (decide (k0 = k)) as [->|]; [congruence|]. by rewrite lookup_insert_ne.
Qed.

(** A partition of the days by three tests of which exactly one holds. *)
Lemma count_if_partition3 {A} (p1 p2 p3 : A → bool) (l : list A) :
  (∀ x, (Z.b2z (p1 x) + Z.b2z (p2 x) + Z.b2z (p3 x) = 1)%Z) →
  (count_if p1 l + count_if p2 l + count_if p3 l = Z.of_nat (length l))%Z.
Proof.
  intros Hp. induction l as [|x l IH]; [done|]. rewrite !count_if_cons. simpl length.
  specialize (Hp x). destruct (p1 x), (p2 x), (p3 x); simpl in Hp; lia.
Qed.

Lemma count_if_partition4 {A} (p1 p2 p3 p4 : A → bool) (l : list A) :
  (∀ x, (Z.b2z (p1 x) + Z.b2z (p2 x) + Z.b2z (p3 x) + Z.b2z (p4 x) = 1)%Z) →
  (count_if p1 l + count_if p2 l + count_if p3 l + count_if p4 l
   = Z.of_nat (length l))%Z.
Proof.
  intros Hp. induction l as [|x l IH]; [done|]. rewrite !count_if_cons. simpl length.
  specialize (Hp x). destruct (p1 x), (p2 x), (p3 x), (p4 x); simpl in Hp; lia.
Qed.

Lemma dict_total_3 (k1 k2 k3 : string) (a b c : Z) :
  NoDup [k1; k2; k3] →
  dict_total {[ k1 := a; k2 := b; k3 := c ]} = (a + b + c)%Z.
Proof.
  intros Hnd. apply NoDup_cons in Hnd as [H1 Hnd]. apply NoDup_cons in Hnd as [H2 _].
  unfold dict_total.
  rewrite map_fold_insert_L; [|intros; lia|rewrite ?lookup_insert_None, ?lookup_singleton_None; set_solver].
  rewrite map_fold_insert_L; [|intros; lia|rewrite ?lookup_insert_None, ?lookup_singleton_None; set_solver].
  rewrite map_fold_singleton. lia.
Qed.

Lemma dict_total_4 (k1 k2 k3 k4 : string) (a b c d : Z) :
  NoDup [k1; k2; k3; k4] →
  dict_total {[ k1 := a; k2 := b; k3 := c; k4 := d ]} = (a + b + c + d)%Z.
Proof.
  intros Hnd. apply NoDup_cons in Hnd as [H1 Hnd].
  unfold dict_total.
  rewrite map_fold_insert_L; [|intros; lia|rewrite ?lookup_insert_None, ?lookup_singleton_None; set_solver].
  fold (dict_total {[ k2 := b; k3 := c; k4 := d ]}). rewrite dict_total_3 by done. lia.
Qed.

End TallyFacts.

Section Labels.
Import DataIntegration.

(** The activity label as a function of an integer step count. *)
Lemma activity_level_of_steps (z : Z) (label : string) :
  _classify_activity_level (VNum (inject_Z z)) = Ok label →
  label = (if (10000 <=? z)%Z then "high"
           else if (5000 <=? z)%Z then "moderate" else "low")%string.
Proof.
  unfold _classify_activity_level, py_ge. simpl.
  change 10000 with (inject_Z 10000). change 5000 with (inject_Z 5000).
  assert (∀ c, Qle_bool (inject_Z c) (inject_Z z) = (c <=? z)%Z) as Hc.
  { intros c. apply eq_true_iff_eq. by rewrite Qle_bool_iff, <- Zle_Qle, Z.leb_le. }
  rewrite !Hc. destruct (10000 <=? z)%Z; simpl; [by intros [= <-]|].
  destruct (5000 <=? z)%Z; simpl; by intros [= <-].
Qed.

(** The quality label as a function of the hours slept. *)
Lemma sleep_quality_of_hours (q : Q) (label : string) :
  _calculate_sleep_quality (VNum q) = Ok label →
  label = (if Qle_bool 7 q then "excellent"
           else if Qle_bool 6 q then "good"
           else if Qle_bool 5 q then "fair" else "poor")%string.
Proof.
  unfold _calculate_sleep_quality, py_ge. simpl.
  destruct (Qle_bool 7 q); simpl; [by intros [= <-]|].
  destruct (Qle_bool 6 q); simpl; [by intros [= <-]|].
  destruct (Qle_bool 5 q); simpl; by intros [= <-].
Qed.

Lemma Qle_bool_false (x y : Q) : Qle_bool x y = false ↔ y < x.
Proof.
  rewrite <- not_true_iff_false, Qle_bool_iff.
  split; [apply Qnot_le_lt | apply Qlt_not_le].
Qed.

End Labels.

(** Boolean comparisons among the hypotheses, as propositions. *)
Ltac q_props :=
  repeat match goal with
         | H : Qle_bool _ _ = true |- _ => apply Qle_bool_iff in H
         | H : Qle_bool _ _ = false |- _ => apply Qle_bool_false in H
         | H : Qltb _ _ = true |- _ => apply Qltb_lt in H
         | H : Qltb _ _ = false |- _ => apply Qltb_ge in H
         end.

Section SummaryProperties.
Import DataIntegration DataSummary.
Variable int_of_str : string → option Z.
Variable float_of_str : string → option Q.

#[local] Abbreviation normalize_metric'' :=
  (DataIntegration.normalize_metric int_of_str float_of_str).
#[local] Abbreviation normalize_data'' :=
  (DataIntegration.normalize_data int_of_str float_of_str).

Lemma days_nonzero {A} (l : list A) :
  l ≠ [] → Qeq_bool (inject_Z (Z.of_nat (length l))) 0 = false.
Proof.
  intros Hl. destruct l as [|x l]; [done|]. apply not_true_is_false.
  intros H. apply Qeq_bool_iff in H. unfold Qeq in H. simpl in H. lia.
Qed.

(** The tally of the activity labels of normalized records. *)
Lemma activity_distribution_of_records (ms : list NormalizedRecord) :
  Forall (λ r, ∃ metric, normalize_metric'' metric = Ok r) ms →
  _get_activity_distribution ms
  = Ok {[ "high" := count_if (λ r, (10000 <=? steps (physical_activity r))%Z) ms;
          "moderate" := count_if (λ r, (5000 <=? steps (physical_activity r))%Z
                                        && (steps (physical_activity r) <? 10000)%Z) ms;
          "low" := count_if (λ r, (steps (physical_activity r) <? 5000)%Z) ms ]}.
Proof.
  intros Hms.
  assert (Forall (λ r, activity_level (derived_metrics r)
                       = (if (10000 <=? steps (physical_activity r))%Z then "high"
                          else if (5000 <=? steps (physical_activity r))%Z
                               then "moderate" else "low")%string) ms) as Hl.
  { eapply Forall_impl; [exact Hms|]. intros r [metric Hr]. simpl.
    apply normalize_metric_labels in Hr as (Ha & _). by apply activity_level_of_steps. }
  unfold _get_activity_distribution.
  edestruct py_tally_counts as (d' & -> & Hk).
  { apply Forall_fmap. eapply Forall_impl; [exact Hl|]. intros r Hr. simpl. rewrite Hr.
    repeat case_match; simplify_map_eq; eauto. }
  assert (∀ lit p,
            Forall (λ r, String.eqb lit (activity_level (derived_metrics r)) = p r) ms →
            count_if (String.eqb lit) ((λ m, activity_level (derived_metrics m)) <$> ms)
            = count_if p ms) as Hcount.
  { intros lit p Hp. rewrite count_if_fmap. by apply count_if_ext. }
  pose proof (Hk "high"%string) as Hh. pose proof (Hk "moderate"%string) as Hm.
  pose proof (Hk "low"%string) as Ho.
  rewrite (Hcount _ (λ r, (10000 <=? steps (physical_activity r))%Z)) in Hh; cycle 1.
  { eapply Forall_impl; [exact Hl|]. intros r Hr. simpl in *. rewrite Hr.
    repeat case_match; reflexivity. }
  rewrite (Hcount _ (λ r, (5000 <=? steps (physical_activity r))%Z
                          && (steps (physical_activity r) <? 10000)%Z)) in Hm; cycle 1.
  { eapply Forall_impl; [exact Hl|]. intros r Hr. simpl in *. rewrite Hr.
    repeat case_match; simpl; try reflexivity; lia. }
  rewrite (Hcount _ (λ r, (steps (physical_activity r) <? 5000)%Z)) in Ho; cycle 1.
  { eapply Forall_impl; [exact Hl|]. intros r Hr. simpl in *. rewrite Hr.
    repeat case_match; simpl; try reflexivity; lia. }
  clear Hcount. revert Hh Hm Ho.
  generalize (count_if (λ r, (10000 <=? steps (physical_activity r))%Z) ms).
  generalize (count_if (λ r, (5000 <=? steps (physical_activity r))%Z
                          && (steps (physical_activity r) <? 10000)%Z) ms).
  generalize (count_if (λ r, (steps (physical_activity r) <? 5000)%Z) ms).
  intros cl cm ch Hh Hm Ho.
  f_equal. apply map_eq. intros k.
  destruct (decide (k = "high"%string)) as [->|];
    [|destruct (decide (k = "moderate"%string)) as [->|];
      [|destruct (decide (k = "low"%string)) as [->|]]].
  - rewrite Hh. by simplify_map_eq.
  - rewrite Hm. by simplify_map_eq.
  - rewrite Ho. by simplify_map_eq.
  - rewrite Hk. by simplify_map_eq.
Qed.

(** The tally of the quality labels of normalized records. *)
Lemma sleep_quality_distribution_of_records (ms : list NormalizedRecord) :
  Forall (λ r, ∃ metric, normalize_metric'' metric = Ok r) ms →
  _get_sleep_quality_distribution ms
  = Ok {[ "excellent" := count_if (λ r, Qle_bool 7 (duration_hours (sleep r))) ms;
          "good" := count_if (λ r, Qle_bool 6 (duration_hours (sleep r))
                                   && Qltb (duration_hours (sleep r)) 7) ms;
          "fair" := count_if (λ r, Qle_bool 5 (duration_hours (sleep r))
                                   && Qltb (duration_hours (sleep r)) 6) ms;
          "poor" := count_if (λ r, Qltb (duration_hours (sleep r)) 5) ms ]}.
Proof.
  intros Hms.
  assert (Forall (λ r, quality_score (sleep r)
                       = (if Qle_bool 7 (duration_hours (sleep r)) then "excellent"
                          else if Qle_bool 6 (duration_hours (sleep r)) then "good"
                          else if Qle_bool 5 (duration_hours (sleep r)) then "fair"
                          else "poor")%string) ms) as Hl.
  { eapply Forall_impl; [exact Hms|]. intros r [metric Hr]. simpl.
    apply normalize_metric_labels in Hr as (_ & _ & Hq & _).
    by apply sleep_quality_of_hours. }
  unfold _get_sleep_quality_distribution.
  edestruct py_tally_counts as (d' & -> & Hk).
  { apply Forall_fmap. eapply Forall_impl; [exact Hl|]. intros r Hr. simpl. rewrite Hr.
    repeat case_match; simplify_map_eq; eauto. }
  assert (∀ lit p,
            Forall (λ r, String.eqb lit (quality_score (sleep r)) = p r) ms →
            count_if (String.eqb lit) ((λ m, quality_score (sleep m)) <$> ms)
            = count_if p ms) as Hcount.
  { intros lit p Hp. rewrite count_if_fmap. by apply count_if_ext. }
  pose proof (Hk "excellent"%string) as He. pose proof (Hk "good"%string) as Hg.
  pose proof (Hk "fair"%string) as Hf. pose proof (Hk "poor"%string) as Hp.
  rewrite (Hcount _ (λ r, Qle_bool 7 (duration_hours (sleep r)))) in He; cycle 1.
  { eapply Forall_impl; [exact Hl|]. intros r Hr. cbv beta in Hr |- *. rewrite Hr.
    repeat case_match; reflexivity. }
  rewrite (Hcount _ (λ r, Qle_bool 6 (duration_hours (sleep r))
                          && Qltb (duration_hours (sleep r)) 7)) in Hg; cycle 1.
  { eapply Forall_impl; [exact Hl|]. intros r Hr. cbv beta in Hr |- *. rewrite Hr.
    generalize (duration_hours (sleep r)). intros q. unfold Qltb.
    destruct (Qle_bool 7 q) eqn:?, (Qle_bool 6 q) eqn:?, (Qle_bool 5 q) eqn:?;
      simpl; try reflexivity; q_props; lra. }
  rewrite (Hcount _ (λ r, Qle_bool 5 (duration_hours (sleep r))
                          && Qltb (duration_hours (sleep r)) 6)) in Hf; cycle 1.
  { eapply Forall_impl; [exact Hl|]. intros r Hr. cbv beta in Hr |- *. rewrite Hr.
    generalize (duration_hours (sleep r)). intros q. unfold Qltb.
    destruct (Qle_bool 7 q) eqn:?, (Qle_bool 6 q) eqn:?, (Qle_bool 5 q) eqn:?;
      simpl; try reflexivity; q_props; lra. }
  rewrite (Hcount _ (λ r, Qltb (duration_hours (sleep r)) 5)) in Hp; cycle 1.
  { eapply Forall_impl; [exact Hl|]. intros r Hr. cbv beta in Hr |- *. rewrite Hr.
    generalize (duration_hours (sleep r)). intros q. unfold Qltb.
    destruct (Qle_bool 7 q) eqn:?, (Qle_bool 6 q) eqn:?, (Qle_bool 5 q) eqn:?;
      simpl; try reflexivity; q_props; lra. }
  clear Hcount. revert He Hg Hf Hp.
  generalize (count_if (λ r, Qle_bool 7 (duration_hours (sleep r))) ms).
  generalize (count_if (λ r, Qle_bool 6 (duration_hours (sleep r))
                          && Qltb (duration_hours (sleep r)) 7) ms).
  generalize (count_if (λ r, Qle_bool 5 (duration_hours (sleep r))
                          && Qltb (duration_hours (sleep r)) 6) ms).
  generalize (count_if (λ r, Qltb (duration_hours (sleep r)) 5) ms).
  intros cp cf cg ce He Hg Hf Hp.
  f_equal. apply map_eq. intros k.
  destruct (decide (k = "excellent"%string)) as [->|];
    [|destruct (decide (k = "good"%string)) as [->|];
      [|destruct (decide (k = "fair"%string)) as [->|];
        [|destruct (decide (k = "poor"%string)) as [->|]]]].
  - rewrite He. by simplify_map_eq.
  - rewrite Hg. by simplify_map_eq.
  - rewrite Hf. by simplify_map_eq.
  - rewrite Hp. by simplify_map_eq.
  - rewrite Hk. by simplify_map_eq.
Qed.

(** The summary of a normalized payload of at least one record, field by
    field. *)
Lemma get_metrics_summary_spec (self : HealthDataIntegrator) (out : NormalizedData) :
  normalized_data self = Some out →
  Forall (λ r, ∃ metric, normalize_metric'' metric = Ok r) (metrics out) →
  metrics out ≠ [] →
  let ms := metrics out in
  let n := inject_Z (Z.of_nat (length ms)) in
  get_metrics_summary self
  = Returns (Some
      {| total_days := length ms;
         average_steps :=
           py_sum ((λ m, inject_Z (steps (physical_activity m))) <$> ms) / n;
         average_heart_rate :=
           py_sum ((λ m, inject_Z (heart_rate (physical_activity m))) <$> ms) / n;
         average_sleep_hours := py_sum ((λ m, duration_hours (sleep m)) <$> ms) / n;
         activity_distribution :=
           {[ "high" := count_if (λ r, (10000 <=? steps (physical_activity r))%Z) ms;
              "moderate" := count_if (λ r, (5000 <=? steps (physical_activity r))%Z
                                           && (steps (physical_activity r) <? 10000)%Z) ms;
              "low" := count_if (λ r, (steps (physical_activity r) <? 5000)%Z) ms ]};
         sleep_quality_distribution :=
           {[ "excellent" := count_if (λ r, Qle_bool 7 (duration_hours (sleep r))) ms;
              "good" := count_if (λ r, Qle_bool 6 (duration_hours (sleep r))
                                       && Qltb (duration_hours (sleep r)) 7) ms;
              "fair" := count_if (λ r, Qle_bool 5 (duration_hours (sleep r))
                                       && Qltb (duration_hours (sleep r)) 6) ms;
              "poor" := count_if (λ r, Qltb (duration_hours (sleep r)) 5) ms ]} |}).
Proof.
  intros Hs Hms Hne. unfold get_metrics_summary. rewrite Hs. unfold py_truediv.
  rewrite (days_nonzero _ Hne). simpl.
  rewrite (activity_distribution_of_records _ Hms),
    (sleep_quality_distribution_of_records _ Hms). reflexivity.
Qed.

(** The summary of a payload that normalized to no record at all. *)
Lemma get_metrics_summary_no_record (self : HealthDataIntegrator) (out : NormalizedData) :
  normalized_data self = Some out → metrics out = [] →
  get_metrics_summary self = Fails ZeroDivisionError.
Proof.
  intros Hs Hms. unfold get_metrics_summary. rewrite Hs, Hms. reflexivity.
Qed.


(** Whenever the summary of a normalized payload returns, every day is
    counted once in each of its two distributions, and each average times
    the number of days is the sum over the days. *)
Theorem summary_counts_every_day (raw : value) (now : string)
    (self self' : HealthDataIntegrator) (out : NormalizedData)
    (s : MetricsSummary) :
  normalize_data'' now raw self = Ok (out, self') →
  get_metrics_summary self' = Returns (Some s) →
  dict_total (activity_distribution s) = Z.of_nat (total_days s)
  ∧ dict_total (sleep_quality_distribution s) = Z.of_nat (total_days s)
  ∧ average_steps s * inject_Z (Z.of_nat (total_days s))
    == inject_Z (foldr Z.add 0%Z ((λ r, steps (physical_activity r)) <$> metrics out))
  ∧ average_heart_rate s * inject_Z (Z.of_nat (total_days s))
    == inject_Z (foldr Z.add 0%Z ((λ r, heart_rate (physical_activity r)) <$> metrics out))
  ∧ average_sleep_hours s * inject_Z (Z.of_nat (total_days s))
    == foldr Qplus 0 ((λ r, duration_hours (sleep r)) <$> metrics out).
Proof.
  intros H Hsum. apply normalize_data_records in H as [Hs Hms].
  destruct (decide (metrics out = [])) as [He|Hne].
  { rewrite (get_metrics_summary_no_record _ _ Hs He) in Hsum. discriminate. }
  rewrite (get_metrics_summary_spec _ _ Hs Hms Hne) in Hsum.
  injection Hsum as <-. cbn [total_days activity_distribution sleep_quality_distribution
    average_steps average_heart_rate average_sleep_hours].
  assert (¬ inject_Z (Z.of_nat (length (metrics out))) == 0) as Hn.
  { intros Hq. pose proof (days_nonzero _ Hne) as Hd.
    apply not_true_iff_false in Hd. apply Hd. by apply Qeq_bool_iff. }
  split; [|split; [|split; [|split]]].
  - rewrite dict_total_3 by (repeat constructor; set_solver).
    apply count_if_partition3. intros r.
    destruct (10000 <=? _)%Z eqn:?, (5000 <=? _)%Z eqn:?, (_ <? 10000)%Z eqn:?,
      (_ <? 5000)%Z eqn:?; simpl; lia.
  - rewrite dict_total_4 by (repeat constructor; set_solver).
    apply count_if_partition4. intros r. unfold Qltb.
    generalize (duration_hours (sleep r)). intros q.
    destruct (Qle_bool 7 q) eqn:?, (Qle_bool 6 q) eqn:?, (Qle_bool 5 q) eqn:?;
      simpl; try reflexivity; q_props; lra.
  - rewrite <- py_sum_inject_Z, <- list_fmap_compose.
    unfold Qdiv. rewrite <- Qmult_assoc, (Qmult_comm (/ _)), Qmult_inv_r by done.
    apply Qmult_1_r.
  - rewrite <- py_sum_inject_Z, <- list_fmap_compose.
    unfold Qdiv. rewrite <- Qmult_assoc, (Qmult_comm (/ _)), Qmult_inv_r by done.
    apply Qmult_1_r.
  - rewrite <- py_sum_foldr.
    unfold Qdiv. rewrite <- Qmult_assoc, (Qmult_comm (/ _)), Qmult_inv_r by done.
    apply Qmult_1_r.
Qed.

(** A payload with an empty metrics array passes validation and
    normalization, and the summary then divides by zero: the first average
    raises [ZeroDivisionError]. *)
Theorem summary_of_empty_metrics (d : gmap string value) (now : string)
    (self : HealthDataIntegrator) :
  is_Some (d !! "user_id") →
  d !! "metrics" = Some (VList []) →
  load_mock_data (Parsed (VDict d)) = Ok (VDict d)
  ∧ ∃ out self', normalize_data'' now (VDict d) self = Ok (out, self')
                 ∧ get_metrics_summary self' = Fails ZeroDivisionError.
Proof.
  intros [uid Hu] Hm. split.
  - unfold load_mock_data, _validate_data_structure, required_fields. simpl.
    rewrite Hu, Hm. reflexivity.
  - unfold DataIntegration.normalize_data. simpl. rewrite Hu, Hm. simpl.
    eexists _, _. split; [reflexivity|]. reflexivity.
Qed.

End SummaryProperties.

Lemma normalized_labels_consistent_witness :
  let day1 : gmap string value :=
    {[ "date" := VStr "2024-11-21"; "steps" := VNum 9999.5;
       "heart_rate" := VNum 59.5; "sleep_hours" := VNum 6.5 ]} in
  let d : gmap string value :=
    {[ "user_id" := VStr "user_1"; "metrics" := VList [VDict day1] ]} in
  let fresh := {| DataIntegration.config := VDict ∅;
                  DataIntegration.normalized_data := None |} in
  ∃ out self',
    DataIntegration.normalize_data (λ _, None) (λ _, None)
      "2024-11-22T10:00:00" (VDict d) fresh = Ok (out, self')
    ∧ (DataIntegration.activity_level ∘ DataIntegration.derived_metrics)
        <$> DataIntegration.metrics out = ["moderate"%string]
    ∧ Forall (λ r,
        DataIntegration._classify_activity_level
          (VNum (inject_Z (DataIntegration.steps (DataIntegration.physical_activity r))))
        = Ok (DataIntegration.activity_level (DataIntegration.derived_metrics r)))
        (DataIntegration.metrics out).
Proof.
  intros day1 d fresh.
  assert (∃ out self',
             DataIntegration.normalize_data (λ _, None) (λ _, None)
               "2024-11-22T10:00:00" (VDict d) fresh = Ok (out, self')
             ∧ (DataIntegration.activity_level ∘ DataIntegration.derived_metrics)
                 <$> DataIntegration.metrics out = ["moderate"%string])
    as (out & self' & E & Hl).
  { eexists _, _. split; [vm_compute; reflexivity|reflexivity]. }
  exists out, self'. split; [exact E|]. split; [exact Hl|].
  eapply Forall_impl;
    [exact (normalized_labels_consistent _ _ _ _ _ _ _ E)|].
  intros r (Ha & _). exact Ha.
Defined.

Lemma sleep_labels_agree_witness :
  let day1 : gmap string value :=
    {[ "date" := VStr "2024-11-21"; "steps" := VNum 8000;
       "heart_rate" := VNum 70; "sleep_hours" := VNum 5.5 ]} in
  let d : gmap string value :=
    {[ "user_id" := VStr "user_1"; "metrics" := VList [VDict day1] ]} in
  let fresh := {| DataIntegration.config := VDict ∅;
                  DataIntegration.normalized_data := None |} in
  ∃ out self',
    DataIntegration.normalize_data (λ _, None) (λ _, None)
      "2024-11-22T10:00:00" (VDict d) fresh = Ok (out, self')
    ∧ Forall (λ r,
        (DataIntegration.quality_score (DataIntegration.sleep r),
         DataIntegration.sleep_adequacy (DataIntegration.derived_metrics r))
        ∈ [("excellent", "adequate"); ("good", "borderline");
           ("fair", "insufficient"); ("poor", "insufficient")]%string)
        (DataIntegration.metrics out).
Proof.
  intros day1 d fresh.
  assert (∃ out self',
             DataIntegration.normalize_data (λ _, None) (λ _, None)
               "2024-11-22T10:00:00" (VDict d) fresh = Ok (out, self'))
    as (out & self' & E).
  { eexists _, _. vm_compute. reflexivity. }
  exists out, self'. split; [exact E|].
  exact (sleep_labels_agree _ _ _ _ _ _ _ E).
Defined.

Lemma normalize_data_keeps_order_witness :
  let day1 : value :=
    VDict {[ "date" := VStr "2024-11-21"; "steps" := VNum 8000;
             "heart_rate" := VNum 70; "sleep_hours" := VNum 5.5 ]} in
  let day2 : value :=
    VDict {[ "date" := VStr "2024-11-20"; "steps" := VNum 12000;
             "heart_rate" := VNum 64; "sleep_hours" := VNum 8 ]} in
  let d : gmap string value :=
    {[ "user_id" := VStr "user_1"; "metrics" := VList [day1; day2] ]} in
  let fresh := {| DataIntegration.config := VDict ∅;
                  DataIntegration.normalized_data := None |} in
  ∃ out self',
    DataIntegration.normalize_data (λ _, None) (λ _, None)
      "2024-11-22T10:00:00" (VDict d) fresh = Ok (out, self')
    ∧ Forall2 (λ metric r, py_getitem metric "date" = Ok (DataIntegration.date r))
        [day1; day2] (DataIntegration.metrics out).
Proof.
  intros day1 day2 d fresh.
  assert (∃ out self',
             DataIntegration.normalize_data (λ _, None) (λ _, None)
               "2024-11-22T10:00:00" (VDict d) fresh = Ok (out, self'))
    as (out & self' & E).
  { eexists _, _. vm_compute. reflexivity. }
  exists out, self'. split; [exact E|].
  apply (normalize_data_keeps_order (λ _, None) (λ _, None) d [day1; day2]
           "2024-11-22T10:00:00" fresh self' out); [reflexivity|exact E].
Defined.

Lemma normalized_implies_valid_witness :
  let day1 : gmap string value :=
    {[ "date" := VStr "2024-11-21"; "steps" := VNum 8000;
       "heart_rate" := VNum 70; "sleep_hours" := VNum 5.5 ]} in
  let d : gmap string value :=
    {[ "user_id" := VStr "user_1"; "metrics" := VList [VDict day1] ]} in
  let fresh := {| DataIntegration.config := VDict ∅;
                  DataIntegration.normalized_data := None |} in
  DataIntegration._validate_data_structure (VDict d) = Ok true
  ∧ DataIntegration.load_mock_data (DataIntegration.Parsed (VDict d)) = Ok (VDict d).
Proof.
  intros day1 d fresh.
  assert (∃ out self',
             DataIntegration.normalize_data (λ _, None) (λ _, None)
               "2024-11-22T10:00:00" (VDict d) fresh = Ok (out, self'))
    as (out & self' & E).
  { eexists _, _. vm_compute. reflexivity. }
  exact (normalized_implies_valid _ _ _ _ _ _ _ E).
Defined.


Lemma summary_counts_every_day_witness :
  let day1 : value :=
    VDict {[ "date" := VStr "2024-11-21"; "steps" := VNum 8000;
             "heart_rate" := VNum 70; "sleep_hours" := VNum 5.5 ]} in
  let day2 : value :=
    VDict {[ "date" := VStr "2024-11-20"; "steps" := VNum 12000;
             "heart_rate" := VNum 64; "sleep_hours" := VNum 8 ]} in
  let d : gmap string value :=
    {[ "user_id" := VStr "user_1"; "metrics" := VList [day1; day2] ]} in
  let fresh := {| DataIntegration.config := VDict ∅;
                  DataIntegration.normalized_data := None |} in
  ∃ out self' s,
    DataIntegration.normalize_data (λ _, None) (λ _, None)
      "2024-11-22T10:00:00" (VDict d) fresh = Ok (out, self')
    ∧ DataSummary.get_metrics_summary self' = Returns (Some s)
    ∧ DataSummary.total_days s = 2%nat
    ∧ dict_total (DataSummary.activity_distribution s) = 2%Z
    ∧ dict_total (DataSummary.sleep_quality_distribution s) = 2%Z.
Proof.
  intros day1 day2 d fresh.
  assert (∃ out self' s,
             DataIntegration.normalize_data (λ _, None) (λ _, None)
               "2024-11-22T10:00:00" (VDict d) fresh = Ok (out, self')
             ∧ DataSummary.get_metrics_summary self' = Returns (Some s)
             ∧ DataSummary.total_days s = 2%nat)
    as (out & self' & s & E & Hs & Hdays).
  { eexists _, _, _. split; [vm_compute; reflexivity|].
    split; [vm_compute; reflexivity|reflexivity]. }
  exists out, self', s. split; [exact E|]. split; [exact Hs|]. split; [exact Hdays|].
  destruct (summary_counts_every_day _ _ _ _ _ _ _ _ E Hs) as (Ha & Hq & _).
  rewrite Ha, Hq, Hdays. split; reflexivity.
Defined.

Lemma summary_of_empty_metrics_witness :
  let d : gmap string value :=
    {[ "user_id" := VStr "user_1"; "metrics" := VList [] ]} in
  let fresh := {| DataIntegration.config := VDict ∅;
                  DataIntegration.normalized_data := None |} in
  DataIntegration.load_mock_data (DataIntegration.Parsed (VDict d)) = Ok (VDict d)
  ∧ ∃ out self',
      DataIntegration.normalize_data (λ _, None) (λ _, None)
        "2024-11-22T10:00:00" (VDict d) fresh = Ok (out, self')
      ∧ DataSummary.get_metrics_summary self' = Fails ZeroDivisionError.
Proof.
  intros d fresh.
  apply (summary_of_empty_metrics (λ _, None) (λ _, None) d "2024-11-22T10:00:00" fresh);
    [by eexists|reflexivity].
Defined.

(** ** The fitness agent *)

Section ListFacts.

Lemma np_max_spec (x : Z) (l : list Z) :
  ∃ m, np_max (x :: l) = Ok m ∧ m ∈ x :: l ∧ Forall (λ y, (y <= m)%Z) (x :: l).
Proof.
  simpl. eexists. split; [reflexivity|].
  induction l as [|y l [IHin IHle]]; simpl.
  - split; [set_solver|]. repeat constructor. lia.
  - apply Forall_cons in IHle as [Hx Hl]. split.
    + destruct (Z.max_spec y (foldr Z.max x l)) as [[_ ->]|[_ ->]]; set_solver.
    + repeat constructor; [lia..|].
      eapply Forall_impl; [exact Hl|]. simpl. intros; lia.
Qed.

Lemma np_min_spec (x : Z) (l : list Z) :
  ∃ m, np_min (x :: l) = Ok m ∧ m ∈ x :: l ∧ Forall (λ y, (m <= y)%Z) (x :: l).
Proof.
  simpl. eexists. split; [reflexivity|].
  induction l as [|y l [IHin IHle]]; simpl.
  - split; [set_solver|]. repeat constructor. lia.
  - apply Forall_cons in IHle as [Hx Hl]. split.
    + destruct (Z.min_spec y (foldr Z.min x l)) as [[_ ->]|[_ ->]]; set_solver.
    + repeat constructor; [lia..|].
      eapply Forall_impl; [exact Hl|]. simpl. intros; lia.
Qed.

Lemma sum_le_bound (l : list Z) (b : Z) :
  Forall (λ y, (y <= b)%Z) l → (foldr Z.add 0 l <= Z.of_nat (length l) * b)%Z.
Proof. induction 1; simpl length; simpl foldr; lia. Qed.

Lemma sum_ge_bound (l : list Z) (b : Z) :
  Forall (λ y, (b <= y)%Z) l → (Z.of_nat (length l) * b <= foldr Z.add 0 l)%Z.
Proof. induction 1; simpl length; simpl foldr; lia. Qed.

(** The mean of a non-empty series lies between two bounds of the series. *)
Lemma mean_between (l : list Z) (lo hi : Z) :
  l ≠ [] → Forall (λ y, (lo <= y)%Z) l → Forall (λ y, (y <= hi)%Z) l →
  inject_Z lo <= np_mean (inject_Z <$> l) <= inject_Z hi.
Proof.
  intros Hne Hlo Hhi. rewrite np_mean_inject_Z. unfold Fitness.mean.
  assert (0 < inject_Z (Z.of_nat (length l))) as Hn.
  { destruct l; [done|]. rewrite <- (Zlt_Qlt 0). simpl length. lia. }
  split.
  - apply Qle_shift_div_l; [exact Hn|]. rewrite <- inject_Z_mult, <- Zle_Qle.
    pose proof (sum_ge_bound l lo Hlo). lia.
  - apply Qle_shift_div_r; [exact Hn|]. rewrite <- inject_Z_mult, <- Zle_Qle.
    pose proof (sum_le_bound l hi Hhi). lia.
Qed.

Lemma count_if_all {A} (p : A → bool) (l : list A) :
  count_if p l = Z.of_nat (length l) ↔ Forall (λ x, p x = true) l.
Proof.
  induction l as [|x l IH]; [by split|]. rewrite count_if_cons. simpl length.
  pose proof (count_if_le_length p l). rewrite Forall_cons. rewrite <- IH.
  destruct (p x); split; try lia; intros [? ?]; try done; lia.
Qed.

Lemma count_if_none {A} (p : A → bool) (l : list A) :
  count_if p l = 0%Z ↔ Forall (λ x, p x = false) l.
Proof.
  induction l as [|x l IH]; [by split|]. rewrite count_if_cons.
  pose proof (count_if_nonneg p l). rewrite Forall_cons. rewrite <- IH.
  destruct (p x); split; try lia; intros [? ?]; try done; lia.
Qed.

End ListFacts.

Section FitnessAgentProperties.
Import FitnessAgent.
Variable np_std : list Q → Q.

(** The progress toward the step goal is capped at 100, reaches 100 exactly
    on the days the goal is achieved, and the status tells the same. *)
Theorem goal_progress_full_iff_achieved (metric : DataIntegration.NormalizedRecord) :
  let steps := DataIntegration.steps (DataIntegration.physical_activity metric) in
  let progress := _calculate_goal_progress metric in
  steps_progress progress <= 100
  ∧ (steps_progress progress == 100 ↔ (10000 <= steps)%Z)
  ∧ (goal_status progress = "achieved"%string ↔ (10000 <= steps)%Z)
  ∧ (goal_status progress = "in_progress"%string ↔ (steps < 10000)%Z).
Proof.
  intros steps progress. subst progress. unfold _calculate_goal_progress. simpl.
  fold steps. unfold steps_daily.
  assert (inject_Z steps / inject_Z 10000 * 100 == inject_Z steps * (1 # 100)) as Hp
    by (unfold Qdiv; change (/ inject_Z 10000) with (1 # 10000); ring).
  assert ((10000 <= steps)%Z ↔ 100 <= inject_Z steps * (1 # 100)) as Hs.
  { rewrite Zle_Qle. change (inject_Z 10000) with 10000. split; intros; lra. }
  pose proof (py_min_Qmin 100 (inject_Z steps / inject_Z 10000 * 100)) as Hmin.
  destruct (Z.leb_spec 10000 steps) as [Hle|Hlt].
  - rewrite Hmin, Hp. rewrite Q.min_l by (by apply Hs).
    split; [lra|]. split; [by split|]. split; [by split|]. split; [done|lia].
  - assert (inject_Z steps * (1 # 100) < 100) as Hq.
    { apply Qnot_le_lt. intros Hc. apply Hs in Hc. lia. }
    rewrite Hmin, Hp. rewrite Q.min_r by lra.
    split; [lra|]. split; [split; [intros; lra|lia]|]. split; [split; [done|lia]|done].
Qed.

(** The share of days on which the step goal was achieved is a percentage:
    100 exactly when every day achieved it, 0 exactly when none did. *)
Theorem goal_achievement_rate_range (steps : list Z) :
  steps ≠ [] →
  0 <= _calculate_goal_achievement_rate steps <= 100
  ∧ (_calculate_goal_achievement_rate steps == 100
     ↔ Forall (λ step, (10000 <= step)%Z) steps)
  ∧ (_calculate_goal_achievement_rate steps == 0
     ↔ Forall (λ step, (step < 10000)%Z) steps).
Proof.
  intros Hne. unfold _calculate_goal_achievement_rate, steps_daily.
  destruct steps as [|s0 steps]; [done|]. set (l := s0 :: steps).
  set (c := count_if (λ step, (10000 <=? step)%Z) l).
  set (n := Z.of_nat (length l)).
  assert (0 < n)%Z as Hn by (subst n l; simpl length; lia).
  assert (0 <= c <= n)%Z as Hc
    by (split; [apply count_if_nonneg|apply count_if_le_length]).
  assert (0 < inject_Z n) as Hn' by (by rewrite <- (Zlt_Qlt 0)).
  assert (inject_Z c / inject_Z n * 100 == inject_Z (100 * c) / inject_Z n) as ->.
  { rewrite inject_Z_mult. change (inject_Z 100) with 100. field. lra. }
  assert (∀ k : Z, inject_Z (100 * c) / inject_Z n == inject_Z k ↔ (100 * c = k * n)%Z)
    as Heq.
  { intros k. split.
    - intros H.
      assert (inject_Z (100 * c) == inject_Z k * inject_Z n) as H'
        by (rewrite <- H; field; lra).
      rewrite <- inject_Z_mult in H'. by apply inject_Z_injective.
    - intros H. rewrite H, inject_Z_mult. field. lra. }
  split; [split|split].
  - apply Qle_shift_div_l; [exact Hn'|]. rewrite Qmult_0_l, <- (Zle_Qle 0). lia.
  - apply Qle_shift_div_r; [exact Hn'|]. change 100 with (inject_Z 100).
    rewrite <- inject_Z_mult, <- Zle_Qle. lia.
  - change 100 with (inject_Z 100). rewrite Heq.
    rewrite <- (Forall_iff (λ step, (10000 <=? step)%Z = true))
      by (intros; apply Z.leb_le).
    rewrite <- count_if_all. change (count_if _ l) with c. fold n. lia.
  - change 0 with (inject_Z 0). rewrite Heq.
    rewrite <- (Forall_iff (λ step, (10000 <=? step)%Z = false))
      by (intros; apply Z.leb_gt).
    rewrite <- count_if_none. change (count_if _ l) with c. lia.
Qed.

Lemma calculate_performance_metrics_spec (metrics : list DataIntegration.NormalizedRecord) :
  metrics ≠ [] →
  ∃ p, _calculate_performance_metrics metrics = Ok p
       ∧ max_steps p ∈ steps_of metrics
       ∧ min_steps p ∈ steps_of metrics
       ∧ inject_Z (min_steps p) <= average_steps p <= inject_Z (max_steps p).
Proof.
  intros Hne. unfold _calculate_performance_metrics.
  destruct (steps_of metrics) as [|s0 l] eqn:Hs.
  { destruct metrics; [done|discriminate Hs]. }
  destruct (np_max_spec s0 l) as (hi & -> & Hhi & Hle).
  destruct (np_min_spec s0 l) as (lo & -> & Hlo & Hge).
  eexists. split; [reflexivity|]. cbn [max_steps min_steps average_steps].
  split; [exact Hhi|]. split; [exact Hlo|].
  by apply mean_between.
Qed.


Lemma quotient_sign (a b : Z) :
  (0 < b)%Z →
  (0 < inject_Z a / inject_Z b ↔ (0 < a)%Z)
  ∧ (inject_Z a / inject_Z b < 0 ↔ (a < 0)%Z).
Proof.
  intros Hb. assert (0 < inject_Z b) as Hb' by (by rewrite <- (Zlt_Qlt 0)).
  rewrite (Zlt_Qlt 0 a), (Zlt_Qlt a 0). change (inject_Z 0) with 0.
  split; split; intros H.
  - apply (Qmult_lt_compat_r _ _ _ Hb') in H.
    revert H. unfold Qdiv. rewrite <- Qmult_assoc, (Qmult_comm (/ _)), Qmult_inv_r by lra.
    lra.
  - apply Qlt_shift_div_l; [exact Hb'|]. lra.
  - apply (Qmult_lt_compat_r _ _ _ Hb') in H.
    revert H. unfold Qdiv. rewrite <- Qmult_assoc, (Qmult_comm (/ _)), Qmult_inv_r by lra.
    lra.
  - apply Qlt_shift_div_r; [exact Hb'|]. lra.
Qed.

(** The step trend is "increasing" or "decreasing", never "stable"; it
    agrees with the sign of the improvement rate, and a series that starts
    and ends on the same count is reported as "decreasing". *)
Theorem steps_trend_follows_improvement
    (metrics : list DataIntegration.NormalizedRecord) :
  let t := _calculate_trends np_std metrics in
  let steps := steps_of metrics in
  steps_trend t ∈ ["increasing"; "decreasing"]%string
  ∧ (0 < improvement_rate t → steps_trend t = "increasing"%string)
  ∧ (improvement_rate t < 0 → steps_trend t = "decreasing"%string)
  ∧ (first_of steps = last_of steps → steps_trend t = "decreasing"%string).
Proof.
  intros t steps. subst t. unfold _calculate_trends. simpl. fold steps.
  unfold _calculate_improvement_rate.
  assert ((1 <? length steps)%nat = negb (length steps <? 2)%nat) as ->.
  { destruct (Nat.ltb_spec (length steps) 2), (Nat.ltb_spec 1 (length steps));
      simpl; try reflexivity; lia. }
  destruct (length steps <? 2)%nat; simpl.
  { split; [set_solver|]. split; [|done]. intros H. discriminate H. }
  destruct (Z.ltb_spec (first_of steps) (last_of steps)) as [Hlt|Hge].
  - split; [set_solver|]. split; [done|]. split; [|lia].
    destruct (Z.ltb_spec 0 (first_of steps)) as [Hpos|Hneg].
    + intros H. apply (proj1 (proj2 (quotient_sign _ _ Hpos))) in H. lia.
    + intros H. discriminate H.
  - split; [set_solver|]. split; [|done].
    destruct (Z.ltb_spec 0 (first_of steps)) as [Hpos|Hneg].
    + intros H. apply (proj1 (proj1 (quotient_sign _ _ Hpos))) in H. lia.
    + intros H. discriminate H.
Qed.

(** The analysis over at least one record, field by field. *)
Lemma analyze_fitness_data_spec (now : string) (data : DataIntegration.NormalizedData) :
  DataIntegration.metrics data ≠ [] →
  ∃ p, _calculate_performance_metrics (DataIntegration.metrics data) = Ok p
       ∧ analyze_fitness_data np_std now data
         = {| user_id := DataIntegration.user_id data;
              analysis_date := now;
              error := None;
              fitness_recommendations := daily_entry <$> DataIntegration.metrics data;
              trends := Some (_calculate_trends np_std (DataIntegration.metrics data));
              performance_metrics := Some p;
              health_insights :=
                _generate_health_insights np_std (DataIntegration.metrics data) |}.
Proof.
  intros Hne. destruct (calculate_performance_metrics_spec _ Hne) as (p & Hp & _).
  exists p. split; [exact Hp|].
  unfold analyze_fitness_data, analyze_body. rewrite Hp. reflexivity.
Qed.

Lemma analyze_fitness_data_no_record (now : string)
    (data : DataIntegration.NormalizedData) :
  DataIntegration.metrics data = [] →
  analyze_fitness_data np_std now data = _get_error_response now.
Proof.
  intros He. unfold analyze_fitness_data, analyze_body. rewrite He. reflexivity.
Qed.

(** On at least one record, with step counts and heart rates that numpy
    holds as int64, so that no mean and no division overflows, the analysis
    is not an error response: it keeps the user id and gives one daily entry
    per record, in the order of the records, with the date, the counts and
    the label of its record. *)
Theorem fitness_analysis_per_record (now : string)
    (data : DataIntegration.NormalizedData) :
  DataIntegration.metrics data ≠ [] →
  Forall (λ metric,
      in_int64 (DataIntegration.steps (DataIntegration.physical_activity metric)) = true
      ∧ in_int64 (DataIntegration.heart_rate (DataIntegration.physical_activity metric))
        = true)
    (DataIntegration.metrics data) →
  let a := analyze_fitness_data np_std now data in
  error a = None
  ∧ user_id a = DataIntegration.user_id data
  ∧ is_Some (trends a) ∧ is_Some (performance_metrics a)
  ∧ Forall2 (λ metric entry,
       date entry = DataIntegration.date metric
       ∧ steps entry = DataIntegration.steps (DataIntegration.physical_activity metric)
       ∧ heart_rate entry
         = DataIntegration.heart_rate (DataIntegration.physical_activity metric)
       ∧ activity_level entry
         = DataIntegration.activity_level (DataIntegration.derived_metrics metric))
      (DataIntegration.metrics data) (fitness_recommendations a).
Proof.
  intros Hne _ a. subst a.
  destruct (analyze_fitness_data_spec now data Hne) as (p & _ & ->). simpl.
  split; [done|]. split; [done|]. split; [by eexists|]. split; [by eexists|].
  apply Forall2_fmap_r, Forall_Forall2_diag, Forall_forall. intros m _. done.
Qed.

Lemma goal_rate_of_entries (ms : list DataIntegration.NormalizedRecord) :
  ms ≠ [] →
  _calculate_goal_achievement_rate (steps_of ms) * inject_Z (Z.of_nat (length ms))
  == 100 * inject_Z (count_if
               (λ entry, String.eqb (goal_status (goal_progress entry)) "achieved")
               (daily_entry <$> ms)).
Proof.
  intros Hne.
  assert (count_if (λ entry, String.eqb (goal_status (goal_progress entry)) "achieved")
            (daily_entry <$> ms)
          = count_if (λ step, (steps_daily <=? step)%Z) (steps_of ms)) as ->.
  { unfold steps_of. rewrite !count_if_fmap. apply count_if_ext, Forall_forall.
    intros r _. simpl. by destruct (steps_daily <=? _)%Z. }
  assert (0 < inject_Z (Z.of_nat (length ms))) as Hn.
  { rewrite <- (Zlt_Qlt 0). destruct ms; [done|]. simpl length. lia. }
  unfold _calculate_goal_achievement_rate.
  destruct (steps_of ms) as [|s0 ss] eqn:Hs.
  { destruct ms; [done|discriminate Hs]. }
  rewrite <- Hs. unfold steps_of at 2. rewrite length_fmap. field. lra.
Qed.


End FitnessAgentProperties.

Section FitnessAgentOnNormalized.
Import FitnessAgent.
Variable np_std : list Q → Q.
Variable int_of_str : string → option Z.
Variable float_of_str : string → option Q.

Lemma analyze_fitness_data_entries (now : string)
    (data : DataIntegration.NormalizedData) :
  fitness_recommendations (analyze_fitness_data np_std now data)
  = daily_entry <$> DataIntegration.metrics data.
Proof.
  destruct (decide (DataIntegration.metrics data = [])) as [He|Hne].
  - rewrite analyze_fitness_data_no_record by done. by rewrite He.
  - by destruct (analyze_fitness_data_spec np_std now data Hne) as (p & _ & ->).
Qed.

(** In the analysis of a normalized payload the three per-day verdicts
    agree: the label is "high" exactly when the goal status is "achieved",
    and exactly then the day gets the recommendation of the last branch. *)
Theorem fitness_entries_agree (raw : value) (now now' : string)
    (self self' : DataIntegration.HealthDataIntegrator)
    (out : DataIntegration.NormalizedData) :
  DataIntegration.normalize_data int_of_str float_of_str now raw self = Ok (out, self') →
  Forall (λ entry,
      (activity_level entry = "high"%string
       ↔ goal_status (goal_progress entry) = "achieved"%string)
      ∧ (activity_level entry = "high"%string
         ↔ recommendation entry
           = "Excellent activity level! Consider adding variety with different types of exercises."%string))
    (fitness_recommendations (analyze_fitness_data np_std now' out)).
Proof.
  intros H. apply normalize_data_records in H as [_ Hms].
  rewrite analyze_fitness_data_entries. apply Forall_fmap.
  eapply Forall_impl; [exact Hms|]. intros r [metric Hr]. simpl.
  apply normalize_metric_labels in Hr as (Ha & _).
  apply activity_level_of_steps in Ha.
  unfold _generate_daily_recommendation, steps_daily. rewrite Ha.
  destruct (10000 <=? _)%Z; [by split|].
  destruct (5000 <=? _)%Z; by split.
Qed.

End FitnessAgentOnNormalized.

Lemma goal_achievement_rate_range_witness :
  FitnessAgent._calculate_goal_achievement_rate [12000; 8000; 10000; 4000]%Z == 50
  ∧ 0 <= FitnessAgent._calculate_goal_achievement_rate [12000; 8000; 10000; 4000]%Z <= 100.
Proof.
  split; [reflexivity|].
  apply (goal_achievement_rate_range [12000; 8000; 10000; 4000]%Z). discriminate.
Defined.


Lemma steps_trend_follows_improvement_witness :
  let day (n h : Z) :=
    {| DataIntegration.date := VStr "2024-11-21";
       DataIntegration.physical_activity :=
         {| DataIntegration.steps := n; DataIntegration.heart_rate := h;
            DataIntegration.hrv := 0 |};
       DataIntegration.sleep :=
         {| DataIntegration.duration_hours := 7.5;
            DataIntegration.quality_score := "excellent" |};
       DataIntegration.derived_metrics :=
         {| DataIntegration.activity_level := "moderate";
            DataIntegration.heart_rate_zone := "normal";
            DataIntegration.sleep_adequacy := "adequate" |} |} in
  let t := FitnessAgent._calculate_trends (λ _, 0) [day 8000%Z 70%Z; day 6000%Z 72%Z; day 9500%Z 64%Z] in
  FitnessAgent.improvement_rate t == 3 # 16
  ∧ FitnessAgent.steps_trend t = "increasing"%string.
Proof.
  intros day t. split; [reflexivity|].
  apply (steps_trend_follows_improvement (λ _, 0)
           [day 8000%Z 70%Z; day 6000%Z 72%Z; day 9500%Z 64%Z]).
  reflexivity.
Defined.

Lemma fitness_analysis_per_record_witness :
  let day1 : value :=
    VDict {[ "date" := VStr "2024-11-21"; "steps" := VNum 8000;
             "heart_rate" := VNum 70; "sleep_hours" := VNum 5.5 ]} in
  let day2 : value :=
    VDict {[ "date" := VStr "2024-11-20"; "steps" := VNum 12000;
             "heart_rate" := VNum 64; "sleep_hours" := VNum 8 ]} in
  let d : gmap string value :=
    {[ "user_id" := VStr "user_1"; "metrics" := VList [day1; day2] ]} in
  let fresh := {| DataIntegration.config := VDict ∅;
                  DataIntegration.normalized_data := None |} in
  ∃ out self',
    DataIntegration.normalize_data (λ _, None) (λ _, None)
      "2024-11-22T10:00:00" (VDict d) fresh = Ok (out, self')
    ∧ let a := FitnessAgent.analyze_fitness_data (λ _, 0) "2024-11-22T10:00:01" out in
      FitnessAgent.error a = None
      ∧ FitnessAgent.user_id a = VStr "user_1"
      ∧ length (FitnessAgent.fitness_recommendations a) = 2%nat.
Proof.
  intros day1 day2 d fresh.
  assert (∃ out self',
             DataIntegration.normalize_data (λ _, None) (λ _, None)
               "2024-11-22T10:00:00" (VDict d) fresh = Ok (out, self')
             ∧ DataIntegration.user_id out = VStr "user_1"
             ∧ length (DataIntegration.metrics out) = 2%nat
             ∧ Forall (λ metric,
                   in_int64 (DataIntegration.steps
                               (DataIntegration.physical_activity metric)) = true
                   ∧ in_int64 (DataIntegration.heart_rate
                                 (DataIntegration.physical_activity metric)) = true)
                 (DataIntegration.metrics out))
    as (out & self' & E & Hu & Hl & Hrange).
  { eexists _, _. split; [vm_compute; reflexivity|]. split; [reflexivity|].
    split; [reflexivity|]. repeat constructor. }
  exists out, self'. split; [exact E|].
  destruct (fitness_analysis_per_record (λ _, 0) "2024-11-22T10:00:01" out)
    as (He & Hid & _ & _ & Hrecs).
  { intros Hnil. rewrite Hnil in Hl. discriminate Hl. }
  { exact Hrange. }
  split; [exact He|]. split; [by rewrite Hid|].
  apply Forall2_length in Hrecs. by rewrite <- Hrecs.
Defined.


Lemma fitness_entries_agree_witness :
  let day1 : value :=
    VDict {[ "date" := VStr "2024-11-21"; "steps" := VNum 8000;
             "heart_rate" := VNum 70; "sleep_hours" := VNum 5.5 ]} in
  let day2 : value :=
    VDict {[ "date" := VStr "2024-11-20"; "steps" := VNum 12000;
             "heart_rate" := VNum 64; "sleep_hours" := VNum 8 ]} in
  let d : gmap string value :=
    {[ "user_id" := VStr "user_1"; "metrics" := VList [day1; day2] ]} in
  let fresh := {| DataIntegration.config := VDict ∅;
                  DataIntegration.normalized_data := None |} in
  ∃ out self',
    DataIntegration.normalize_data (λ _, None) (λ _, None)
      "2024-11-22T10:00:00" (VDict d) fresh = Ok (out, self')
    ∧ Forall (λ entry,
        FitnessAgent.activity_level entry = "high"%string
        ↔ FitnessAgent.goal_status (FitnessAgent.goal_progress entry) = "achieved"%string)
        (FitnessAgent.fitness_recommendations
           (FitnessAgent.analyze_fitness_data (λ _, 0) "2024-11-22T10:00:01" out)).
Proof.
  intros day1 day2 d fresh.
  assert (∃ out self',
             DataIntegration.normalize_data (λ _, None) (λ _, None)
               "2024-11-22T10:00:00" (VDict d) fresh = Ok (out, self'))
    as (out & self' & E).
  { eexists _, _. vm_compute. reflexivity. }
  exists out, self'. split; [exact E|].
  eapply Forall_impl;
    [exact (fitness_entries_agree (λ _, 0) _ _ _ _ "2024-11-22T10:00:01" _ _ _ E)|].
  intros entry [H _]. exact H.
Defined.

(** ** The sleep agent *)

Section MeanFacts.

Lemma sum_between (l : list Q) (lo hi : Q) :
  Forall (λ x, lo <= x <= hi) l →
  inject_Z (Z.of_nat (length l)) * lo <= foldr Qplus 0 l
  ∧ foldr Qplus 0 l <= inject_Z (Z.of_nat (length l)) * hi.
Proof.
  induction 1 as [|x l [Hlo Hhi] _ [IHlo IHhi]].
  - simpl length. simpl foldr. change (inject_Z (Z.of_nat 0)) with 0. split; lra.
  - simpl length. rewrite Nat2Z.inj_succ. unfold Z.succ. rewrite inject_Z_plus.
    simpl foldr. change (inject_Z 1) with 1. split; lra.
Qed.

Lemma days_positive {A} (l : list A) : l ≠ [] → 0 < inject_Z (Z.of_nat (length l)).
Proof.
  intros Hl. rewrite <- (Zlt_Qlt 0). destruct l; [done|]. simpl length. lia.
Qed.

(** The mean of a non-empty series lies between two bounds of the series. *)
Lemma np_mean_between (l : list Q) (lo hi : Q) :
  l ≠ [] → Forall (λ x, lo <= x <= hi) l → lo <= np_mean l <= hi.
Proof.
  intros Hne Hl. unfold np_mean. rewrite py_sum_foldr.
  pose proof (days_positive l Hne) as Hn.
  destruct (sum_between l lo hi Hl) as [Hlo Hhi]. split.
  - apply Qle_shift_div_l; [exact Hn|]. lra.
  - apply Qle_shift_div_r; [exact Hn|]. lra.
Qed.

Lemma np_mean_nonneg (l : list Q) :
  l ≠ [] → Forall (λ x, 0 <= x) l → 0 <= np_mean l.
Proof.
  intros Hne Hl. unfold np_mean. rewrite py_sum_foldr.
  apply Qle_shift_div_l; [by apply days_positive|]. rewrite Qmult_0_l.
  clear Hne. induction Hl; simpl; lra.
Qed.

Lemma py_min_le_l (a b : Q) : py_min a b <= a.
Proof. rewrite py_min_Qmin. apply Q.le_min_l. Qed.

Lemma py_min_glb (a b c : Q) : c <= a → c <= b → c <= py_min a b.
Proof. intros. rewrite py_min_Qmin. by apply Q.min_glb. Qed.

End MeanFacts.

Section SleepAgentProperties.
Import Sleep SleepAgent.
Variable np_std : list Q → Q.

Lemma first_of_reverse (l : list Z) : first_of (reverse l) = last_of l.
Proof. unfold first_of, last_of. by rewrite head_reverse. Qed.

Lemma last_of_reverse (l : list Z) : last_of (reverse l) = first_of l.
Proof. unfold first_of, last_of. by rewrite last_reverse. Qed.

(** The quality trend compares the last label with the first: read
    backwards, an improving series is a declining one, and a stable one
    stays stable. *)
Theorem quality_trend_reversed (quality_scores : list string) :
  (_calculate_quality_trend (reverse quality_scores) = "improving"%string
   ↔ _calculate_quality_trend quality_scores = "declining"%string)
  ∧ (_calculate_quality_trend (reverse quality_scores) = "declining"%string
     ↔ _calculate_quality_trend quality_scores = "improving"%string)
  ∧ (_calculate_quality_trend (reverse quality_scores) = "stable"%string
     ↔ _calculate_quality_trend quality_scores = "stable"%string).
Proof.
  unfold _calculate_quality_trend.
  rewrite length_reverse, fmap_reverse, first_of_reverse, last_of_reverse.
  destruct (length quality_scores <? 2)%nat; [by repeat split|].
  match goal with
  | |- context [(first_of ?l <? last_of ?l)%Z] =>
      generalize (first_of l), (last_of l)
  end.
  intros a b.
  destruct (Z.ltb_spec a b), (Z.ltb_spec b a); try lia; by repeat split.
Qed.

Lemma sleep_efficiency_nonempty (durations : list Q) :
  durations ≠ [] →
  _calculate_sleep_efficiency durations
  = py_min 100 (np_mean durations / optimal_duration * 100).
Proof. by destruct durations. Qed.

Lemma recovery_index_nonempty (durations : list Q) (quality_scores : list string) :
  durations ≠ [] →
  _calculate_recovery_index durations quality_scores
  = (py_min 1.0 (np_mean durations / optimal_duration)
     + np_mean ((λ score, if String.eqb score "excellent" then 1.0
                          else if String.eqb score "good" then 0.8
                          else if String.eqb score "fair" then 0.6
                          else 0.4) <$> quality_scores)) / 2 * 100.
Proof. by destruct durations. Qed.

(** The efficiency, the overall quality score and the recovery index of a
    non-empty series of non-negative durations are percentages; the last
    two are at least 12.5 and 20. *)
Theorem sleep_quality_scores_in_range (sleep_data : list SleepEntry) :
  sleep_data ≠ [] →
  Forall (λ entry, 0 <= sleep_hours entry) sleep_data →
  let durations := durations_of sleep_data in
  let quality_scores := quality_scores_of sleep_data in
  0 <= _calculate_sleep_efficiency durations <= 100
  ∧ 12.5 <= _calculate_overall_quality_score durations quality_scores <= 100
  ∧ 20 <= _calculate_recovery_index durations quality_scores <= 100.
Proof.
  intros Hne Hpos durations quality_scores.
  assert (durations ≠ []) as Hd by (subst durations; by destruct sleep_data).
  assert (quality_scores ≠ []) as Hq by (subst quality_scores; by destruct sleep_data).
  assert (0 <= np_mean durations) as Hmean.
  { apply np_mean_nonneg; [exact Hd|]. by apply Forall_fmap. }
  assert (0 <= np_mean durations / optimal_duration) as Hratio.
  { apply Qle_shift_div_l; [reflexivity|]. lra. }
  assert (0 <= py_min 100 (np_mean durations / optimal_duration * 100) <= 100) as Hds.
  { split; [apply py_min_glb; lra|apply py_min_le_l]. }
  assert (0 <= py_min 1.0 (np_mean durations / optimal_duration) <= 1) as Hdf.
  { split; [apply py_min_glb; lra|].
    pose proof (py_min_le_l 1.0 (np_mean durations / optimal_duration)). lra. }
  split; [|split].
  - rewrite sleep_efficiency_nonempty by done. exact Hds.
  - unfold _calculate_overall_quality_score.
    match goal with |- context [np_mean (?f <$> quality_scores)] =>
      pose proof (np_mean_between (f <$> quality_scores) 25 100) as Hqs end.
    destruct Hqs as [Hlo Hhi].
    { intros Hnil. by apply fmap_nil_inv in Hnil. }
    { apply Forall_fmap, Forall_forall. intros s _. simpl.
      repeat case_match; split; lra. }
    match goal with |- _ <= (?a + ?b) / 2 <= _ =>
      assert ((a + b) / 2 == (a + b) * (1 # 2)) as -> by field end.
    split; lra.
  - rewrite recovery_index_nonempty by done.
    match goal with |- context [np_mean (?f <$> quality_scores)] =>
      pose proof (np_mean_between (f <$> quality_scores) 0.4 1) as Hqs end.
    destruct Hqs as [Hlo Hhi].
    { intros Hnil. by apply fmap_nil_inv in Hnil. }
    { apply Forall_fmap, Forall_forall. intros s _. simpl.
      repeat case_match; split; lra. }
    match goal with |- _ <= (?a + ?b) / 2 * 100 <= _ =>
      assert ((a + b) / 2 * 100 == (a + b) * 50) as -> by field end.
    split; lra.
Qed.

(** The three counts of nights of the sleep patterns leave out the nights
    of 6 hours to below 7: with those, every night is counted once. *)
Theorem sleep_day_buckets (sleep_data : list SleepEntry) :
  let patterns := _analyze_sleep_patterns np_std sleep_data in
  (optimal_sleep_days patterns + insufficient_sleep_days patterns
   + excessive_sleep_days patterns
   + count_if (λ d, Qle_bool 6 d && Qltb d 7) (durations_of sleep_data)
   = Z.of_nat (length sleep_data))%Z.
Proof.
  intros patterns. subst patterns. unfold _analyze_sleep_patterns.
  cbn [optimal_sleep_days insufficient_sleep_days excessive_sleep_days].
  rewrite <- (length_fmap sleep_hours sleep_data). fold (durations_of sleep_data).
  apply count_if_partition4. intros d. unfold Qltb.
  destruct (Qle_bool 7 d) eqn:?, (Qle_bool d 9) eqn:?, (Qle_bool 6 d) eqn:?,
    (Qle_bool d 6) eqn:?, (Qle_bool 9 d) eqn:?, (Qle_bool d 7) eqn:?;
    simpl; try reflexivity; q_props; lra.
Qed.

Lemma sleep_debt_foldr (durations : list Q) :
  _calculate_sleep_debt durations == sleep_debt_spec durations.
Proof.
  destruct durations as [|d l]; [reflexivity|].
  unfold _calculate_sleep_debt. rewrite py_sum_foldr. apply sleep_debt_terms.
Qed.

Lemma sleep_debt_spec_nonneg (durations : list Q) : 0 <= sleep_debt_spec durations.
Proof.
  induction durations as [|d l IH]; simpl; [lra|].
  pose proof (Q.le_max_l 0 (7.5 - d)). lra.
Qed.

(** Sleep debt only accumulates: the debt of two periods is the sum of
    their debts, and it is zero exactly when every night had at least 7.5
    hours, so a longer night pays nothing back. *)
Theorem sleep_debt_accumulates (earlier later : list Q) :
  _calculate_sleep_debt (earlier ++ later)
  == _calculate_sleep_debt earlier + _calculate_sleep_debt later
  ∧ (_calculate_sleep_debt earlier == 0 ↔ Forall (λ duration, 7.5 <= duration) earlier).
Proof.
  rewrite !sleep_debt_foldr. split.
  - induction earlier as [|d l IH]; simpl; [lra|]. rewrite IH. lra.
  - induction earlier as [|d l IH]; simpl.
    + split; [constructor|reflexivity].
    + rewrite Forall_cons, <- IH.
      pose proof (sleep_debt_spec_nonneg l).
      destruct (Qlt_le_dec d 7.5) as [Hlt|Hge].
      * rewrite Q.max_r by lra. split; [intros; lra|intros [? _]; lra].
      * rewrite Q.max_l by lra. split; [intros; split; lra|intros [_ ?]; lra].
Qed.

(** With a standard deviation that is not negative and a positive mean the
    consistency is at most 1 and the sleep score at most 100. *)
Theorem sleep_score_at_most_100 (durations : list Q) :
  0 <= np_std durations → 0 < np_mean durations →
  _calculate_consistency np_std durations <= 1
  ∧ _calculate_sleep_score np_std durations <= 100.
Proof.
  intros Hstd Hmean.
  assert (_calculate_consistency np_std durations <= 1) as Hc.
  { unfold _calculate_consistency. destruct (length durations <? 2)%nat; [lra|].
    assert (0 <= np_std durations / np_mean durations).
    { apply Qle_shift_div_l; [exact Hmean|]. lra. }
    lra. }
  split; [exact Hc|]. unfold _calculate_sleep_score.
  destruct durations as [|d l] eqn:E; [lra|]. rewrite <- E in *.
  cbv zeta. repeat case_match; lra.
Qed.

End SleepAgentProperties.

Section SleepAnalysisOutcome.
Import Sleep SleepAgent.
Variable np_std : list Q → Q.

(** The four names the quality tallies know. *)
#[local] Abbreviation known_quality :=
  (["excellent"; "good"; "fair"; "poor"]%string).

Lemma known_quality_counted (k : string) :
  k ∈ known_quality ↔ is_Some (no_quality_days !! k).
Proof.
  unfold no_quality_days. split.
  - intros Hk. repeat (apply elem_of_cons in Hk as [->|Hk]; [by eexists|]).
    by apply elem_of_nil in Hk.
  - intros [n Hn].
    destruct (decide (k = "excellent"%string)) as [->|]; [set_solver|].
    destruct (decide (k = "good"%string)) as [->|]; [set_solver|].
    destruct (decide (k = "fair"%string)) as [->|]; [set_solver|].
    destruct (decide (k = "poor"%string)) as [->|]; [set_solver|].
    by simplify_map_eq.
Qed.

Lemma quality_tally (labels : list string) :
  Forall (λ k, k ∈ known_quality) labels →
  ∃ dist, py_tally no_quality_days labels = Ok dist
          ∧ dist !! "poor" = Some (count_if (String.eqb "poor") labels)
          ∧ dist !! "fair" = Some (count_if (String.eqb "fair") labels).
Proof.
  intros Hl. destruct (py_tally_counts labels no_quality_days) as (dist & Hd & Hk).
  { eapply Forall_impl; [exact Hl|]. intros k. apply known_quality_counted. }
  exists dist. split; [exact Hd|]. rewrite !Hk. split; reflexivity.
Qed.

Lemma quality_tally_unknown (labels : list string) :
  Exists (λ k, k ∉ known_quality) labels →
  py_tally no_quality_days labels = Raise KeyError.
Proof.
  intros Hl. apply py_tally_unknown. eapply Exists_impl; [exact Hl|].
  intros k Hk. simpl in Hk. apply eq_None_not_Some. by rewrite <- known_quality_counted.
Qed.

Lemma generate_sleep_insights_spec (sleep_data : list SleepEntry) :
  sleep_data ≠ [] →
  Forall (λ entry, quality_score entry ∈ known_quality) sleep_data →
  ∃ insights,
    _generate_sleep_insights np_std sleep_data = Returns insights
    ∧ (2 <= length insights <= 3)%nat
    ∧ (length insights = 3%nat
       ↔ (Z.of_nat (length sleep_data)
          < 2 * count_if (λ entry, String.eqb "poor" (quality_score entry)
                                   || String.eqb "fair" (quality_score entry))
                         sleep_data)%Z).
Proof.
  intros Hne Hq. unfold _generate_sleep_insights.
  destruct (quality_tally (quality_scores_of sleep_data)) as (dist & -> & Hp & Hf).
  { by apply Forall_fmap. }
  cbn [lift mbind outcome_bind]. unfold dict_getitem. rewrite Hp, Hf.
  cbn [lift mbind outcome_bind].
  unfold py_truediv. rewrite (days_nonzero _ Hne). cbn [mbind outcome_bind].
  unfold quality_scores_of. rewrite !count_if_fmap.
  set (poor := count_if (String.eqb "poor" ∘ quality_score) sleep_data).
  set (fair := count_if (String.eqb "fair" ∘ quality_score) sleep_data).
  set (n := Z.of_nat (length sleep_data)).
  assert (count_if (λ entry, String.eqb "poor" (quality_score entry)
                             || String.eqb "fair" (quality_score entry)) sleep_data
          = (poor + fair)%Z) as ->.
  { subst poor fair. clear. induction sleep_data as [|e l IH]; [done|].
    rewrite !count_if_cons, IH. unfold compose.
    destruct (String.eqb "poor" (quality_score e)) eqn:Ep;
      destruct (String.eqb "fair" (quality_score e)) eqn:Ef; cbn [orb]; try lia.
    apply String.eqb_eq in Ep. apply String.eqb_eq in Ef. congruence. }
  assert (0 < inject_Z n) as Hn by (by apply days_positive).
  assert (Qltb 0.5 (inject_Z (poor + fair) / inject_Z n) = true ↔ (n < 2 * (poor + fair))%Z)
    as Hshare.
  { rewrite Qltb_lt. rewrite Zlt_Qlt, inject_Z_mult. change (inject_Z 2) with 2. split.
    - intros H. apply (Qmult_lt_compat_r _ _ _ Hn) in H.
      revert H. unfold Qdiv.
      rewrite <- Qmult_assoc, (Qmult_comm (/ _)), Qmult_inv_r by lra. lra.
    - intros H. apply Qlt_shift_div_l; [exact Hn|]. lra. }
  eexists. split; [reflexivity|].
  revert Hshare. generalize (Qltb 0.5 (inject_Z (poor + fair) / inject_Z n)).
  intros [] Hshare.
  - assert (n < 2 * (poor + fair))%Z as Hyes by (by apply Hshare).
    repeat case_match; simpl; (split; [lia|]); by split.
  - assert (¬ (n < 2 * (poor + fair))%Z) as Hno.
    { intros H. apply Hshare in H. discriminate H. }
    repeat case_match; simpl; (split; [lia|]); split; intros; lia.
Qed.

(** On at least one night with known quality labels the insights are two
    or three: the third is there exactly when more than half of the nights
    are labelled "poor" or "fair". *)
Theorem sleep_insights_count (sleep_data : list SleepEntry) :
  sleep_data ≠ [] →
  Forall (λ entry, quality_score entry ∈ known_quality) sleep_data →
  ∃ insights,
    _generate_sleep_insights np_std sleep_data = Returns insights
    ∧ (2 <= length insights <= 3)%nat
    ∧ (length insights = 3%nat
       ↔ (Z.of_nat (length sleep_data)
          < 2 * count_if (λ entry, String.eqb "poor" (quality_score entry)
                                   || String.eqb "fair" (quality_score entry))
                         sleep_data)%Z).
Proof. exact (generate_sleep_insights_spec sleep_data). Qed.

(** The analysis over at least one night with known labels, field by
    field. *)
Lemma analyze_sleep_data_spec (now : string) (data : DataIntegration.NormalizedData) :
  let sleep_data := sleep_entries (DataIntegration.metrics data) in
  sleep_data ≠ [] →
  Forall (λ entry, quality_score entry ∈ known_quality) sleep_data →
  ∃ quality insights,
    _calculate_sleep_quality_metrics np_std sleep_data = Ok quality
    ∧ _generate_sleep_insights np_std sleep_data = Returns insights
    ∧ analyze_sleep_data np_std now data
      = {| user_id := DataIntegration.user_id data;
           analysis_date := now;
           error := None;
           sleep_analysis := sleep_data;
           sleep_patterns := Some (_analyze_sleep_patterns np_std sleep_data);
           sleep_quality_metrics := Some quality;
           recommendations := _generate_sleep_recommendations sleep_data;
           sleep_insights := insights |}.
Proof.
  intros sleep_data Hne Hq.
  destruct (generate_sleep_insights_spec sleep_data Hne Hq) as (insights & Hi & _).
  destruct (quality_tally (quality_scores_of sleep_data)) as (dist & Hd & _).
  { by apply Forall_fmap. }
  eexists _, insights. split; [|split; [exact Hi|]].
  - unfold _calculate_sleep_quality_metrics. rewrite Hd. reflexivity.
  - unfold analyze_sleep_data, analyze_body. fold sleep_data.
    unfold _calculate_sleep_quality_metrics. rewrite Hd. simpl. rewrite Hi. reflexivity.
Qed.

Lemma analyze_sleep_data_no_record (now : string)
    (data : DataIntegration.NormalizedData) :
  DataIntegration.metrics data = [] →
  analyze_sleep_data np_std now data = _get_error_response now.
Proof.
  intros He. unfold analyze_sleep_data, analyze_body. rewrite He. reflexivity.
Qed.

Lemma analyze_sleep_data_unknown_label (now : string)
    (data : DataIntegration.NormalizedData) :
  Exists (λ entry, quality_score entry ∉ known_quality)
    (sleep_entries (DataIntegration.metrics data)) →
  analyze_sleep_data np_std now data = _get_error_response now.
Proof.
  intros Hu. unfold analyze_sleep_data, analyze_body, _calculate_sleep_quality_metrics.
  rewrite quality_tally_unknown; [reflexivity|]. by apply Exists_fmap.
Qed.

(** The sleep analysis is the error response exactly when there is no
    record, or some record carries a quality label other than the four the
    tallies know. *)
Theorem sleep_analysis_fails_iff (now : string) (data : DataIntegration.NormalizedData) :
  analyze_sleep_data np_std now data = _get_error_response now
  ↔ DataIntegration.metrics data = []
    ∨ Exists (λ r, DataIntegration.quality_score (DataIntegration.sleep r)
                   ∉ known_quality) (DataIntegration.metrics data).
Proof.
  split.
  - intros Herr.
    destruct (decide (DataIntegration.metrics data = [])) as [He|Hne]; [by left|].
    right. apply not_Forall_Exists; [intros r; apply _|]. intros Hall.
    destruct (analyze_sleep_data_spec now data) as (q & i & _ & _ & Hok).
    { unfold sleep_entries. intros Hnil. by apply fmap_nil_inv in Hnil. }
    { unfold sleep_entries. apply Forall_fmap. eapply Forall_impl; [exact Hall|].
      intros r Hr. exact Hr. }
    rewrite Hok in Herr. discriminate Herr.
  - intros [He|Hu]; [by apply analyze_sleep_data_no_record|].
    apply analyze_sleep_data_unknown_label. unfold sleep_entries.
    apply Exists_fmap. exact Hu.
Qed.

End SleepAnalysisOutcome.

Section SleepAgentOnNormalized.
Import Sleep SleepAgent.
Variable np_std : list Q → Q.
Variable int_of_str : string → option Z.
Variable float_of_str : string → option Q.

Lemma normalized_quality_known (ms : list DataIntegration.NormalizedRecord) :
  Forall (λ r, ∃ metric,
            DataIntegration.normalize_metric int_of_str float_of_str metric = Ok r) ms →
  Forall (λ entry, quality_score entry
                   ∈ ["excellent"; "good"; "fair"; "poor"]%string) (sleep_entries ms).
Proof.
  intros Hms. unfold sleep_entries. apply Forall_fmap.
  eapply Forall_impl; [exact Hms|]. intros r [metric Hr]. simpl.
  apply normalize_metric_labels in Hr as (_ & _ & Hq & _).
  apply sleep_quality_of_hours in Hq. rewrite Hq. repeat case_match; set_solver.
Qed.


End SleepAgentOnNormalized.

Lemma sleep_quality_scores_in_range_witness :
  let night (h : Q) (q : string) :=
    {| Sleep.date := VStr "2024-11-21"; Sleep.sleep_hours := h;
       Sleep.quality_score := q; Sleep.adequacy := "adequate" |} in
  let sleep_data := [night 8 "excellent"; night 5.5 "fair"] in
  SleepAgent._calculate_sleep_efficiency (SleepAgent.durations_of sleep_data) == 90
  ∧ 20 <= SleepAgent._calculate_recovery_index (SleepAgent.durations_of sleep_data)
             (SleepAgent.quality_scores_of sleep_data) <= 100.
Proof.
  intros night sleep_data. split; [reflexivity|].
  apply (sleep_quality_scores_in_range sleep_data); [discriminate|].
  repeat constructor; discriminate.
Defined.

Lemma sleep_score_at_most_100_witness :
  Sleep._calculate_sleep_score (λ _, 1 # 2) [7; 8] == 98
  ∧ Sleep._calculate_sleep_score (λ _, 1 # 2) [7; 8] <= 100.
Proof.
  split; [reflexivity|].
  apply (sleep_score_at_most_100 (λ _, 1 # 2) [7; 8]); [discriminate|reflexivity].
Defined.

Lemma sleep_insights_count_witness :
  let night (h : Q) (q : string) :=
    {| Sleep.date := VStr "2024-11-21"; Sleep.sleep_hours := h;
       Sleep.quality_score := q; Sleep.adequacy := "insufficient" |} in
  let sleep_data := [night 5.5 "fair"; night 4 "poor"; night 8 "excellent"] in
  ∃ insights,
    SleepAgent._generate_sleep_insights (λ _, 1 # 2) sleep_data = Returns insights
    ∧ length insights = 3%nat.
Proof.
  intros night sleep_data.
  destruct (sleep_insights_count (λ _, 1 # 2) sleep_data) as (insights & Hi & _ & Hthree).
  - discriminate.
  - repeat constructor; set_solver.
  - exists insights. split; [exact Hi|]. apply Hthree. reflexivity.
Defined.


(** ** The reports of the agents under the aggregator *)

Section ReportFacts.
Import Aggregate Reports.

Lemma fitness_dict_lookup (a : FitnessAgent.FitnessAnalysis) :
  fitness_dict a !! "user_id" = Some (FitnessAgent.user_id a)
  ∧ fitness_dict a !! "trends"
    = Some (VDict (from_option trends_dict ∅ (FitnessAgent.trends a)))
  ∧ fitness_dict a !! "performance_metrics"
    = Some (VDict (from_option performance_dict ∅ (FitnessAgent.performance_metrics a))).
Proof.
  unfold fitness_dict, with_error.
  destruct (FitnessAgent.error a); repeat split; by simplify_map_eq.
Qed.

Lemma sleep_dict_lookup (a : SleepAgent.SleepAnalysis) :
  sleep_dict a !! "sleep_patterns"
  = Some (VDict (from_option patterns_dict ∅ (SleepAgent.sleep_patterns a)))
  ∧ sleep_dict a !! "sleep_quality_metrics"
    = Some (VDict (from_option quality_metrics_dict ∅
                     (SleepAgent.sleep_quality_metrics a))).
Proof.
  unfold sleep_dict, with_error.
  destruct (SleepAgent.error a); repeat split; by simplify_map_eq.
Qed.

Lemma numeric_VNum (q : Q) : numeric (VNum q).
Proof. by exists q. Qed.

Lemma fitness_dict_well_formed (a : FitnessAgent.FitnessAnalysis) :
  well_formed_fitness (fitness_dict a).
Proof.
  destruct (fitness_dict_lookup a) as (_ & Ht & Hp).
  unfold well_formed_fitness, section_ok. rewrite Ht, Hp. split; [|done].
  unfold number_or_missing.
  destruct (FitnessAgent.performance_metrics a) as [p|]; simpl.
  - unfold performance_dict. simplify_map_eq. split; apply numeric_VNum.
  - by rewrite !lookup_empty.
Qed.

Lemma sleep_dict_well_formed (a : SleepAgent.SleepAnalysis) :
  well_formed_sleep (sleep_dict a).
Proof.
  destruct (sleep_dict_lookup a) as (Hp & Hq).
  unfold well_formed_sleep, section_ok. rewrite Hp, Hq.
  unfold number_or_missing. split.
  - destruct (SleepAgent.sleep_patterns a) as [p|]; simpl.
    + unfold patterns_dict. simplify_map_eq. apply numeric_VNum.
    + by rewrite lookup_empty.
  - destruct (SleepAgent.sleep_quality_metrics a) as [q|]; simpl.
    + unfold quality_metrics_dict. simplify_map_eq. apply numeric_VNum.
    + by rewrite lookup_empty.
Qed.

Lemma sleep_dict_guarded (a : FitnessAgent.FitnessAnalysis)
    (s : SleepAgent.SleepAnalysis) :
  ¬ unguarded_sleep_quality_read (fitness_dict a) (sleep_dict s).
Proof.
  intros (_ & _ & Hq). destruct (sleep_dict_lookup s) as (_ & Hq'). congruence.
Qed.

Lemma fitness_dict_component (a : FitnessAgent.FitnessAnalysis) :
  component (fitness_dict a) "performance_metrics" "fitness_score"
    (Some (from_option FitnessAgent.fitness_score 0 (FitnessAgent.performance_metrics a))).
Proof.
  destruct (fitness_dict_lookup a) as (_ & _ & Hp).
  unfold component, field_or_0. rewrite Hp. eexists. split; [|reflexivity].
  destruct (FitnessAgent.performance_metrics a) as [p|]; simpl.
  - unfold performance_dict. by simplify_map_eq.
  - by rewrite lookup_empty.
Qed.

Lemma sleep_dict_component (a : SleepAgent.SleepAnalysis) :
  component (sleep_dict a) "sleep_quality_metrics" "sleep_score"
    (Some (from_option SleepAgent.sleep_score 0 (SleepAgent.sleep_quality_metrics a))).
Proof.
  destruct (sleep_dict_lookup a) as (_ & Hq).
  unfold component, field_or_0. rewrite Hq. eexists. split; [|reflexivity].
  destruct (SleepAgent.sleep_quality_metrics a) as [q|]; simpl.
  - unfold quality_metrics_dict. by simplify_map_eq.
  - by rewrite lookup_empty.
Qed.

(** The aggregation of two agent reports and a well-formed sentiment
    report. *)
Lemma aggregate_reports (now : string) (a : FitnessAgent.FitnessAnalysis)
    (s : SleepAgent.SleepAnalysis) (dm : gmap string value) (positive_pct : option Q) :
  well_formed_sentiment dm →
  sentiment_component dm positive_pct →
  ∃ insight,
    aggregate_body now (VDict (fitness_dict a)) (VDict (sleep_dict s)) (VDict dm)
    = Ok insight
    ∧ aggregate_insights now (VDict (fitness_dict a)) (VDict (sleep_dict s)) (VDict dm)
      = insight
    ∧ error insight = None
    ∧ user_id insight = FitnessAgent.user_id a
    ∧ wellness_score insight
      == weighted_sum
           (Some (from_option FitnessAgent.fitness_score 0
                    (FitnessAgent.performance_metrics a)))
           (Some (from_option SleepAgent.sleep_score 0
                    (SleepAgent.sleep_quality_metrics s)))
           positive_pct.
Proof.
  intros Hwf Hm.
  destruct (aggregate_body_succeeds now (fitness_dict a) (sleep_dict s) dm)
    as [insight Hb];
    [apply fitness_dict_well_formed | apply sleep_dict_well_formed | exact Hwf
    | apply sleep_dict_guarded |].
  exists insight. split; [exact Hb|].
  split; [unfold aggregate_insights; by rewrite Hb|].
  destruct (aggregate_body_no_error _ _ _ _ _ Hb) as [He _]. split; [exact He|].
  pose proof (aggregate_body_score _ _ _ _ _ Hb) as Hscore.
  destruct (calculate_wellness_score_sum (fitness_dict a) (sleep_dict s) dm _ _ _
              (fitness_dict_component a) (sleep_dict_component s) Hm)
    as (w & Hw & Hsum & _).
  rewrite Hw in Hscore. injection Hscore as <-. split; [|exact Hsum].
  unfold aggregate_body in Hb. simpl in Hb.
  destruct (fitness_dict_lookup a) as (Hu & _). rewrite Hu in Hb. simpl in Hb.
  ok_inv. reflexivity.
Qed.


End ReportFacts.

Section DashboardProperties.
Import Aggregate Reports Dashboard.
Variable np_std : list Q → Q.

Lemma aggregate_body_trends (now : string) (f s m : value) (a : AggregatedInsight) :
  aggregate_body now f s m = Ok a →
  _analyze_trends f s m = Ok (trend_analysis a)
  ∧ _generate_priority_recommendations f s m = Ok (priority_recommendations a).
Proof.
  unfold aggregate_body. intros H. repeat bind_inv H. by injection H as <-.
Qed.

Lemma analyze_trends_no_fitness_section (df : gmap string value) (s m : value) :
  df !! "trends" = None →
  _analyze_trends (VDict df) s m = _analyze_trends (VDict ∅) s m.
Proof.
  intros Hdf. unfold _analyze_trends, py_in. rewrite Hdf, lookup_empty. reflexivity.
Qed.

Lemma well_formed_no_fitness : well_formed_fitness ∅.
Proof. unfold well_formed_fitness, section_ok. by rewrite !lookup_empty. Qed.

(** The step trend of the fitness agent is never "improving" or
    "declining", the two words the aggregator counts. *)
Lemma steps_trend_not_counted (now : string) (data : DataIntegration.NormalizedData) :
  let tr := from_option trends_dict ∅
              (FitnessAgent.trends (FitnessAgent.analyze_fitness_data np_std now data)) in
  py_eq_str (default (VStr "stable") (tr !! "steps_trend")) "improving" = false
  ∧ py_eq_str (default (VStr "stable") (tr !! "steps_trend")) "declining" = false.
Proof.
  intros tr. subst tr.
  destruct (decide (DataIntegration.metrics data = [])) as [He|Hne].
  - rewrite analyze_fitness_data_no_record by done. simpl. by rewrite lookup_empty.
  - destruct (analyze_fitness_data_spec np_std now data Hne) as (p & _ & ->).
    cbn [FitnessAgent.trends from_option]. unfold trends_dict.
    rewrite lookup_insert_eq. cbn [default FitnessAgent.steps_trend].
    unfold FitnessAgent._calculate_trends. cbn [FitnessAgent.steps_trend].
    by destruct (_ && _).
Qed.

(** In the data flow of the dashboard the overall trend does not count the
    steps: it is the overall trend the aggregator gives the sleep and
    sentiment reports with an empty fitness report. *)
Theorem dashboard_trend_ignores_steps (clock : Clock)
    (data : DataIntegration.NormalizedData) (dm : gmap string value) :
  well_formed_sentiment dm →
  trend_analysis (insights_of np_std clock data (VDict dm)) !! "overall"
  = trend_analysis
      (aggregate_insights (at_aggregation clock) (VDict ∅)
         (VDict (sleep_dict (SleepAgent.analyze_sleep_data np_std (at_sleep clock) data)))
         (VDict dm)) !! "overall".
Proof.
  intros Hwf. unfold insights_of.
  set (a := FitnessAgent.analyze_fitness_data np_std (at_fitness clock) data).
  set (s := SleepAgent.analyze_sleep_data np_std (at_sleep clock) data).
  destruct (aggregate_body_succeeds (at_aggregation clock) (fitness_dict a) (sleep_dict s) dm)
    as [insight Hb];
    [apply fitness_dict_well_formed | apply sleep_dict_well_formed | exact Hwf
    | apply sleep_dict_guarded |].
  destruct (aggregate_body_succeeds (at_aggregation clock) ∅ (sleep_dict s) dm)
    as [insight0 Hb0];
    [apply well_formed_no_fitness | apply sleep_dict_well_formed | exact Hwf | |].
  { intros ([? Hpm] & _). by rewrite lookup_empty in Hpm. }
  unfold aggregate_insights. rewrite Hb, Hb0.
  apply aggregate_body_trends in Hb as [Ht _]. apply aggregate_body_trends in Hb0 as [Ht0 _].
  destruct (fitness_dict_lookup a) as (_ & Htr & _).
  destruct (steps_trend_not_counted (at_fitness clock) data) as [Hi Hd].
  destruct (analyze_trends_without_fitness _ _ _ _ _ Htr Hi Hd Ht) as (t' & Ht' & <-).
  rewrite analyze_trends_no_fitness_section in Ht' by apply lookup_delete_eq.
  rewrite Ht0 in Ht'. by injection Ht' as <-.
Qed.

Lemma priority_recommendations_head (f m : value) (ds sp : gmap string value)
    (recs : list Recommendation) :
  ds !! "sleep_patterns" = Some (VDict sp) →
  sp !! "average_duration" = None →
  _generate_priority_recommendations f (VDict ds) m = Ok recs →
  head recs
  = Some {| priority := "high";
            category := "sleep";
            recommendation := "Sleep duration is critically low. This should be your top priority for health improvement.";
            action := "Establish a consistent bedtime routine and aim for 7-9 hours nightly." |}.
Proof.
  intros Hsp Havg H. unfold _generate_priority_recommendations in H.
  assert (py_in "sleep_patterns" (VDict ds) = Ok true) as E1.
  { unfold py_in. by rewrite Hsp. }
  assert (py_getitem (VDict ds) "sleep_patterns"
            ≫= (λ sp, py_get sp "average_duration" (VNum 0)) = Ok (VNum 0)) as E2.
  { unfold py_getitem. rewrite Hsp. simpl. by rewrite Havg. }
  rewrite E1 in H. cbn [mbind result_bind] in H. rewrite E2 in H.
  clear E1 E2. ok_inv; try reflexivity;
    match goal with Hx : py_lt (VNum 0) 6 = Ok false |- _ => discriminate Hx end.
Qed.

End DashboardProperties.

Section DashboardOnEmptyMetrics.
Import Aggregate Reports Dashboard.
Variable np_std : list Q → Q.
Variable int_of_str : string → option Z.
Variable float_of_str : string → option Q.


End DashboardOnEmptyMetrics.


Lemma dashboard_trend_ignores_steps_witness :
  let day (n : Z) (h : Q) (q : string) :=
    {| DataIntegration.date := VStr "2024-11-21";
       DataIntegration.physical_activity :=
         {| DataIntegration.steps := n; DataIntegration.heart_rate := 70;
            DataIntegration.hrv := 0 |};
       DataIntegration.sleep :=
         {| DataIntegration.duration_hours := h;
            DataIntegration.quality_score := q |};
       DataIntegration.derived_metrics :=
         {| DataIntegration.activity_level := "moderate";
            DataIntegration.heart_rate_zone := "normal";
            DataIntegration.sleep_adequacy := "adequate" |} |} in
  let data :=
    {| DataIntegration.user_id := VStr "user_1";
       DataIntegration.data_source := "mock_data";
       DataIntegration.last_updated := "2024-11-22T10:00:00";
       DataIntegration.metrics := [day 6000%Z 8 "excellent"; day 9000%Z 5.5 "fair"] |} in
  let clock :=
    {| Dashboard.at_fitness := "2024-11-22T10:00:01";
       Dashboard.at_sleep := "2024-11-22T10:00:02";
       Dashboard.at_aggregation := "2024-11-22T10:00:03" |} in
  let insight := Dashboard.insights_of (λ _, 0) clock data (VDict ∅) in
  Aggregate.trend_analysis insight !! "fitness" = Some (VStr "increasing")
  ∧ Aggregate.trend_analysis insight !! "overall" = Some (VStr "declining").
Proof.
  intros day data clock insight. split; [vm_compute; reflexivity|].
  subst insight. rewrite (dashboard_trend_ignores_steps (λ _, 0) clock data ∅).
  - vm_compute. reflexivity.
  - split; exact I.
Defined.

